(** * Workbench list service (vs/platform/list/browser/listService.ts)

    A shallow embedding of the glue between the list and tree widgets and the
    workbench: the registry of widgets with its last-focused widget, the
    controllers that read the user's settings, the context keys that mirror
    selection and focus, the options passed to the widgets, the resource
    navigator that turns selection and focus changes into open events, and
    the keyboard-navigation filter that swallows keybinding chords.

    JavaScript values are a small tagged union, objects live in a store
    indexed by references, configuration and context keys are read through
    their interfaces, and every event handler is a function from the state
    before the event to the state after it together with what it emitted. *)

From stdpp Require Import gmap strings list fin_maps.
From Stdlib Require Import ZArith Lia.

Local Open Scope string_scope.
Local Open Scope list_scope.

(** ** JavaScript values *)

(** References to objects of the store. *)
Abbreviation loc := positive.

Inductive Value : Type :=
| VUndefined
| VNull
| VBool (b : bool)
| VNumber (n : Z)
| VString (s : string)
| VObject (ref : loc).

Global Instance Value_eq_dec : EqDecision Value.
Proof. solve_decision. Defined.

Global Instance Value_inhabited : Inhabited Value := populate VUndefined.

(** [a === b]: primitives by value, objects by reference. *)
Definition strictEq (a b : Value) : bool := bool_decide (a = b).

(** [!!v] *)
Definition truthy (v : Value) : bool :=
  match v with
  | VUndefined | VNull => false
  | VBool b => b
  | VNumber n => negb (n =? 0)%Z
  | VString s => negb (bool_decide (s = EmptyString))
  | VObject _ => true
  end.

Inductive JsType := TUndefined | TObject | TBoolean | TNumber | TString.

Global Instance JsType_eq_dec : EqDecision JsType.
Proof. solve_decision. Defined.

Definition typeof (v : Value) : JsType :=
  match v with
  | VUndefined => TUndefined
  | VNull | VObject _ => TObject
  | VBool _ => TBoolean
  | VNumber _ => TNumber
  | VString _ => TString
  end.

(** A property read [o.k] on an object literal: [undefined] when absent. *)
Definition prop (o : gmap string Value) (k : string) : Value :=
  default VUndefined (o !! k).

(** ** Browser events *)

Record Modifiers := {
  ctrlKey : bool;
  metaKey : bool;
  altKey : bool
}.

Record MouseEventData := {
  button : Z;
  mouseModifiers : Modifiers
}.

(** [SelectionKeyboardEvent extends KeyboardEvent { preserveFocus?: boolean }] *)
Record KeyboardEventData := {
  keyModifiers : Modifiers;
  preserveFocus : Value
}.

Record TouchEventData := {
  touchModifiers : Modifiers
}.

(** The DOM interface an event object is an instance of. *)
Inductive EventInterface :=
| MouseEvent (m : MouseEventData)
| KeyboardEvent (k : KeyboardEventData)
| TouchEvent (t : TouchEventData)
| PlainUIEvent.

Record UIEvent := {
  type : string;
  detail : Z;
  iface : EventInterface
}.

(** [e instanceof MouseEvent], [e instanceof KeyboardEvent] *)
Definition asMouseEvent (e : UIEvent) : option MouseEventData :=
  match iface e with MouseEvent m => Some m | _ => None end.

Definition asKeyboardEvent (e : UIEvent) : option KeyboardEventData :=
  match iface e with KeyboardEvent k => Some k | _ => None end.

Definition instanceofMouseEvent (e : UIEvent) : bool :=
  bool_decide (is_Some (asMouseEvent e)).

Definition instanceofKeyboardEvent (e : UIEvent) : bool :=
  bool_decide (is_Some (asKeyboardEvent e)).

(** [IListMouseEvent<T> | IListTouchEvent<T>]: only [browserEvent] is read. *)
Inductive IListPointerEvent :=
| IListMouseEvent (browserEvent : MouseEventData)
| IListTouchEvent (browserEvent : TouchEventData).

Definition browserEvent_altKey (event : IListPointerEvent) : bool :=
  match event with
  | IListMouseEvent m => altKey (mouseModifiers m)
  | IListTouchEvent t => altKey (touchModifiers t)
  end.

(** ** Configuration *)

(** [IConfigurationService], read through [getValue] only. *)
Record IConfigurationService := {
  getValue : string -> Value
}.

(** [IConfigurationChangeEvent] *)
Record IConfigurationChangeEvent := {
  affectsConfiguration : string -> bool
}.

(** A configuration service backed by a table of settings. *)
Definition settings (m : gmap string Value) : IConfigurationService :=
  {| getValue := prop m |}.


Definition multiSelectModifierSettingKey := "workbench.list.multiSelectModifier".
Definition openModeSettingKey := "workbench.list.openMode".
Definition horizontalScrollingKey := "workbench.tree.horizontalScrolling".
Definition keyboardNavigationSettingKey := "workbench.list.keyboardNavigation".
Definition treeIndentKey := "workbench.tree.indent".

Definition useAltAsMultipleSelectionModifier (configurationService : IConfigurationService) : bool :=
  strictEq (getValue configurationService multiSelectModifierSettingKey) (VString "alt").

Definition useSingleClickToOpen (configurationService : IConfigurationService) : bool :=
  negb (strictEq (getValue configurationService openModeSettingKey) (VString "doubleClick")).

(** ** MultipleSelectionController *)

Module MultipleSelectionController.

Record t := {
  useAlt : bool   (* this.useAltAsMultipleSelectionModifier *)
}.

Definition constructor (configurationService : IConfigurationService) : t :=
  {| useAlt := useAltAsMultipleSelectionModifier configurationService |}.

(** The listener of [registerListeners]; [configurationService] is the
    service as it stands when the event is delivered. *)
Definition onDidChangeConfiguration
    (configurationService : IConfigurationService)
    (e : IConfigurationChangeEvent) (this : t) : t :=
  if affectsConfiguration e multiSelectModifierSettingKey
  then {| useAlt := useAltAsMultipleSelectionModifier configurationService |}
  else this.

Section Methods.
(** [isSelectionSingleChangeEvent] and [isSelectionRangeChangeEvent] of
    vs/base/browser/ui/list/listWidget, the platform defaults. *)
Variable defaultIsSelectionSingleChangeEvent : IListPointerEvent -> bool.
Variable defaultIsSelectionRangeChangeEvent : IListPointerEvent -> bool.

Definition isSelectionSingleChangeEvent (this : t) (event : IListPointerEvent) : bool :=
  if useAlt this then browserEvent_altKey event
  else defaultIsSelectionSingleChangeEvent event.

Definition isSelectionRangeChangeEvent (this : t) (event : IListPointerEvent) : bool :=
  defaultIsSelectionRangeChangeEvent event.
End Methods.

End MultipleSelectionController.

(** ** WorkbenchOpenController *)

Module WorkbenchOpenController.

Record t := {
  openOnSingleClick : bool;
  existingOpenController : Value   (* IOpenController | undefined *)
}.

Definition constructor (configurationService : IConfigurationService)
    (existingOpenController : Value) : t :=
  {| openOnSingleClick := useSingleClickToOpen configurationService;
     existingOpenController := existingOpenController |}.

Definition onDidChangeConfiguration
    (configurationService : IConfigurationService)
    (e : IConfigurationChangeEvent) (this : t) : t :=
  if affectsConfiguration e openModeSettingKey
  then {| openOnSingleClick := useSingleClickToOpen configurationService;
          existingOpenController := existingOpenController this |}
  else this.

Section Methods.
(** [existingOpenController.shouldOpen(event)]: the wrapped controller
    is the caller's object, its method is whatever the caller wrote. *)
Variable existingShouldOpen : Value -> UIEvent -> bool.

Definition delegate (this : t) (event : UIEvent) : bool :=
  if truthy (existingOpenController this)
  then existingShouldOpen (existingOpenController this) event
  else true.

Definition shouldOpen (this : t) (event : UIEvent) : bool :=
  match asMouseEvent event with
  | Some m =>
      let isLeftButton := (button m =? 0)%Z in
      let isDoubleClick := (detail event =? 2)%Z in
      if isLeftButton && negb (openOnSingleClick this) && negb isDoubleClick
      then false
      else if isLeftButton || (button m =? 1)%Z
      then delegate this event
      else false
  | None => delegate this event
  end.
End Methods.

End WorkbenchOpenController.

(** ** Arrays *)

Section Arrays.
Context {A : Type}.

(** [Array.prototype.indexOf] under an identity test [same]: the first
    index whose element is the searched one, or [-1]. *)
Fixpoint indexOfFrom (same : A -> bool) (l : list A) (i : Z) : Z :=
  match l with
  | [] => (-1)%Z
  | y :: l' => if same y then i else indexOfFrom same l' (i + 1)%Z
  end.

Definition indexOf (same : A -> bool) (l : list A) : Z := indexOfFrom same l 0%Z.

(** [Array.prototype.splice(start, deleteCount)] with no inserted items:
    a negative [start] counts from the end, and both are clamped. *)
Definition splice (start deleteCount : Z) (l : list A) : list A :=
  let len := Z.of_nat (length l) in
  let actualStart :=
    if (start <? 0)%Z then Z.max (len + start) 0 else Z.min start len in
  let actualDeleteCount := Z.min (Z.max deleteCount 0) (len - actualStart) in
  take (Z.to_nat actualStart) l ++ drop (Z.to_nat (actualStart + actualDeleteCount)) l.
End Arrays.

(** What a call completes with. *)
Inductive Completion (A : Type) :=
| Normal (a : A)
| Throw (message : string).
Arguments Normal {A} a.
Arguments Throw {A} message.

(** ** ListService *)

Module ListService.

(** Widgets are objects compared by reference. *)
Abbreviation ListWidget := nat.

(** [IRegisteredList]; [objectId] is the identity of the object literal
    built by [register]. *)
Record IRegisteredList := {
  objectId : nat;
  widget : ListWidget;
  extraContextKeys : option (list string)
}.

Definition sameObject (a b : IRegisteredList) : bool :=
  bool_decide (objectId a = objectId b).

Record t := {
  lists : list IRegisteredList;
  _lastFocusedWidget : option ListWidget
}.

(** The service together with what lives outside it: the registrations
    whose [onDidFocus] and [onDidDispose] listeners are attached to their
    widget, in the order they were attached, and the number of
    registration objects allocated so far. *)
Record World := {
  this : t;
  listeners : list IRegisteredList;
  allocated : nat
}.

Definition create : World :=
  {| this := {| lists := []; _lastFocusedWidget := None |};
     listeners := [];
     allocated := 0 |}.

Definition lastFocusedList (w : World) : option ListWidget :=
  _lastFocusedWidget (this w).

(** The disposable returned by [register] closes over its registration. *)
Inductive IDisposable := Registration (registeredList : IRegisteredList).

(** [isActiveElement] is [widget.getHTMLElement() === document.activeElement]. *)
Definition register (widget : ListWidget) (extraContextKeys : option (list string))
    (isActiveElement : bool) (w : World) : Completion IDisposable * World :=
  if existsb (fun l => bool_decide (ListService.widget l = widget)) (lists (this w))
  then (Throw "Cannot register the same widget multiple times", w)
  else
    let registeredList :=
      {| objectId := allocated w; widget := widget; extraContextKeys := extraContextKeys |} in
    (Normal (Registration registeredList),
     {| this :=
          {| lists := lists (this w) ++ [registeredList];
             _lastFocusedWidget :=
               if isActiveElement then Some widget else _lastFocusedWidget (this w) |};
        listeners := listeners w ++ [registeredList];
        allocated := S (allocated w) |}).

(** [result.dispose()]: detach the focus listener, splice the
    registration out of [lists], detach the dispose listener. *)
Definition dispose (d : IDisposable) (w : World) : World :=
  let 'Registration registeredList := d in
  {| this :=
       {| lists :=
            splice (indexOf (sameObject registeredList) (lists (this w))) 1 (lists (this w));
          _lastFocusedWidget := _lastFocusedWidget (this w) |};
     listeners := filter (fun l => objectId l ≠ objectId registeredList) (listeners w);
     allocated := allocated w |}.

(** The listener given to [widget.onDidFocus]. *)
Definition onDidFocus (registeredList : IRegisteredList) (s : t) : t :=
  {| lists := lists s; _lastFocusedWidget := Some (widget registeredList) |}.

(** The listener given to [widget.onDidDispose]. *)
Definition onDidDispose (registeredList : IRegisteredList) (s : t) : t :=
  {| lists := filter (fun l => objectId l ≠ objectId registeredList) (lists s);
     _lastFocusedWidget :=
       if decide (_lastFocusedWidget s = Some (widget registeredList))
       then None else _lastFocusedWidget s |}.

(** A widget fires one of its two events: every listener attached to it
    runs, in the order of attachment. *)
Definition fire (listener : IRegisteredList -> t -> t) (widget : ListWidget)
    (w : World) : World :=
  {| this :=
       foldl (fun s r => listener r s) (this w)
             (filter (fun r => ListService.widget r = widget) (listeners w));
     listeners := listeners w;
     allocated := allocated w |}.

(** What can happen to a service. *)
Inductive Op :=
| Register (widget : ListWidget) (extraContextKeys : option (list string))
           (isActiveElement : bool)
| Dispose (d : IDisposable)
| WidgetFocus (widget : ListWidget)
| WidgetDispose (widget : ListWidget).

Definition step (w : World) (op : Op) : World :=
  match op with
  | Register widget keys active => (register widget keys active w).2
  | Dispose d => dispose d w
  | WidgetFocus widget => fire onDidFocus widget w
  | WidgetDispose widget => fire onDidDispose widget w
  end.

Definition run (ops : list Op) (w : World) : World := foldl step w ops.

Definition widgets (w : World) : list ListWidget := widget <$> lists (this w).

(** The widget has a registration whose listeners are attached. *)
Definition listening (w : World) (widget : ListWidget) : Prop :=
  widget ∈ ListService.widget <$> listeners w.

(** The operation neither registers the widget nor has it take focus. *)
Definition quiet (widget : ListWidget) (op : Op) : bool :=
  match op with
  | Register widget' _ _ => negb (bool_decide (widget' = widget))
  | WidgetFocus widget' => negb (bool_decide (widget' = widget))
  | Dispose _ | WidgetDispose _ => true
  end.

(** The operation does not register the widget. *)
Definition registersOther (widget : ListWidget) (op : Op) : bool :=
  match op with
  | Register widget' _ _ => negb (bool_decide (widget' = widget))
  | Dispose _ | WidgetFocus _ | WidgetDispose _ => true
  end.

(** No registration in [lists] but [r] is one of [r]'s widget. *)
Definition soleRegistration (W : World) (r : IRegisteredList) : Prop :=
  ∀ r', r' ∈ lists (this W) → ListService.widget r' = ListService.widget r → r' = r.

(** What every service reached from [create] satisfies: no widget and no
    identity occurs twice in [lists], identities are below the allocation
    counter, and every registration in [lists] has its listeners
    attached. *)
Definition wellFormed (W : World) : Prop :=
  NoDup (widget <$> lists (this W))
  ∧ NoDup (objectId <$> lists (this W))
  ∧ Forall (fun r => objectId r < allocated W) (lists (this W))
  ∧ lists (this W) ⊆ listeners W.

End ListService.

(** ** The store of objects *)

(** Objects that callers and this file pass around by reference. A caller's
    object of a class defined elsewhere is [ForeignObject]. *)
Inductive Object :=
| ObjectLiteral (fields : gmap string Value)
| MultipleSelectionControllerObject (c : MultipleSelectionController.t)
| WorkbenchOpenControllerObject (c : WorkbenchOpenController.t)
| LabelProviderObject (tlp : Value)
| ForeignObject.

Abbreviation Heap := (gmap loc Object).

(** [new C(...)] or an object literal: a reference not in use so far. *)
Definition alloc (o : Object) (h : Heap) : loc * Heap :=
  let l := fresh (dom h) in (l, <[l := o]> h).

(** [l.k = v] on an object literal. *)
Definition setProp (l : loc) (k : string) (v : Value) (h : Heap) : Heap :=
  alter (fun o => match o with
                  | ObjectLiteral fields => ObjectLiteral (<[k := v]> fields)
                  | _ => o
                  end) l h.

(** [{ ...a, ...b }]: the properties of [b] win. *)
Definition spread (a b : gmap string Value) : gmap string Value := b ∪ a.

(** ** toWorkbenchListOptions *)

(** Returns the reference of [result] and the array behind the combined
    disposable; [None] only when [options] is not an object literal of the
    store, which its type excludes. *)
Definition toWorkbenchListOptions (options : loc)
    (configurationService : IConfigurationService) (h : Heap)
    : option (loc * list loc * Heap) :=
  match h !! options with
  | Some (ObjectLiteral o) =>
      let disposables : list loc := [] in
      let '(result, h) := alloc (ObjectLiteral o) h in
      let '(disposables, h) :=
        if negb (strictEq (prop o "multipleSelectionSupport") (VBool false))
           && negb (truthy (prop o "multipleSelectionController"))
        then
          let '(multipleSelectionController, h) :=
            alloc (MultipleSelectionControllerObject
                     (MultipleSelectionController.constructor configurationService)) h in
          let h := setProp result "multipleSelectionController"
                           (VObject multipleSelectionController) h in
          (disposables ++ [multipleSelectionController], h)
        else (disposables, h) in
      let '(openController, h) :=
        alloc (WorkbenchOpenControllerObject
                 (WorkbenchOpenController.constructor configurationService
                    (prop o "openController"))) h in
      let h := setProp result "openController" (VObject openController) h in
      let disposables := disposables ++ [openController] in
      let h :=
        if truthy (prop o "keyboardNavigationLabelProvider")
        then
          let tlp := prop o "keyboardNavigationLabelProvider" in
          let '(provider, h) := alloc (LabelProviderObject tlp) h in
          setProp result "keyboardNavigationLabelProvider" (VObject provider) h
        else h in
      Some (result, disposables, h)
  | _ => None
  end.

(** The properties of an object literal of the store. *)
Definition fieldsOf (h : Heap) (l : loc) : gmap string Value :=
  match h !! l with
  | Some (ObjectLiteral fields) => fields
  | _ => ∅
  end.

(** ** Context keys *)

Definition RawWorkbenchListFocusContextKey := "listFocus".
Definition WorkbenchListHasSelectionOrFocus := "listHasSelectionOrFocus".
Definition WorkbenchListDoubleSelection := "listDoubleSelection".
Definition WorkbenchListMultiSelection := "listMultiSelection".
Definition WorkbenchListSupportsMultiSelectContextKey := "listSupportsMultiselect".

(** [createScopedContextKeyService]: the keys the scoped service holds
    itself once [listFocus] is bound to it with its default. *)
Definition createScopedContextKeyService : gmap string bool :=
  <[RawWorkbenchListFocusContextKey := true]> ∅.

(** ** The workbench widgets *)

(** What the handlers of a workbench widget read and write: the selection
    and the focus kept by the widget class it extends, the context of its
    scoped context key service, and its own field. *)
Record Widget (T : Type) := {
  selection : list T;
  focus : list T;
  contextKeyService : gmap string bool;
  _useAltAsMultipleSelectionModifier : bool
}.
Arguments selection {T} _.
Arguments focus {T} _.
Arguments contextKeyService {T} _.
Arguments _useAltAsMultipleSelectionModifier {T} _.

Section WidgetState.
Context {T : Type}.

Definition getSelection (this : Widget T) : list T := selection this.
Definition getFocus (this : Widget T) : list T := focus this.

(** [key.set(value)] on a key bound to the widget's scoped service. *)
Definition setContextKey (key : string) (value : bool) (this : Widget T) : Widget T :=
  {| selection := selection this;
     focus := focus this;
     contextKeyService := <[key := value]> (contextKeyService this);
     _useAltAsMultipleSelectionModifier := _useAltAsMultipleSelectionModifier this |}.

Definition setUseAlt (value : bool) (this : Widget T) : Widget T :=
  {| selection := selection this;
     focus := focus this;
     contextKeyService := contextKeyService this;
     _useAltAsMultipleSelectionModifier := value |}.

(** What the widget class does before it fires the event: it records the
    new selection, or the new focus. *)
Definition setSelection (elements : list T) (this : Widget T) : Widget T :=
  {| selection := elements;
     focus := focus this;
     contextKeyService := contextKeyService this;
     _useAltAsMultipleSelectionModifier := _useAltAsMultipleSelectionModifier this |}.

Definition setFocus (elements : list T) (this : Widget T) : Widget T :=
  {| selection := selection this;
     focus := elements;
     contextKeyService := contextKeyService this;
     _useAltAsMultipleSelectionModifier := _useAltAsMultipleSelectionModifier this |}.
End WidgetState.

Inductive WidgetEvent (T : Type) :=
| SelectionChange (elements : list T)
| FocusChange (elements : list T).
Arguments SelectionChange {T} elements.
Arguments FocusChange {T} elements.

(** The listeners that WorkbenchList, WorkbenchObjectTree, WorkbenchDataTree
    and WorkbenchAsyncDataTree attach in their constructors; the four
    classes carry the same text. *)
Module WorkbenchWidget.
Section Handlers.
Context {T : Type}.

Definition onSelectionChange (this : Widget T) : Widget T :=
  let selection := getSelection this in
  let focus := getFocus this in
  let this := setContextKey WorkbenchListHasSelectionOrFocus
                ((0 <? length selection)%nat || (0 <? length focus)%nat) this in
  let this := setContextKey WorkbenchListMultiSelection
                (1 <? length selection)%nat this in
  setContextKey WorkbenchListDoubleSelection (length selection =? 2)%nat this.

Definition onFocusChange (this : Widget T) : Widget T :=
  let selection := getSelection this in
  let focus := getFocus this in
  setContextKey WorkbenchListHasSelectionOrFocus
    ((0 <? length selection)%nat || (0 <? length focus)%nat) this.

(** The part of the configuration listener every widget class has. *)
Definition onMultiSelectModifierChange
    (configurationService : IConfigurationService)
    (e : IConfigurationChangeEvent) (this : Widget T) : Widget T :=
  if affectsConfiguration e multiSelectModifierSettingKey
  then setUseAlt (useAltAsMultipleSelectionModifier configurationService) this
  else this.

(** The fields as the constructor leaves them: the scoped service with
    [listFocus], [listSupportsMultiselect] bound with its default and set
    from the caller's options, the three keys bound with their
    defaults. *)
Definition constructor (options : gmap string Value)
    (configurationService : IConfigurationService) : Widget T :=
  {| selection := [];
     focus := [];
     contextKeyService :=
       <[WorkbenchListMultiSelection := false]>
       (<[WorkbenchListDoubleSelection := false]>
       (<[WorkbenchListHasSelectionOrFocus := false]>
       (<[WorkbenchListSupportsMultiSelectContextKey :=
            negb (strictEq (prop options "multipleSelectionSupport") (VBool false))]>
       (<[WorkbenchListSupportsMultiSelectContextKey := true]>
          createScopedContextKeyService))));
     _useAltAsMultipleSelectionModifier :=
       useAltAsMultipleSelectionModifier configurationService |}.

(** The widget changes its selection or focus and fires the event. *)
Definition deliver (this : Widget T) (ev : WidgetEvent T) : Widget T :=
  match ev with
  | SelectionChange elements => onSelectionChange (setSelection elements this)
  | FocusChange elements => onFocusChange (setFocus elements this)
  end.

(** The three keys say the truth about the widget. *)
Definition keysAccurate (this : Widget T) : Prop :=
  contextKeyService this !! WorkbenchListHasSelectionOrFocus
    = Some (bool_decide (selection this ≠ [] ∨ focus this ≠ []))
  ∧ contextKeyService this !! WorkbenchListMultiSelection
    = Some (bool_decide (1 < length (selection this)))
  ∧ contextKeyService this !! WorkbenchListDoubleSelection
    = Some (bool_decide (length (selection this) = 2)).
End Handlers.
End WorkbenchWidget.

(** ** Object literals with spreads *)

Inductive LiteralPart :=
| Property (k : string) (v : Value)
| Spread (o : gmap string Value).

(** [{ p1, p2, ... }], built left to right: a later part overwrites. *)
Definition objectLiteral (parts : list LiteralPart) : gmap string Value :=
  foldl (fun acc p => match p with
                      | Property k v => <[k := v]> acc
                      | Spread o => spread acc o
                      end) ∅ parts.

(** ** WorkbenchObjectTree, WorkbenchDataTree, WorkbenchAsyncDataTree *)

Module WorkbenchObjectTree.
Section Tree.
Context {T : Type}.

(** The options literal handed to [super]. [styleController], [styles]
    and [keyboardNavigationEventFilter] stand for
    [new DefaultStyleController(...)], [computeStyles(...)] and the
    filter closure; [automaticKeyboardNavigation] is the value read
    from the context key service. *)
Definition superOptions (options workbenchListOptions styles : gmap string Value)
    (styleController automaticKeyboardNavigation keyboardNavigationEventFilter : Value)
    (configurationService : IConfigurationService) : gmap string Value :=
  let keyboardNavigation := getValue configurationService keyboardNavigationSettingKey in
  let horizontalScrolling :=
    if negb (bool_decide (typeof (prop options "horizontalScrolling") = TUndefined))
    then prop options "horizontalScrolling"
    else getValue configurationService horizontalScrollingKey in
  let openOnSingleClick := useSingleClickToOpen configurationService in
  objectLiteral [
    Property "keyboardSupport" (VBool false);
    Property "styleController" styleController;
    Spread styles;
    Spread workbenchListOptions;
    Property "indent" (getValue configurationService treeIndentKey);
    Property "automaticKeyboardNavigation" automaticKeyboardNavigation;
    Property "simpleKeyboardNavigation" (VBool (strictEq keyboardNavigation (VString "simple")));
    Property "filterOnType" (VBool (strictEq keyboardNavigation (VString "filter")));
    Property "horizontalScrolling" horizontalScrolling;
    Property "openOnSingleClick" (VBool openOnSingleClick);
    Property "keyboardNavigationEventFilter" keyboardNavigationEventFilter
  ].

(** The constructor up to the end of the [super] call and the fields it
    then sets: the options [super] receives, the widget, the store. *)
Definition constructor (options : loc) (styles : gmap string Value)
    (styleController automaticKeyboardNavigation keyboardNavigationEventFilter : Value)
    (configurationService : IConfigurationService) (h : Heap)
    : option (gmap string Value * Widget T * Heap) :=
  match toWorkbenchListOptions options configurationService h with
  | Some (workbenchListOptions, _, h') =>
      Some (superOptions (fieldsOf h options) (fieldsOf h' workbenchListOptions) styles
              styleController automaticKeyboardNavigation keyboardNavigationEventFilter
              configurationService,
            WorkbenchWidget.constructor (fieldsOf h options) configurationService,
            h')
  | None => None
  end.

(** The configuration listener: the widget after the event and the
    arguments of the [updateOptions] calls it made, in order. *)
Definition onDidChangeConfiguration (configurationService : IConfigurationService)
    (e : IConfigurationChangeEvent) (this : Widget T)
    : Widget T * list (gmap string Value) :=
  let updateOptions : list (gmap string Value) := [] in
  let updateOptions :=
    if affectsConfiguration e openModeSettingKey
    then updateOptions ++ [objectLiteral [
           Property "openOnSingleClick" (VBool (useSingleClickToOpen configurationService))]]
    else updateOptions in
  let this := WorkbenchWidget.onMultiSelectModifierChange configurationService e this in
  let updateOptions :=
    if affectsConfiguration e treeIndentKey
    then
      let indent := getValue configurationService treeIndentKey in
      updateOptions ++ [objectLiteral [Property "indent" indent]]
    else updateOptions in
  let updateOptions :=
    if affectsConfiguration e keyboardNavigationSettingKey
    then
      let keyboardNavigation := getValue configurationService keyboardNavigationSettingKey in
      updateOptions ++ [objectLiteral [
        Property "simpleKeyboardNavigation" (VBool (strictEq keyboardNavigation (VString "simple")));
        Property "filterOnType" (VBool (strictEq keyboardNavigation (VString "filter")))]]
    else updateOptions in
  (this, updateOptions).
End Tree.
End WorkbenchObjectTree.

Module WorkbenchDataTree := WorkbenchObjectTree.
Module WorkbenchAsyncDataTree := WorkbenchObjectTree.

(** ** TreeResourceNavigator2 *)

(** What the navigator uses of the tree it is given; the tree classes
    inherit these members from vs/base/browser/ui/tree. [setSelection]
    gives the tree as the call leaves it together with the
    [onDidChangeSelection] events the tree fires to its listeners while
    the call runs, each as its elements and its browser event. The
    navigator is one of these listeners. *)
Module Tree.
Class Interface (Tree T : Type) := {
  getFocus : Tree -> list T;
  getSelection : Tree -> list T;
  setSelection : list T -> option UIEvent -> Tree
                 -> Tree * list (list T * option UIEvent);
  openOnSingleClick : Tree -> bool
}.

(** A tree that keeps what it is given and tells its listeners of every
    [setSelection], with the elements and the browser event of the call,
    as the tree widgets do. *)
Record Plain (T : Type) := {
  plainSelection : list T;
  plainFocus : list T;
  plainOpenOnSingleClick : bool
}.
Arguments plainSelection {T} _.
Arguments plainFocus {T} _.
Arguments plainOpenOnSingleClick {T} _.

Global Instance plain_tree (T : Type) : Interface (Plain T) T := {|
  getFocus := plainFocus;
  getSelection := plainSelection;
  setSelection := fun elements browserEvent t =>
    ({| plainSelection := elements;
        plainFocus := plainFocus t;
        plainOpenOnSingleClick := plainOpenOnSingleClick t |},
     [(elements, browserEvent)]);
  openOnSingleClick := plainOpenOnSingleClick
|}.
End Tree.

Module TreeResourceNavigator2.

Record IEditorOptions := {
  editorPreserveFocus : bool;   (* preserveFocus *)
  pinned : bool;
  revealIfVisible : bool
}.

Record IOpenEvent (T : Type) := {
  editorOptions : IEditorOptions;
  sideBySide : bool;
  element : option T   (* [None] is [undefined] *)
}.
Arguments editorOptions {T} _.
Arguments sideBySide {T} _.
Arguments element {T} _.

Record ITreeEvent (T : Type) := {
  elements : list T;
  browserEvent : option UIEvent
}.
Arguments elements {T} _.
Arguments browserEvent {T} _.

Record IResourceResultsNavigationOptions := {
  openOnFocus : bool
}.

(** The navigator's tree and the events [_onDidOpenResource] has fired. *)
Record World (TreeT T : Type) := {
  tree : TreeT;
  fired : list (IOpenEvent T)
}.
Arguments tree {TreeT T} _.
Arguments fired {TreeT T} _.

Section Navigator.
Context {TreeT T : Type} `{!Tree.Interface TreeT T}.

Definition open (preserveFocus pinned sideBySide : bool) (w : World TreeT T)
    : World TreeT T :=
  {| tree := tree w;
     fired := fired w ++ [
       {| editorOptions :=
            {| editorPreserveFocus := preserveFocus;
               pinned := pinned;
               revealIfVisible := true |};
          sideBySide := sideBySide;
          element := head (Tree.getSelection (tree w)) |}] |}.

Definition onSelection (e : ITreeEvent T) (w : World TreeT T) : World TreeT T :=
  match browserEvent e with
  | None => w
  | Some browserEvent =>
      if bool_decide (type browserEvent = "contextmenu") then w
      else
        let isKeyboardEvent := instanceofKeyboardEvent browserEvent in
        let isMiddleClick :=
          match asMouseEvent browserEvent with
          | Some m => (button m =? 1)%Z
          | None => false
          end in
        let isDoubleClick := (detail browserEvent =? 2)%Z in
        let preserveFocus :=
          match asKeyboardEvent browserEvent with
          | Some k =>
              if bool_decide (typeof (preserveFocus k) = TBoolean)
              then truthy (preserveFocus k)
              else negb isDoubleClick
          | None => negb isDoubleClick
          end in
        if Tree.openOnSingleClick (tree w) || isDoubleClick || isKeyboardEvent
        then
          let sideBySide :=
            match asMouseEvent browserEvent with
            | Some m =>
                ctrlKey (mouseModifiers m) || metaKey (mouseModifiers m)
                || altKey (mouseModifiers m)
            | None => false
            end in
          open preserveFocus (isDoubleClick || isMiddleClick) sideBySide w
        else w
  end.

(** The selection listener [registerListeners] attaches, run on the
    events a call of [setSelection] makes the tree fire. *)
Definition dispatchSelection (changes : list (list T * option UIEvent))
    (w : World TreeT T) : World TreeT T :=
  foldl (fun w change =>
           onSelection {| elements := change.1; browserEvent := change.2 |} w)
        w changes.

Definition onFocus (e : ITreeEvent T) (w : World TreeT T) : World TreeT T :=
  let focus := Tree.getFocus (tree w) in
  let '(tree', changes) := Tree.setSelection focus (browserEvent e) (tree w) in
  let w := dispatchSelection changes {| tree := tree'; fired := fired w |} in
  match browserEvent e with
  | None => w
  | Some browserEvent =>
      let isMouseEvent := instanceofMouseEvent browserEvent in
      if negb isMouseEvent then open true false false w else w
  end.

(** [registerListeners]: which handler each tree event reaches. *)
Definition onDidChangeFocus (options : option IResourceResultsNavigationOptions)
    (e : ITreeEvent T) (w : World TreeT T) : World TreeT T :=
  match options with
  | Some o => if openOnFocus o then onFocus e w else w
  | None => w
  end.

Definition onDidChangeSelection (e : ITreeEvent T) (w : World TreeT T)
    : World TreeT T :=
  onSelection e w.
End Navigator.

End TreeResourceNavigator2.

(** ** createKeyboardNavigationEventFilter *)

Module KeyboardNavigationEventFilter.

(** The result of [softDispatch]; only [enterChord] is read. *)
Record IResolveResult := {
  enterChord : bool;
  commandId : option string;
  bubble : bool
}.

(** One call of the filter: whether it asked the keybinding service, and
    with what answer, and what it returned. *)
Record Invocation := {
  dispatched : option (option IResolveResult);
  accepted : bool
}.

Section Filter.
(** The keybinding service as it stands when an event arrives, and its
    [softDispatch] for the container the filter was created with. *)
Context {KeybindingService KeyEvent : Type}.
Variable softDispatch : KeybindingService -> KeyEvent -> option IResolveResult.

(** The closure returned by [createKeyboardNavigationEventFilter]; its
    captured variable [inChord] is threaded through. *)
Definition filter (keybindingService : KeybindingService) (event : KeyEvent)
    (inChord : bool) : Invocation * bool :=
  if inChord
  then ({| dispatched := None; accepted := false |}, false)
  else
    let result := softDispatch keybindingService event in
    if match result with Some r => enterChord r | None => false end
    then ({| dispatched := Some result; accepted := false |}, true)
    else ({| dispatched := Some result; accepted := true |}, false).

(** The filter applied to the events as they arrive; it is created
    with [inChord = false]. *)
Fixpoint feed (inChord : bool) (events : list (KeybindingService * KeyEvent))
    : list Invocation :=
  match events with
  | [] => []
  | (keybindingService, event) :: rest =>
      let '(invocation, inChord) := filter keybindingService event inChord in
      invocation :: feed inChord rest
  end.

Definition createKeyboardNavigationEventFilter
    (events : list (KeybindingService * KeyEvent)) : list Invocation :=
  feed false events.
End Filter.

End KeyboardNavigationEventFilter.

(** ** Sample inputs *)

Module Samples.

Definition noModifiers : Modifiers :=
  {| ctrlKey := false; metaKey := false; altKey := false |}.

(** A double click with the left button while ctrl is held. *)
Definition ctrlDoubleClick : UIEvent :=
  {| type := "click"; detail := 2;
     iface := MouseEvent {| button := 0;
                            mouseModifiers :=
                              {| ctrlKey := true; metaKey := false; altKey := false |} |} |}.

(** A single click with the left button. *)
Definition singleClick : UIEvent :=
  {| type := "click"; detail := 1;
     iface := MouseEvent {| button := 0; mouseModifiers := noModifiers |} |}.

(** A single click with the right button. *)
Definition rightClick : UIEvent :=
  {| type := "mouseup"; detail := 1;
     iface := MouseEvent {| button := 2; mouseModifiers := noModifiers |} |}.

(** A key press as [getSelectionKeyboardEvent('keydown')] builds it. *)
Definition keydown : UIEvent :=
  {| type := "keydown"; detail := 0;
     iface := KeyboardEvent {| keyModifiers := noModifiers; preserveFocus := VUndefined |} |}.

Definition plainTree : Tree.Plain nat :=
  {| Tree.plainSelection := [5; 6];
     Tree.plainFocus := [6];
     Tree.plainOpenOnSingleClick := false |}.

Definition navigator : TreeResourceNavigator2.World (Tree.Plain nat) nat :=
  {| TreeResourceNavigator2.tree := plainTree; TreeResourceNavigator2.fired := [] |}.

Definition doubleClickMode : IConfigurationService :=
  settings {[ openModeSettingKey := VString "doubleClick" ]}.

(** A store with the caller's options at reference 1. *)
Definition callerOptions : gmap string Value :=
  {[ "multipleSelectionSupport" := VBool true ]}.

Definition callerStore : Heap := {[ 1%positive := ObjectLiteral callerOptions ]}.

(** A keybinding service for which the key [true] starts a chord and the
    key [false] is bound to nothing. *)
Definition chord : KeyboardNavigationEventFilter.IResolveResult :=
  {| KeyboardNavigationEventFilter.enterChord := true;
     KeyboardNavigationEventFilter.commandId := None;
     KeyboardNavigationEventFilter.bubble := false |}.

Definition chordService (_ : unit) (key : bool)
    : option KeyboardNavigationEventFilter.IResolveResult :=
  if key then Some chord else None.

(** Two widgets registered, the second while it has the focus. *)
Definition twoWidgets : ListService.World :=
  ListService.run [ListService.Register 1 None false; ListService.Register 2 None true]
    ListService.create.

End Samples.

(** ** ListService: listeners and history *)

(** The registrations with listeners attached have distinct identities,
    all below the allocation counter. *)
Definition listenersDistinct (W : ListService.World) : Prop :=
  NoDup (ListService.objectId <$> ListService.listeners W)
  ∧ Forall (fun r => ListService.objectId r < ListService.allocated W)
           (ListService.listeners W).

(** The widget was handed to [register] at some point of [ops]. *)
Definition registeredIn (ops : list ListService.Op) (widget : ListService.ListWidget) : Prop :=
  ∃ keys active, ListService.Register widget keys active ∈ ops.

(** The operation is an event fired by the widget. *)
Definition firedBy (widget : ListService.ListWidget) (op : ListService.Op) : bool :=
  match op with
  | ListService.WidgetFocus widget' | ListService.WidgetDispose widget' =>
      bool_decide (widget' = widget)
  | ListService.Register _ _ _ | ListService.Dispose _ => false
  end.

(** ** The registered configuration *)

(** A property of the configuration node registered at the end of the
    file; descriptions are left out. *)
Record PropertySchema := {
  schemaType : JsType;
  schemaEnum : option (list Value);
  schemaDefault : Value;
  schemaMinimum : option Z;
  schemaMaximum : option Z
}.

(** The ['properties'] of the node with id ['workbench'], in source order. *)
Definition workbenchConfigurationProperties : list (string * PropertySchema) := [
  (multiSelectModifierSettingKey,
   {| schemaType := TString;
      schemaEnum := Some [VString "ctrlCmd"; VString "alt"];
      schemaDefault := VString "ctrlCmd";
      schemaMinimum := None; schemaMaximum := None |});
  (openModeSettingKey,
   {| schemaType := TString;
      schemaEnum := Some [VString "singleClick"; VString "doubleClick"];
      schemaDefault := VString "singleClick";
      schemaMinimum := None; schemaMaximum := None |});
  (horizontalScrollingKey,
   {| schemaType := TBoolean;
      schemaEnum := None;
      schemaDefault := VBool false;
      schemaMinimum := None; schemaMaximum := None |});
  (treeIndentKey,
   {| schemaType := TNumber;
      schemaEnum := None;
      schemaDefault := VNumber 8;
      schemaMinimum := Some 0%Z; schemaMaximum := Some 40%Z |});
  (keyboardNavigationSettingKey,
   {| schemaType := TString;
      schemaEnum := Some [VString "simple"; VString "highlight"; VString "filter"];
      schemaDefault := VString "highlight";
      schemaMinimum := None; schemaMaximum := None |})
].

(** The values the registered schema of [key] enumerates. *)
Definition enumOf (key : string) : list Value :=
  match (list_to_map workbenchConfigurationProperties : gmap string PropertySchema) !! key with
  | Some s => default [] (schemaEnum s)
  | None => []
  end.

(** The default the registered schema of [key] gives. *)
Definition registeredDefault (key : string) : Value :=
  match (list_to_map workbenchConfigurationProperties : gmap string PropertySchema) !! key with
  | Some s => schemaDefault s
  | None => VUndefined
  end.

(** ** Controllers in the store *)

(** The reference holds one of the two controllers of this file. *)
Definition isControllerAt (h : Heap) (l : loc) : Prop :=
  match h !! l with
  | Some (MultipleSelectionControllerObject _) | Some (WorkbenchOpenControllerObject _) => True
  | _ => False
  end.

(** ** getSelectionKeyboardEvent *)

(** [new KeyboardEvent(typeArg)] carries detail 0 and no modifier; the
    parameter [typeArg] defaults to ['keydown'] when it is left out, and
    [preserveFocus] is stored on the event as it is given. *)
Definition getSelectionKeyboardEvent (typeArg : option string) (preserveFocus : Value)
    : UIEvent :=
  {| type := default "keydown" typeArg;
     detail := 0;
     iface := KeyboardEvent
                {| keyModifiers := {| ctrlKey := false; metaKey := false; altKey := false |};
                   preserveFocus := preserveFocus |} |}.

(** ** The shared style sheets *)

Module SharedStyleSheets.

(** The two module variables, and the number of [<style>] elements
    [createStyleSheet] has made so far; an element is named by its
    number. *)
Record t := {
  sharedListStyleSheet : option nat;
  sharedTreeStyleSheet : option nat;
  created : nat
}.

Definition initial : t :=
  {| sharedListStyleSheet := None; sharedTreeStyleSheet := None; created := 0 |}.

Definition getSharedListStyleSheet (s : t) : nat * t :=
  match sharedListStyleSheet s with
  | Some sheet => (sheet, s)
  | None =>
      let sheet := created s in
      (sheet, {| sharedListStyleSheet := Some sheet;
                 sharedTreeStyleSheet := sharedTreeStyleSheet s;
                 created := S (created s) |})
  end.

Definition getSharedTreeStyleSheet (s : t) : nat * t :=
  match sharedTreeStyleSheet s with
  | Some sheet => (sheet, s)
  | None =>
      let sheet := created s in
      (sheet, {| sharedListStyleSheet := sharedListStyleSheet s;
                 sharedTreeStyleSheet := Some sheet;
                 created := S (created s) |})
  end.

Inductive Getter := ListSheet | TreeSheet.

Definition get (g : Getter) (s : t) : nat * t :=
  match g with
  | ListSheet => getSharedListStyleSheet s
  | TreeSheet => getSharedTreeStyleSheet s
  end.

(** The sheets a sequence of calls returns, and the state it leaves. *)
Fixpoint calls (gs : list Getter) (s : t) : list nat * t :=
  match gs with
  | [] => ([], s)
  | g :: gs =>
      let '(sheet, s) := get g s in
      let '(sheets, s) := calls gs s in
      (sheet :: sheets, s)
  end.

End SharedStyleSheets.

(** ** The deprecated tree: controller options *)

Module WorkbenchTreeController.

(** [OpenMode] of vs/base/parts/tree/browser/treeDefaults. *)
Inductive OpenMode := SINGLE_CLICK | DOUBLE_CLICK.

Section Options.
(** [ClickBehavior.ON_MOUSE_DOWN], a numeric enum member of treeDefaults. *)
Variable ON_MOUSE_DOWN : Z.

(** The options are changed in place and the same object is returned. *)
Definition massageControllerOptions (options : loc) (h : Heap) : loc * Heap :=
  let h :=
    if negb (bool_decide (typeof (prop (fieldsOf h options) "keyboardSupport") = TBoolean))
    then setProp options "keyboardSupport" (VBool false) h
    else h in
  let h :=
    if negb (bool_decide (typeof (prop (fieldsOf h options) "clickBehavior") = TNumber))
    then setProp options "clickBehavior" (VNumber ON_MOUSE_DOWN) h
    else h in
  (options, h).
End Options.

(** Whether the configuration listener is attached. *)
Record t := {
  listening : bool
}.

Definition getOpenModeSetting (configurationService : IConfigurationService) : OpenMode :=
  if useSingleClickToOpen configurationService then SINGLE_CLICK else DOUBLE_CLICK.

Section Controller.
(** [isUndefinedOrNull] of vs/base/common/types. *)
Variable isUndefinedOrNull : Value -> bool.

(** The part of the constructor after [super(...)]: the controller and the
    [setOpenMode] calls made; [options] are the properties of the options
    object. *)
Definition constructor (options : gmap string Value)
    (configurationService : IConfigurationService) : t * list OpenMode :=
  if isUndefinedOrNull (prop options "openMode")
  then ({| listening := true |}, [getOpenModeSetting configurationService])
  else ({| listening := false |}, []).
End Controller.

(** The configuration listener, when attached: the [setOpenMode] calls. *)
Definition onDidChangeConfiguration (configurationService : IConfigurationService)
    (e : IConfigurationChangeEvent) (this : t) : list OpenMode :=
  if listening this && affectsConfiguration e openModeSettingKey
  then [getOpenModeSetting configurationService]
  else [].

Definition dispose (this : t) : t := {| listening := false |}.

Inductive Op :=
| ConfigurationChange (configurationService : IConfigurationService)
                      (e : IConfigurationChangeEvent)
| Dispose.

(** The [setOpenMode] calls made while the operations happen. *)
Fixpoint run (ops : list Op) (this : t) : list OpenMode :=
  match ops with
  | [] => []
  | ConfigurationChange configurationService e :: ops =>
      onDidChangeConfiguration configurationService e this ++ run ops this
  | Dispose :: ops => run ops (dispose this)
  end.

End WorkbenchTreeController.

(** ** handleTreeController *)

Section HandleTreeController.
(** What [instantiationService.createInstance(WorkbenchTreeController, {})]
    and [new DefaultTreestyler(getSharedTreeStyleSheet())] evaluate to. *)
Variable newController newStyler : Value.

(** The configuration is changed in place and returned. *)
Definition handleTreeController (configuration : loc) (h : Heap) : loc * Heap :=
  let h :=
    if negb (truthy (prop (fieldsOf h configuration) "controller"))
    then setProp configuration "controller" newController h
    else h in
  let h :=
    if negb (truthy (prop (fieldsOf h configuration) "styler"))
    then setProp configuration "styler" newStyler h
    else h in
  (configuration, h).
End HandleTreeController.

(** ** The shared style sheets: what holds between calls *)

Definition sheetOf (g : SharedStyleSheets.Getter) (s : SharedStyleSheets.t) : option nat :=
  match g with
  | SharedStyleSheets.ListSheet => SharedStyleSheets.sharedListStyleSheet s
  | SharedStyleSheets.TreeSheet => SharedStyleSheets.sharedTreeStyleSheet s
  end.

(** Every sheet held was made by [createStyleSheet], and no other elements
    were made. *)
Definition sheetsCounted (s : SharedStyleSheets.t) : Prop :=
  SharedStyleSheets.created s
  = (match SharedStyleSheets.sharedListStyleSheet s with Some _ => 1 | None => 0 end)
    + (match SharedStyleSheets.sharedTreeStyleSheet s with Some _ => 1 | None => 0 end)
  ∧ (∀ g a, sheetOf g s = Some a → a < SharedStyleSheets.created s)
  ∧ (∀ a b, SharedStyleSheets.sharedListStyleSheet s = Some a →
            SharedStyleSheets.sharedTreeStyleSheet s = Some b → a ≠ b).

(** ** WorkbenchList, WorkbenchPagedList *)

Module WorkbenchList.

(** The options literal the constructor hands to [super], the same in
    WorkbenchPagedList. [styleController] and [styles] stand for
    [new DefaultStyleController(...)] and [computeStyles(...)]. *)
Definition superOptions (options workbenchListOptions styles : gmap string Value)
    (styleController : Value) (configurationService : IConfigurationService)
    : gmap string Value :=
  let horizontalScrolling :=
    if negb (bool_decide (typeof (prop options "horizontalScrolling") = TUndefined))
    then prop options "horizontalScrolling"
    else getValue configurationService horizontalScrollingKey in
  objectLiteral [
    Property "keyboardSupport" (VBool false);
    Property "styleController" styleController;
    Spread styles;
    Spread workbenchListOptions;
    Property "horizontalScrolling" horizontalScrolling
  ].

End WorkbenchList.

(** ** WorkbenchTree and TreeResourceNavigator (deprecated) *)

Module WorkbenchTree.

(** The tree class a WorkbenchTree extends, as far as this file calls it.
    An element is any value, [null] included. *)
Class Base (TreeT E : Type) := {
  getSelection : TreeT -> list E;
  getFocus : TreeT -> E;
  setSelection : list E -> TreeT -> TreeT
}.

(** A base tree that keeps what it is given. *)
Record Plain (E : Type) := {
  plainSelection : list E;
  plainFocus : E
}.
Arguments plainSelection {E} _.
Arguments plainFocus {E} _.

Global Instance plain_base (E : Type) : Base (Plain E) E := {|
  getSelection := plainSelection;
  getFocus := plainFocus;
  setSelection := fun elements t =>
    {| plainSelection := elements; plainFocus := plainFocus t |}
|}.

(** The fields the class adds; the context keys are those of its scoped
    context key service. *)
Record t (TreeT : Type) := {
  super : TreeT;
  contextKeys : gmap string bool;
  _openOnSingleClick : bool;
  _useAltAsMultipleSelectionModifier : bool
}.
Arguments super {TreeT} _.
Arguments contextKeys {TreeT} _.
Arguments _openOnSingleClick {TreeT} _.
Arguments _useAltAsMultipleSelectionModifier {TreeT} _.

Section Tree.
Context {TreeT E : Type} `{!Base TreeT E}.
(** [!!element] for the elements of the tree. *)
Variable truthyElement : E -> bool.

(** The constructor, from the base tree [super(...)] has built and the
    keys of the scoped context key service. *)
Definition constructor (base : TreeT) (scoped : gmap string bool)
    (configurationService : IConfigurationService) : t TreeT :=
  {| super := base;
     contextKeys := scoped;
     _openOnSingleClick := useSingleClickToOpen configurationService;
     _useAltAsMultipleSelectionModifier :=
       useAltAsMultipleSelectionModifier configurationService |}.

Definition openOnSingleClick (this : t TreeT) : bool := _openOnSingleClick this.

Definition setContextKey (key : string) (value : bool) (this : t TreeT) : t TreeT :=
  {| super := super this;
     contextKeys := <[key := value]> (contextKeys this);
     _openOnSingleClick := _openOnSingleClick this;
     _useAltAsMultipleSelectionModifier := _useAltAsMultipleSelectionModifier this |}.

Definition onDidChangeSelection (this : t TreeT) : t TreeT :=
  let selection := getSelection (super this) in
  let focus := getFocus (super this) in
  let this := setContextKey WorkbenchListHasSelectionOrFocus
                ((0 <? length selection)%nat || truthyElement focus) this in
  let this := setContextKey WorkbenchListDoubleSelection
                (length selection =? 2)%nat this in
  setContextKey WorkbenchListMultiSelection (1 <? length selection)%nat this.

Definition onDidChangeFocus (this : t TreeT) : t TreeT :=
  let selection := getSelection (super this) in
  let focus := getFocus (super this) in
  setContextKey WorkbenchListHasSelectionOrFocus
    ((0 <? length selection)%nat || truthyElement focus) this.

Definition onDidChangeConfiguration (configurationService : IConfigurationService)
    (e : IConfigurationChangeEvent) (this : t TreeT) : t TreeT :=
  let this :=
    if affectsConfiguration e openModeSettingKey
    then {| super := super this;
            contextKeys := contextKeys this;
            _openOnSingleClick := useSingleClickToOpen configurationService;
            _useAltAsMultipleSelectionModifier := _useAltAsMultipleSelectionModifier this |}
    else this in
  if affectsConfiguration e multiSelectModifierSettingKey
  then {| super := super this;
          contextKeys := contextKeys this;
          _openOnSingleClick := _openOnSingleClick this;
          _useAltAsMultipleSelectionModifier :=
            useAltAsMultipleSelectionModifier configurationService |}
  else this.

(** [this.setSelection(elements, payload)], inherited. *)
Definition setSelectionOf (elements : list E) (this : t TreeT) : t TreeT :=
  {| super := setSelection elements (super this);
     contextKeys := contextKeys this;
     _openOnSingleClick := _openOnSingleClick this;
     _useAltAsMultipleSelectionModifier := _useAltAsMultipleSelectionModifier this |}.
End Tree.

Section Options.
(** [ScrollbarVisibility.Auto] and [ScrollbarVisibility.Hidden] *)
Variables Auto Hidden : Value.

(** The literal [opts] handed to [super]; [styles] stands for
    [computeStyles(...)]. *)
Definition opts (options styles : gmap string Value)
    (configurationService : IConfigurationService) : gmap string Value :=
  let horizontalScrollMode :=
    if truthy (getValue configurationService horizontalScrollingKey)
    then Auto else Hidden in
  objectLiteral [
    Property "horizontalScrollMode" horizontalScrollMode;
    Property "keyboardSupport" (VBool false);
    Spread styles;
    Spread options
  ].
End Options.

End WorkbenchTree.

Module TreeResourceNavigator.

(** The payload of a tree event, an object whose properties are read one
    by one; a property that is absent is [undefined]. *)
Record Payload := {
  origin : Value;
  originalEvent : option UIEvent;
  preventOpenOnFocus : Value;
  fromFocus : Value;
  payloadPreserveFocus : Value;   (* preserveFocus *)
  focusEditor : Value
}.

(** [{ fromFocus: true }] *)
Definition fromFocusPayload : Payload :=
  {| origin := VUndefined; originalEvent := None; preventOpenOnFocus := VUndefined;
     fromFocus := VBool true; payloadPreserveFocus := VUndefined;
     focusEditor := VUndefined |}.

Record IEditorOptions := {
  editorPreserveFocus : bool;   (* preserveFocus *)
  pinned : Value;
  revealIfVisible : bool
}.

(** [IOpenResourceOptions]; [element] is [None] when there is none. *)
Record IOpenResourceOptions (E : Type) := {
  editorOptions : IEditorOptions;
  sideBySide : Value;
  element : option E;
  payload : option Payload
}.
Arguments editorOptions {E} _.
Arguments sideBySide {E} _.
Arguments element {E} _.
Arguments payload {E} _.

(** The tree, the events [_openResource] has fired, and the events on
    which [preventDefault] was called. *)
Record World (TreeT E : Type) := {
  tree : WorkbenchTree.t TreeT;
  fired : list (IOpenResourceOptions E);
  prevented : list UIEvent
}.
Arguments tree {TreeT E} _.
Arguments fired {TreeT E} _.
Arguments prevented {TreeT E} _.

(** [ev.ctrlKey || ev.metaKey || ev.altKey] on a mouse or keyboard event. *)
Definition anyModifier (ev : UIEvent) : Value :=
  match iface ev with
  | MouseEvent m =>
      VBool (ctrlKey (mouseModifiers m) || metaKey (mouseModifiers m)
             || altKey (mouseModifiers m))
  | KeyboardEvent k =>
      VBool (ctrlKey (keyModifiers k) || metaKey (keyModifiers k)
             || altKey (keyModifiers k))
  | TouchEvent t =>
      VBool (ctrlKey (touchModifiers t) || metaKey (touchModifiers t)
             || altKey (touchModifiers t))
  | PlainUIEvent => VUndefined
  end.

Section Navigator.
Context {TreeT E : Type} `{!WorkbenchTree.Base TreeT E}.

(** [payload && payload.originalEvent] *)
Definition originalEventOf (payload : option Payload) : option UIEvent :=
  match payload with
  | Some p => originalEvent p
  | None => None
  end.

(** [payload && payload.origin === 'mouse'] *)
Definition isMouseEventOf (payload : option Payload) : Value :=
  match payload with
  | Some p => VBool (strictEq (origin p) (VString "mouse"))
  | None => VUndefined
  end.

(** [isMouseEvent && originalEvent && originalEvent.detail === 2] *)
Definition isDoubleClickOf (payload : option Payload) : Value :=
  if truthy (isMouseEventOf payload)
  then match originalEventOf payload with
       | Some ev => VBool (detail ev =? 2)%Z
       | None => VUndefined
       end
  else isMouseEventOf payload.

Definition onFocus (payload : option Payload) (w : World TreeT E) : World TreeT E :=
  let element := WorkbenchTree.getFocus (WorkbenchTree.super (tree w)) in
  (* the payload of this call is [fromFocusPayload] *)
  let w := {| tree := WorkbenchTree.setSelectionOf [element] (tree w);
              fired := fired w;
              prevented := prevented w |} in
  let isMouseEvent := isMouseEventOf payload in
  let isDoubleClick := isDoubleClickOf payload in
  let preventOpen :=
    match payload with Some p => preventOpenOnFocus p | None => VUndefined end in
  if negb (truthy preventOpen)
     && (negb (truthy isMouseEvent) || WorkbenchTree.openOnSingleClick (tree w)
         || truthy isDoubleClick)
  then
    {| tree := tree w;
       fired := fired w ++ [
         {| editorOptions := {| editorPreserveFocus := true; pinned := VBool false;
                                revealIfVisible := true |};
            sideBySide := VBool false;
            element := Some element;
            payload := payload |}];
       prevented := prevented w |}
  else w.

Definition onSelection (payload : option Payload) (w : World TreeT E)
    : World TreeT E :=
  if truthy (match payload with Some p => fromFocus p | None => VUndefined end)
  then w
  else
    let originalEvent := originalEventOf payload in
    let isMouseEvent := isMouseEventOf payload in
    let isDoubleClick := isDoubleClickOf payload in
    if negb (truthy isMouseEvent) || WorkbenchTree.openOnSingleClick (tree w)
       || truthy isDoubleClick
    then
      let prevented :=
        match originalEvent with
        | Some ev => if truthy isDoubleClick then prevented w ++ [ev] else prevented w
        | None => prevented w
        end in
      let isFromKeyboard :=
        match payload with
        | Some p => VBool (strictEq (origin p) (VString "keyboard"))
        | None => VUndefined
        end in
      let sideBySide :=
        match originalEvent with
        | Some ev => anyModifier ev
        | None => VUndefined
        end in
      let preserveFocus :=
        negb ((truthy isFromKeyboard
               && match payload with
                  | Some p => negb (truthy (payloadPreserveFocus p))
                  | None => true
                  end)
              || truthy isDoubleClick
              || truthy (match payload with Some p => focusEditor p | None => VUndefined end)) in
      {| tree := tree w;
         fired := fired w ++ [
           {| editorOptions := {| editorPreserveFocus := preserveFocus;
                                  pinned := isDoubleClick;
                                  revealIfVisible := true |};
              sideBySide := sideBySide;
              element := head (WorkbenchTree.getSelection (WorkbenchTree.super (tree w)));
              payload := payload |}];
         prevented := prevented |}
    else w.

(** [registerListeners] *)
Definition onDidChangeFocus (options : option TreeResourceNavigator2.IResourceResultsNavigationOptions)
    (payload : option Payload) (w : World TreeT E) : World TreeT E :=
  match options with
  | Some o => if TreeResourceNavigator2.openOnFocus o then onFocus payload w else w
  | None => w
  end.

Definition onDidChangeSelection (payload : option Payload) (w : World TreeT E)
    : World TreeT E :=
  onSelection payload w.
End Navigator.

End TreeResourceNavigator.

(** ** Further sample inputs *)

Module Cases.

(** The registration [register] made for widget 1 in [Samples.twoWidgets]. *)
Definition firstRegistration : ListService.IRegisteredList :=
  {| ListService.objectId := 0; ListService.widget := 1;
     ListService.extraContextKeys := None |}.

(** The registration a third widget gets in [Samples.twoWidgets]. *)
Definition thirdRegistration : ListService.IRegisteredList :=
  {| ListService.objectId := 2; ListService.widget := 3;
     ListService.extraContextKeys := None |}.

(** A registration object the service has never seen. *)
Definition strayRegistration : ListService.IRegisteredList :=
  {| ListService.objectId := 7; ListService.widget := 9;
     ListService.extraContextKeys := None |}.

Definition twoRegistrations : list ListService.Op :=
  [ListService.Register 1 None false; ListService.Register 2 None true].

(** The payload of a single click with the mouse. *)
Definition mouseClick : TreeResourceNavigator.Payload :=
  {| TreeResourceNavigator.origin := VString "mouse";
     TreeResourceNavigator.originalEvent := Some Samples.singleClick;
     TreeResourceNavigator.preventOpenOnFocus := VUndefined;
     TreeResourceNavigator.fromFocus := VUndefined;
     TreeResourceNavigator.payloadPreserveFocus := VUndefined;
     TreeResourceNavigator.focusEditor := VUndefined |}.

Definition legacyTree : WorkbenchTree.t (WorkbenchTree.Plain nat) :=
  WorkbenchTree.constructor
    {| WorkbenchTree.plainSelection := [5]; WorkbenchTree.plainFocus := 5 |}
    ∅ Samples.doubleClickMode.

End Cases.

(** * Properties *)

(** ** Arrays: indexOf and splice *)

Section ArrayProperties.
Context {A : Type}.
Implicit Types (l : list A) (same : A → bool).

Lemma indexOfFrom_cases same l (k : Z) :
  (0 ≤ k)%Z →
  (indexOfFrom same l k = (-1)%Z ∧ Forall (λ x, same x = false) l)
  ∨ (∃ (i : nat) (x : A),
       indexOfFrom same l k = (k + Z.of_nat i)%Z
       ∧ l !! i = Some x ∧ same x = true
       ∧ Forall (λ y, same y = false) (take i l)).
Proof.
  revert k. induction l as [| y l IH]; intros k Hk; simpl.
  - left. by split.
  - destruct (same y) eqn:Hy.
    + right. exists 0%nat, y. split_and!; [lia | done | done | constructor].
    + destruct (IH (k + 1)%Z ltac:(lia)) as [[Hidx Hall] | (i & x & Hidx & Hi & Hx & Hall)].
      * left. split; [exact Hidx | by constructor].
      * right. exists (S i), x. split_and!; [lia | done | done |].
        simpl. by constructor.
Qed.

Lemma splice_at (i : nat) l :
  (i < length l)%nat → splice (Z.of_nat i) 1 l = take i l ++ drop (S i) l.
Proof.
  intros Hi. unfold splice.
  destruct (Z.ltb_spec (Z.of_nat i) 0) as [? | _]; [lia |].
  rewrite Z.min_l by lia. rewrite Nat2Z.id.
  replace (Z.max 1 0) with 1%Z by lia.
  rewrite Z.min_l by lia.
  replace (Z.to_nat (Z.of_nat i + 1)) with (S i) by lia. reflexivity.
Qed.

(** [splice(-1, 1)] drops the last element. *)
Lemma splice_minus_one l : splice (-1) 1 l = take (length l - 1) l.
Proof.
  unfold splice. change (-1 <? 0)%Z with true. cbv iota.
  set (len := Z.of_nat (length l)).
  replace (Z.to_nat (Z.max (len + -1) 0)) with (length l - 1)%nat by lia.
  replace (Z.to_nat (Z.max (len + -1) 0
                     + Z.min (Z.max 1 0) (len - Z.max (len + -1) 0)))
    with (length l) by lia.
  rewrite drop_all. by rewrite app_nil_r.
Qed.

(** Whatever the index, [splice(i, 1)] only removes. *)
Lemma splice_indexOf_sublist same l :
  splice (indexOf same l) 1 l `sublist_of` l.
Proof.
  unfold indexOf.
  destruct (indexOfFrom_cases same l 0 ltac:(lia)) as [[-> _] | (i & x & -> & Hi & _ & _)].
  - rewrite splice_minus_one. apply sublist_take.
  - rewrite Z.add_0_l, splice_at by (by eapply lookup_lt_Some).
    rewrite <- (take_drop i l) at 3.
    apply sublist_app; [done |].
    replace (S i) with (i + 1)%nat by lia. rewrite <- drop_drop.
    apply sublist_drop.
Qed.
End ArrayProperties.

(** ** ListService *)

Section Registry.
Import ListService.

Lemma sublist_under_fmap {A B : Type} (f : A → B) (l k : list A) :
  l `sublist_of` k → f <$> l `sublist_of` f <$> k.
Proof.
  induction 1; simpl; [constructor | by apply sublist_skip | by apply sublist_cons].
Qed.

Lemma sublist_Forall {A : Type} (P : A → Prop) (l k : list A) :
  l `sublist_of` k → Forall P k → Forall P l.
Proof.
  rewrite !Forall_forall. intros Hsub HP x Hx. apply HP. by eapply elem_of_sublist.
Qed.

Lemma registered_existsb (W : World) (w : ListWidget) :
  existsb (λ l, bool_decide (widget l = w)) (lists (this W)) = true ↔ w ∈ widgets W.
Proof.
  unfold widgets. rewrite existsb_exists, list_elem_of_fmap. split.
  - intros (r & Hr & Hw). apply bool_decide_eq_true in Hw.
    exists r. split; [done |]. by apply list_elem_of_In.
  - intros (r & -> & Hr). exists r. split; [by apply list_elem_of_In |].
    by apply bool_decide_eq_true.
Qed.

Lemma register_registered (W : World) (w : ListWidget) keys active :
  w ∈ widgets W →
  register w keys active W = (Throw "Cannot register the same widget multiple times", W).
Proof.
  intros Hw. unfold register. apply registered_existsb in Hw. by rewrite Hw.
Qed.

Lemma register_unregistered (W : World) (w : ListWidget) keys active :
  w ∉ widgets W →
  let r := {| objectId := allocated W; widget := w; extraContextKeys := keys |} in
  register w keys active W
  = (Normal (Registration r),
     {| this := {| lists := lists (this W) ++ [r];
                   _lastFocusedWidget :=
                     if active then Some w else _lastFocusedWidget (this W) |};
        listeners := listeners W ++ [r];
        allocated := S (allocated W) |}).
Proof.
  intros Hw r. unfold register.
  destruct (existsb _ _) eqn:E; [| reflexivity].
  apply registered_existsb in E. contradiction.
Qed.

(** Removing the element at [i] leaves no element with its key. *)
Lemma NoDup_remove_key {A B : Type} (f : A → B) (l : list A) (i : nat) (x r : A) :
  NoDup (f <$> l) → l !! i = Some x → r ∈ take i l ++ drop (S i) l → f r ≠ f x.
Proof.
  intros Hnd Hi Hr Heq.
  rewrite <- (take_drop_middle l i x Hi) in Hnd.
  rewrite fmap_app, fmap_cons in Hnd.
  apply NoDup_app in Hnd as (_ & Hdisj & Hnd).
  apply NoDup_cons in Hnd as (Hnotin & _).
  apply elem_of_app in Hr as [Hr | Hr].
  - apply (Hdisj (f r)); [by apply list_elem_of_fmap_2 |]. rewrite Heq. by left.
  - apply Hnotin. rewrite <- Heq. by apply list_elem_of_fmap_2.
Qed.

Lemma dispose_sublist (d : IDisposable) (W : World) :
  lists (this (dispose d W)) `sublist_of` lists (this W).
Proof. destruct d as [r]. simpl. apply splice_indexOf_sublist. Qed.

(** What is left in [lists] after a dispose has another identity than
    the disposed registration. *)
Lemma dispose_other_identity (r r' : IRegisteredList) (W : World) :
  NoDup (objectId <$> lists (this W)) →
  r' ∈ lists (this (dispose (Registration r) W)) → objectId r' ≠ objectId r.
Proof.
  intros Hnd. simpl. unfold indexOf.
  destruct (indexOfFrom_cases (sameObject r) (lists (this W)) 0 ltac:(lia))
    as [[-> Hall] | (i & x & -> & Hi & Hx & _)].
  - rewrite splice_minus_one. intros Hr'.
    assert (Hin : r' ∈ lists (this W))
      by (eapply elem_of_sublist; [exact Hr' | apply sublist_take]).
    rewrite Forall_forall in Hall. specialize (Hall r' Hin).
    unfold sameObject in Hall. apply bool_decide_eq_false in Hall. congruence.
  - rewrite Z.add_0_l, splice_at by (by eapply lookup_lt_Some). intros Hr'.
    unfold sameObject in Hx. apply bool_decide_eq_true in Hx. rewrite Hx.
    by eapply NoDup_remove_key.
Qed.

Lemma foldl_onDidFocus (rs : list IRegisteredList) (s : t) (w : ListWidget) :
  Forall (λ r, widget r = w) rs →
  lists (foldl (λ s r, onDidFocus r s) s rs) = lists s
  ∧ _lastFocusedWidget (foldl (λ s r, onDidFocus r s) s rs)
    = match rs with [] => _lastFocusedWidget s | _ => Some w end.
Proof.
  revert s. induction rs as [| r rs IH]; intros s Hall; [done |].
  apply Forall_cons in Hall as [Hr Hall]. simpl.
  destruct (IH (onDidFocus r s) Hall) as [IH1 IH2]. split; [by rewrite IH1 |].
  rewrite IH2. destruct rs; [| reflexivity]. simpl. by rewrite Hr.
Qed.

Lemma foldl_onDidDispose (rs : list IRegisteredList) (s : t) (w : ListWidget) :
  Forall (λ r, widget r = w) rs →
  lists (foldl (λ s r, onDidDispose r s) s rs) `sublist_of` lists s
  ∧ _lastFocusedWidget (foldl (λ s r, onDidDispose r s) s rs)
    = match rs with
      | [] => _lastFocusedWidget s
      | _ => if decide (_lastFocusedWidget s = Some w) then None
             else _lastFocusedWidget s
      end.
Proof.
  revert s. induction rs as [| r rs IH]; intros s Hall; [done |].
  apply Forall_cons in Hall as [Hr Hall]. simpl.
  destruct (IH (onDidDispose r s) Hall) as [IH1 IH2]. split.
  - etrans; [exact IH1 |]. simpl. apply sublist_filter.
  - rewrite IH2. simpl. rewrite Hr.
    destruct rs; simpl; repeat case_decide; congruence.
Qed.

Lemma listeners_of_widget (W : World) (w : ListWidget) :
  Forall (λ r, widget r = w) (filter (λ r, widget r = w) (listeners W)).
Proof. apply Forall_forall. intros r Hr. by apply list_elem_of_filter in Hr as [? _]. Qed.

Lemma listening_nonempty (W : World) (w : ListWidget) :
  listening W w → filter (λ r, widget r = w) (listeners W) ≠ [].
Proof.
  unfold listening. rewrite list_elem_of_fmap. intros (r & -> & Hr) Hnil.
  assert (Hin : r ∈ filter (λ r', widget r' = widget r) (listeners W))
    by (by apply list_elem_of_filter).
  rewrite Hnil in Hin. by apply not_elem_of_nil in Hin.
Qed.

Lemma wellFormed_create : wellFormed create.
Proof.
  unfold wellFormed, create. simpl. split_and!; [constructor | constructor | constructor | done].
Qed.

Lemma wellFormed_register (W : World) (w : ListWidget) keys active :
  wellFormed W → wellFormed (register w keys active W).2.
Proof.
  intros (Hw & Hid & Hlt & Hsub).
  destruct (decide (w ∈ widgets W)) as [Hin | Hout].
  - rewrite register_registered by done. by split_and!.
  - rewrite register_unregistered by done. unfold wellFormed. simpl.
    rewrite !fmap_app. simpl. split_and!.
    + apply NoDup_app. split_and!; [done | | apply NoDup_singleton].
      intros x Hx ->%list_elem_of_singleton. contradiction.
    + apply NoDup_app. split_and!; [done | | apply NoDup_singleton].
      intros x Hx ->%list_elem_of_singleton.
      apply list_elem_of_fmap in Hx as (r & Hr & Hrin).
      rewrite Forall_forall in Hlt. specialize (Hlt r Hrin). lia.
    + apply Forall_app. split.
      * eapply Forall_impl; [exact Hlt |]. simpl. intros; lia.
      * apply Forall_singleton. simpl. lia.
    + intros x [Hx | Hx]%elem_of_app; apply elem_of_app; [left; by apply Hsub | by right].
Qed.

Lemma wellFormed_dispose (W : World) (d : IDisposable) :
  wellFormed W → wellFormed (dispose d W).
Proof.
  intros (Hw & Hid & Hlt & Hsub).
  pose proof (dispose_sublist d W) as Hsl.
  unfold wellFormed. split_and!.
  - eapply sublist_NoDup; [exact Hw |]. by apply sublist_under_fmap.
  - eapply sublist_NoDup; [exact Hid |]. by apply sublist_under_fmap.
  - destruct d. eapply sublist_Forall; [exact Hsl | exact Hlt].
  - destruct d as [r]. intros r' Hr'.
    change (listeners (dispose (Registration r) W))
      with (filter (λ l, objectId l ≠ objectId r) (listeners W)).
    apply list_elem_of_filter. split.
    + by eapply dispose_other_identity.
    + apply Hsub. by eapply elem_of_sublist.
Qed.

Lemma wellFormed_fire_focus (W : World) (w : ListWidget) :
  wellFormed W → wellFormed (fire onDidFocus w W).
Proof.
  intros (Hw & Hid & Hlt & Hsub).
  destruct (foldl_onDidFocus _ (this W) w (listeners_of_widget W w)) as [Hl _].
  unfold wellFormed, fire. simpl. rewrite Hl. by split_and!.
Qed.

Lemma wellFormed_fire_dispose (W : World) (w : ListWidget) :
  wellFormed W → wellFormed (fire onDidDispose w W).
Proof.
  intros (Hw & Hid & Hlt & Hsub).
  destruct (foldl_onDidDispose _ (this W) w (listeners_of_widget W w)) as [Hl _].
  unfold wellFormed, fire. simpl. split_and!.
  - eapply sublist_NoDup; [exact Hw |]. by apply sublist_under_fmap.
  - eapply sublist_NoDup; [exact Hid |]. by apply sublist_under_fmap.
  - eapply sublist_Forall; [exact Hl | exact Hlt].
  - intros r Hr. apply Hsub. by eapply elem_of_sublist.
Qed.

Lemma wellFormed_step (W : World) (op : Op) : wellFormed W → wellFormed (step W op).
Proof.
  destruct op; simpl.
  - apply wellFormed_register.
  - apply wellFormed_dispose.
  - apply wellFormed_fire_focus.
  - apply wellFormed_fire_dispose.
Qed.

Lemma wellFormed_run (ops : list Op) (W : World) : wellFormed W → wellFormed (run ops W).
Proof.
  revert W. induction ops as [| op ops IH]; intros W HW; [exact HW |].
  simpl. apply IH. by apply wellFormed_step.
Qed.

Lemma registered_listening (W : World) (w : ListWidget) :
  wellFormed W → w ∈ widgets W → listening W w.
Proof.
  intros (_ & _ & _ & Hsub). unfold widgets, listening.
  rewrite !list_elem_of_fmap. intros (r & -> & Hr). exists r. split; [done | by apply Hsub].
Qed.

Lemma soleRegistration_step (W : World) (r : IRegisteredList) (op : Op) :
  registersOther (widget r) op = true →
  soleRegistration W r → soleRegistration (step W op) r.
Proof.
  intros Hop Hsole r' Hr' Hw.
  destruct op as [w' keys active | d | w' | w']; simpl in *.
  - apply negb_true_iff, bool_decide_eq_false in Hop.
    destruct (decide (w' ∈ widgets W)) as [Hin | Hout].
    + rewrite register_registered in Hr' by done. by apply Hsole.
    + rewrite register_unregistered in Hr' by done. simpl in Hr'.
      apply elem_of_app in Hr' as [Hr' | ->%list_elem_of_singleton]; [by apply Hsole |].
      simpl in Hw. contradiction.
  - apply Hsole; [| exact Hw]. eapply elem_of_sublist; [exact Hr' | apply dispose_sublist].
  - destruct (foldl_onDidFocus _ (this W) w' (listeners_of_widget W w')) as [Hl _].
    rewrite Hl in Hr'. by apply Hsole.
  - destruct (foldl_onDidDispose _ (this W) w' (listeners_of_widget W w')) as [Hl _].
    apply Hsole; [| exact Hw]. by eapply elem_of_sublist.
Qed.

Lemma soleRegistration_run (ops : list Op) (W : World) (r : IRegisteredList) :
  forallb (registersOther (widget r)) ops = true →
  soleRegistration W r → soleRegistration (run ops W) r.
Proof.
  revert W. induction ops as [| op ops IH]; intros W Hops Hsole; [exact Hsole |].
  simpl in Hops. apply andb_true_iff in Hops as [Hop Hops].
  simpl. apply IH; [exact Hops |]. by apply soleRegistration_step.
Qed.

(** Disposing the disposable of the only registration a widget can have in
    [lists] leaves the widget unregistered, whether or not the registration
    was still there. *)
Lemma dispose_unregisters (r : IRegisteredList) (W : World) :
  wellFormed W → soleRegistration W r →
  widget r ∉ widgets (dispose (Registration r) W).
Proof.
  intros (_ & Hid & _ & _) Hsole (r' & Hw & Hr')%list_elem_of_fmap.
  assert (Hin : r' ∈ lists (this W))
    by (eapply elem_of_sublist; [exact Hr' | apply dispose_sublist]).
  apply (dispose_other_identity r r' W Hid Hr').
  by rewrite (Hsole r' Hin (eq_sym Hw)).
Qed.

(** C8. [register] throws 'Cannot register the same widget multiple
    times' exactly when the widget is in [lists], and then changes nothing;
    otherwise it appends a registration of the widget. Whatever happens in
    between short of registering the widget anew, disposing the returned
    disposable leaves no registration of the widget, and registering the
    widget again then succeeds. *)
Theorem register_throws_iff_registered (ops : list Op) (w : ListWidget)
    (keys : option (list string)) (active : bool) :
  let W := run ops create in
  let outcome := register w keys active W in
  (outcome.1 = Throw "Cannot register the same widget multiple times" ↔ w ∈ widgets W)
  ∧ (w ∈ widgets W → outcome.2 = W)
  ∧ (w ∉ widgets W →
     ∃ r, outcome.1 = Normal (Registration r) ∧ widget r = w
          ∧ lists (this outcome.2) = lists (this W) ++ [r])
  ∧ (∀ r ops' keys' active',
       outcome.1 = Normal (Registration r) →
       forallb (registersOther w) ops' = true →
       let W' := run ops' outcome.2 in
       (w ∉ widgets (dispose (Registration r) W'))
       ∧ (∃ r', (register w keys' active' (dispose (Registration r) W')).1
                = Normal (Registration r'))).
Proof.
  intros W outcome. subst outcome.
  assert (HW : wellFormed W) by apply wellFormed_run, wellFormed_create.
  split_and!.
  - split.
    + intros Hthrow. destruct (decide (w ∈ widgets W)) as [Hin | Hout]; [done |].
      rewrite register_unregistered in Hthrow by done. discriminate.
    + intros Hin. by rewrite register_registered.
  - intros Hin. by rewrite register_registered.
  - intros Hout. rewrite register_unregistered by done. simpl. by eexists.
  - intros r ops' keys' active' Hnormal Hops W'.
    destruct (decide (w ∈ widgets W)) as [Hin | Hout].
    { rewrite register_registered in Hnormal by done. discriminate. }
    assert (widget r = w ∧ soleRegistration (register w keys active W).2 r)
      as [Hwr Hsole].
    { rewrite register_unregistered in Hnormal |- * by done. simpl in Hnormal.
      injection Hnormal as <-. split; [reflexivity |].
      intros r' [Hr' | ->%list_elem_of_singleton]%elem_of_app Hw'; [| reflexivity].
      exfalso. apply Hout. unfold widgets. apply list_elem_of_fmap. by exists r'. }
    assert (HW' : wellFormed W') by (apply wellFormed_run; by apply wellFormed_register).
    assert (Hgone : w ∉ widgets (dispose (Registration r) W')).
    { rewrite <- Hwr. apply dispose_unregisters; [exact HW' |].
      apply soleRegistration_run; [by rewrite Hwr | exact Hsole]. }
    split; [exact Hgone |].
    rewrite register_unregistered by done. simpl. by eexists.
Qed.

Lemma quiet_step (W : World) (w : ListWidget) (op : Op) :
  quiet w op = true → lastFocusedList W ≠ Some w → lastFocusedList (step W op) ≠ Some w.
Proof.
  unfold lastFocusedList.
  destruct op as [w' keys active | d | w' | w']; simpl; intros Hq Hne.
  - apply negb_true_iff, bool_decide_eq_false in Hq.
    destruct (decide (w' ∈ widgets W)) as [Hin | Hout].
    + by rewrite register_registered.
    + rewrite register_unregistered by done. simpl. destruct active; congruence.
  - by destruct d.
  - apply negb_true_iff, bool_decide_eq_false in Hq.
    destruct (foldl_onDidFocus _ (this W) w' (listeners_of_widget W w')) as [_ ->].
    destruct (filter _ _); congruence.
  - destruct (foldl_onDidDispose _ (this W) w' (listeners_of_widget W w')) as [_ ->].
    destruct (filter _ _); [done |]. by case_decide.
Qed.

Lemma quiet_run (ops : list Op) (W : World) (w : ListWidget) :
  forallb (quiet w) ops = true →
  lastFocusedList W ≠ Some w → lastFocusedList (run ops W) ≠ Some w.
Proof.
  revert W. induction ops as [| op ops IH]; intros W Hq Hne; [exact Hne |].
  simpl in Hq. apply andb_true_iff in Hq as [Hop Hq].
  simpl. apply IH; [exact Hq |]. by apply quiet_step.
Qed.

(** C4. After a widget is registered while its element is the active
    element, it is the last focused list; after a registered widget fires
    [onDidFocus], it is the last focused list; after a registered widget
    that is the last focused list fires [onDidDispose], there is no last
    focused list, and the widget does not become the last focused list
    again as long as it neither takes focus nor is registered anew. A
    widget in [lists], and a widget just registered, has its listeners
    attached. *)
Theorem lastFocusedList_follows_focus (ops : list Op) (w : ListWidget)
    (keys : option (list string)) :
  let W := run ops create in
  (w ∉ widgets W → lastFocusedList (register w keys true W).2 = Some w)
  ∧ (listening W w → lastFocusedList (fire onDidFocus w W) = Some w)
  ∧ (listening W w → lastFocusedList W = Some w →
     lastFocusedList (fire onDidDispose w W) = None)
  ∧ (listening W w → ∀ ops', forallb (quiet w) ops' = true →
     lastFocusedList (run ops' (fire onDidDispose w W)) ≠ Some w)
  ∧ (w ∈ widgets W → listening W w)
  ∧ (w ∉ widgets W → ∀ active, listening (register w keys active W).2 w).
Proof.
  intros W.
  assert (HW : wellFormed W) by apply wellFormed_run, wellFormed_create.
  assert (Hdisposed : listening W w →
            lastFocusedList (fire onDidDispose w W)
            = if decide (lastFocusedList W = Some w) then None else lastFocusedList W).
  { intros Hl%listening_nonempty. unfold lastFocusedList, fire. simpl.
    destruct (foldl_onDidDispose _ (this W) w (listeners_of_widget W w)) as [_ ->].
    by destruct (filter _ _). }
  split_and!.
  - intros Hout. by rewrite register_unregistered.
  - intros Hl%listening_nonempty. unfold lastFocusedList, fire. simpl.
    destruct (foldl_onDidFocus _ (this W) w (listeners_of_widget W w)) as [_ ->].
    by destruct (filter _ _).
  - intros Hl Hfocused. rewrite Hdisposed by done. by rewrite decide_True.
  - intros Hl ops' Hq. apply quiet_run; [exact Hq |].
    rewrite Hdisposed by done. by case_decide.
  - by apply registered_listening.
  - intros Hout active. rewrite register_unregistered by done.
    unfold listening. simpl. rewrite fmap_app. apply elem_of_app. right.
    by apply list_elem_of_singleton.
Qed.
End Registry.

(** ** Settings read by the controllers and the widgets *)

Lemma useSingleClickToOpen_spec (configurationService : IConfigurationService) :
  useSingleClickToOpen configurationService = true
  ↔ getValue configurationService openModeSettingKey ≠ VString "doubleClick".
Proof.
  unfold useSingleClickToOpen, strictEq.
  rewrite negb_true_iff, bool_decide_eq_false. reflexivity.
Qed.

(** ** WorkbenchOpenController.shouldOpen *)


(** ** The multiple selection modifier *)

(** C5. A MultipleSelectionController and every workbench widget, the
    lists, the trees and the deprecated tree, hold whether the multi-select
    modifier setting is ['alt']: at construction, and again after each
    configuration change that affects the setting (other changes leave
    the field alone). A controller whose field is true answers
    [isSelectionSingleChangeEvent] with the [altKey] of the mouse or touch
    event it is given, one whose field is false with the platform default;
    so a controller just constructed, or one that has just handled a change
    affecting the setting, answers by [altKey] exactly when the setting is
    ['alt']. *)
Theorem alt_modifier_follows_setting {T TreeT : Type}
    (defaultIsSelectionSingleChangeEvent : IListPointerEvent -> bool)
    (configurationService : IConfigurationService) (e : IConfigurationChangeEvent)
    (controller : MultipleSelectionController.t) (widget : Widget T)
    (legacy : WorkbenchTree.t TreeT) (base : TreeT) (scoped : gmap string bool)
    (options : gmap string Value) (event : IListPointerEvent) :
  let isAlt :=
    bool_decide (getValue configurationService multiSelectModifierSettingKey = VString "alt") in
  let altKeyOf :=
    match event with
    | IListMouseEvent m => altKey (mouseModifiers m)
    | IListTouchEvent t => altKey (touchModifiers t)
    end in
  let answer (c : MultipleSelectionController.t) :=
    MultipleSelectionController.isSelectionSingleChangeEvent
      defaultIsSelectionSingleChangeEvent c event in
  MultipleSelectionController.useAlt
    (MultipleSelectionController.constructor configurationService) = isAlt
  ∧ _useAltAsMultipleSelectionModifier
      (WorkbenchWidget.constructor (T := T) options configurationService) = isAlt
  ∧ WorkbenchTree._useAltAsMultipleSelectionModifier
      (WorkbenchTree.constructor base scoped configurationService) = isAlt
  ∧ MultipleSelectionController.useAlt
      (MultipleSelectionController.onDidChangeConfiguration configurationService e controller)
    = (if affectsConfiguration e multiSelectModifierSettingKey
       then isAlt else MultipleSelectionController.useAlt controller)
  ∧ _useAltAsMultipleSelectionModifier
      (WorkbenchWidget.onMultiSelectModifierChange configurationService e widget)
    = (if affectsConfiguration e multiSelectModifierSettingKey
       then isAlt else _useAltAsMultipleSelectionModifier widget)
  ∧ _useAltAsMultipleSelectionModifier
      (WorkbenchObjectTree.onDidChangeConfiguration configurationService e widget).1
    = (if affectsConfiguration e multiSelectModifierSettingKey
       then isAlt else _useAltAsMultipleSelectionModifier widget)
  ∧ WorkbenchTree._useAltAsMultipleSelectionModifier
      (WorkbenchTree.onDidChangeConfiguration configurationService e legacy)
    = (if affectsConfiguration e multiSelectModifierSettingKey
       then isAlt else WorkbenchTree._useAltAsMultipleSelectionModifier legacy)
  ∧ answer controller
    = (if MultipleSelectionController.useAlt controller
       then altKeyOf else defaultIsSelectionSingleChangeEvent event)
  ∧ answer (MultipleSelectionController.constructor configurationService)
    = (if isAlt then altKeyOf else defaultIsSelectionSingleChangeEvent event)
  ∧ (affectsConfiguration e multiSelectModifierSettingKey = true →
       answer (MultipleSelectionController.onDidChangeConfiguration
                 configurationService e controller)
       = (if isAlt then altKeyOf else defaultIsSelectionSingleChangeEvent event)).
Proof.
  intros isAlt altKeyOf answer. subst isAlt altKeyOf answer.
  unfold MultipleSelectionController.onDidChangeConfiguration,
    WorkbenchObjectTree.onDidChangeConfiguration,
    WorkbenchWidget.onMultiSelectModifierChange,
    WorkbenchTree.onDidChangeConfiguration,
    MultipleSelectionController.isSelectionSingleChangeEvent.
  cbv zeta. split_and!.
  - reflexivity.
  - reflexivity.
  - reflexivity.
  - by destruct (affectsConfiguration e multiSelectModifierSettingKey).
  - by destruct (affectsConfiguration e multiSelectModifierSettingKey).
  - cbn [fst]. by destruct (affectsConfiguration e multiSelectModifierSettingKey).
  - by destruct (affectsConfiguration e openModeSettingKey),
         (affectsConfiguration e multiSelectModifierSettingKey).
  - by destruct event.
  - by destruct event.
  - intros ->. by destruct event.
Qed.

(** ** TreeResourceNavigator2 *)

Lemma Zeqb_bool_decide (a b : Z) : (a =? b)%Z = bool_decide (a = b).
Proof.
  destruct (Z.eqb_spec a b) as [-> | Hne].
  - by rewrite bool_decide_eq_true_2.
  - by rewrite bool_decide_eq_false_2.
Qed.

Lemma snoc_not_self {A : Type} (l : list A) (x : A) : l ++ [x] ≠ l.
Proof.
  intros Heq. apply (f_equal length) in Heq. rewrite length_app in Heq. simpl in Heq. lia.
Qed.

Section NavigatorProperties.
Context {TreeT T : Type} `{!Tree.Interface TreeT T}.
Import TreeResourceNavigator2.

Lemma open_fired (preserveFocus pinned sideBySide : bool) (w : World TreeT T) :
  fired (open preserveFocus pinned sideBySide w)
  = fired w ++ [
      {| editorOptions :=
           {| editorPreserveFocus := preserveFocus;
              TreeResourceNavigator2.pinned := pinned;
              revealIfVisible := true |};
         TreeResourceNavigator2.sideBySide := sideBySide;
         element := head (Tree.getSelection (tree w)) |}]
  ∧ tree (open preserveFocus pinned sideBySide w) = tree w.
Proof. split; reflexivity. Qed.

(** C1. A selection change whose browser event exists and is not a
    context menu event fires exactly one open event when the tree opens on
    single click, or the event is a double click, or it is a keyboard
    event, and fires none otherwise. The event fired is pinned for a double
    or a middle click, is side by side for a mouse event with ctrl, meta or
    alt held, preserves focus as the keyboard event's boolean
    [preserveFocus] says and otherwise unless it is a double click, and
    carries the first element of the tree's selection. *)
Theorem onSelection_fires_one_open_event
    (e : ITreeEvent T) (w : World TreeT T) (browserEvent : UIEvent) :
  TreeResourceNavigator2.browserEvent e = Some browserEvent →
  type browserEvent ≠ "contextmenu" →
  let w' := onDidChangeSelection e w in
  let isDoubleClick := bool_decide (detail browserEvent = 2%Z) in
  let isMiddleClick :=
    match iface browserEvent with
    | MouseEvent m => bool_decide (button m = 1%Z)
    | _ => false
    end in
  let isKeyboardEvent :=
    match iface browserEvent with KeyboardEvent _ => true | _ => false end in
  let opens := Tree.openOnSingleClick (tree w) || isDoubleClick || isKeyboardEvent in
  tree w' = tree w
  ∧ ((∃ ev, fired w' = fired w ++ [ev]) ↔ opens = true)
  ∧ (opens = false → fired w' = fired w)
  ∧ (∀ ev, fired w' = fired w ++ [ev] →
       pinned (editorOptions ev) = isDoubleClick || isMiddleClick
       ∧ sideBySide ev =
           match iface browserEvent with
           | MouseEvent m =>
               ctrlKey (mouseModifiers m) || metaKey (mouseModifiers m)
               || altKey (mouseModifiers m)
           | _ => false
           end
       ∧ editorPreserveFocus (editorOptions ev) =
           match iface browserEvent with
           | KeyboardEvent k =>
               match preserveFocus k with
               | VBool b => b
               | _ => negb isDoubleClick
               end
           | _ => negb isDoubleClick
           end
       ∧ element ev = head (Tree.getSelection (tree w))).
Proof.
  intros Hbe Htype w' isDoubleClick isMiddleClick isKeyboardEvent opens.
  assert (Hkb : instanceofKeyboardEvent browserEvent = isKeyboardEvent).
  { subst isKeyboardEvent. unfold instanceofKeyboardEvent, asKeyboardEvent.
    destruct (iface browserEvent); reflexivity. }
  subst w'. unfold onDidChangeSelection, onSelection. rewrite Hbe.
  rewrite (bool_decide_eq_false_2 _ Htype).
  rewrite Zeqb_bool_decide, Hkb.
  fold isDoubleClick. fold opens.
  destruct opens eqn:Hopens.
  - match goal with |- context [open ?p ?q ?s w] =>
      destruct (open_fired p q s w) as [Hfired Htree]; rewrite Hfired, Htree;
      set (pf := p); set (pin := q); set (sbs := s) in *
    end.
    split_and!; [reflexivity | | discriminate |].
    + split; [reflexivity | intros _; eexists; reflexivity].
    + intros ev Hev. apply app_inv_head in Hev. injection Hev as <-. simpl.
      subst pf pin sbs isMiddleClick. unfold asMouseEvent, asKeyboardEvent.
      destruct (iface browserEvent) as [m | k | t |]; simpl;
        rewrite ?Zeqb_bool_decide; split_and!; try reflexivity.
      destruct (preserveFocus k); reflexivity.
  - split_and!; [reflexivity | | reflexivity |].
    + split; [| discriminate].
      intros [ev Hev]. symmetry in Hev. by apply snoc_not_self in Hev.
    + intros ev Hev. symmetry in Hev. by apply snoc_not_self in Hev.
Qed.

Lemma onSelection_tree (e : ITreeEvent T) (w : World TreeT T) :
  tree (onSelection e w) = tree w.
Proof.
  unfold onSelection. destruct (browserEvent e) as [be |]; [| reflexivity].
  destruct (bool_decide (type be = "contextmenu")); [reflexivity |].
  by destruct (_ || _).
Qed.

Lemma dispatchSelection_tree (changes : list (list T * option UIEvent))
    (w : World TreeT T) :
  tree (dispatchSelection changes w) = tree w.
Proof.
  revert w. induction changes as [| c changes IH]; intros w; [reflexivity |].
  simpl. rewrite IH. apply onSelection_tree.
Qed.

(** A focus change, step by step: the tree gets its selection, the
    selection listener runs on what the tree fires, and the focus listener
    opens for any browser event but a mouse event. *)
Lemma onFocus_steps (e : ITreeEvent T) (w : World TreeT T) :
  let changed :=
    Tree.setSelection (Tree.getFocus (tree w)) (browserEvent e) (tree w) in
  let w1 := dispatchSelection changed.2 {| tree := changed.1; fired := fired w |} in
  let w' := onDidChangeFocus (Some {| openOnFocus := true |}) e w in
  tree w' = changed.1
  ∧ fired w' = fired w1 ++
      match browserEvent e with
      | None => []
      | Some browserEvent =>
          match iface browserEvent with
          | MouseEvent _ => []
          | _ => [ {| editorOptions :=
                        {| editorPreserveFocus := true;
                           pinned := false;
                           revealIfVisible := true |};
                      sideBySide := false;
                      element := head (Tree.getSelection changed.1) |} ]
          end
      end.
Proof.
  intros changed w1 w'. subst w' w1. unfold onDidChangeFocus, onFocus. cbn [openOnFocus].
  fold changed. destruct changed as [tree' changes]. cbn [fst snd].
  pose proof (dispatchSelection_tree changes {| tree := tree'; fired := fired w |}) as Ht.
  cbn [tree] in Ht.
  destruct (browserEvent e) as [be |].
  - unfold instanceofMouseEvent, asMouseEvent.
    destruct (iface be); simpl; rewrite ?app_nil_r, ?Ht; split; reflexivity.
  - rewrite app_nil_r. split; [exact Ht | reflexivity].
Qed.

(** Without [openOnFocus] the focus listener is not attached. *)
Lemma onFocus_not_attached (e : ITreeEvent T) (w : World TreeT T) :
  onDidChangeFocus None e w = w
  ∧ onDidChangeFocus (Some {| openOnFocus := false |}) e w = w.
Proof. split; reflexivity. Qed.
End NavigatorProperties.

(** C7. With [openOnFocus] set, a focus change hands the focused elements
    to the tree as its selection together with the browser event, and the
    tree tells its listeners of the change. The navigator's own selection
    listener is one of them and nothing tells it that the change comes from
    the focus listener: on a tree with focus [[6]] that opens on double
    click, a focus change by a key press fires two open events, one from
    the selection listener and one from the focus listener, a focus change
    by a double click fires one, pinned, and only a focus change by a
    single click or without browser event fires none. *)
Theorem onFocus_reaches_selection_listener :
  let focusChange browserEvent :=
    TreeResourceNavigator2.onDidChangeFocus
      (Some {| TreeResourceNavigator2.openOnFocus := true |})
      {| TreeResourceNavigator2.elements := [6];
         TreeResourceNavigator2.browserEvent := browserEvent |}
      Samples.navigator in
  let opened preserveFocus pinned sideBySide :=
    {| TreeResourceNavigator2.editorOptions :=
         {| TreeResourceNavigator2.editorPreserveFocus := preserveFocus;
            TreeResourceNavigator2.pinned := pinned;
            TreeResourceNavigator2.revealIfVisible := true |};
       TreeResourceNavigator2.sideBySide := sideBySide;
       TreeResourceNavigator2.element := Some 6 |} in
  TreeResourceNavigator2.fired (focusChange (Some Samples.keydown))
  = [opened true false false; opened true false false]
  ∧ TreeResourceNavigator2.fired (focusChange (Some Samples.ctrlDoubleClick))
    = [opened false true true]
  ∧ TreeResourceNavigator2.fired (focusChange (Some Samples.singleClick)) = []
  ∧ TreeResourceNavigator2.fired (focusChange None) = []
  ∧ Tree.getSelection (TreeResourceNavigator2.tree (focusChange (Some Samples.keydown)))
    = [6].
Proof. cbv zeta. split_and!; reflexivity. Qed.

(** ** Context keys of the widgets *)

Section ContextKeys.
Context {T : Type}.

Lemma hasSelectionOrFocus_value (s f : list T) :
  (0 <? length s)%nat || (0 <? length f)%nat = bool_decide (s ≠ [] ∨ f ≠ []).
Proof.
  destruct s, f; reflexivity.
Qed.

Lemma onSelectionChange_keys (this : Widget T) :
  contextKeyService (WorkbenchWidget.onSelectionChange this)
    !! WorkbenchListHasSelectionOrFocus
    = Some (bool_decide (selection this ≠ [] ∨ focus this ≠ []))
  ∧ contextKeyService (WorkbenchWidget.onSelectionChange this)
      !! WorkbenchListMultiSelection
    = Some (bool_decide (1 < length (selection this)))
  ∧ contextKeyService (WorkbenchWidget.onSelectionChange this)
      !! WorkbenchListDoubleSelection
    = Some (bool_decide (length (selection this) = 2)).
Proof.
  unfold WorkbenchWidget.onSelectionChange, setContextKey, getSelection, getFocus. simpl.
  split_and!.
  - rewrite lookup_insert_ne by done. rewrite lookup_insert_ne by done.
    rewrite lookup_insert_eq. by rewrite hasSelectionOrFocus_value.
  - rewrite lookup_insert_ne by done. rewrite lookup_insert_eq.
    f_equal. destruct (Nat.ltb_spec 1 (length (selection this))).
    + by rewrite bool_decide_eq_true_2.
    + rewrite bool_decide_eq_false_2; [done | lia].
  - rewrite lookup_insert_eq. f_equal.
    destruct (Nat.eqb_spec (length (selection this)) 2).
    + by rewrite bool_decide_eq_true_2.
    + by rewrite bool_decide_eq_false_2.
Qed.

Lemma onFocusChange_keys (this : Widget T) :
  contextKeyService (WorkbenchWidget.onFocusChange this)
    !! WorkbenchListHasSelectionOrFocus
    = Some (bool_decide (selection this ≠ [] ∨ focus this ≠ []))
  ∧ (∀ key, key ≠ WorkbenchListHasSelectionOrFocus →
       contextKeyService (WorkbenchWidget.onFocusChange this) !! key
       = contextKeyService this !! key).
Proof.
  unfold WorkbenchWidget.onFocusChange, setContextKey, getSelection, getFocus. simpl.
  split.
  - rewrite lookup_insert_eq. by rewrite hasSelectionOrFocus_value.
  - intros key Hkey. by rewrite lookup_insert_ne.
Qed.

(** C2. After the selection listener has run, [listHasSelectionOrFocus]
    says whether the selection or the focus is non-empty,
    [listMultiSelection] whether more than one element is selected and
    [listDoubleSelection] whether exactly two are; after the focus
    listener has run, [listHasSelectionOrFocus] says whether the selection
    or the focus is non-empty. Neither listener touches the selection or
    the focus. *)
Theorem context_keys_mirror_selection_and_focus (this : Widget T) :
  let s := WorkbenchWidget.onSelectionChange this in
  let f := WorkbenchWidget.onFocusChange this in
  contextKeyService s !! WorkbenchListHasSelectionOrFocus
    = Some (bool_decide (getSelection s ≠ [] ∨ getFocus s ≠ []))
  ∧ contextKeyService s !! WorkbenchListMultiSelection
    = Some (bool_decide (1 < length (getSelection s)))
  ∧ contextKeyService s !! WorkbenchListDoubleSelection
    = Some (bool_decide (length (getSelection s) = 2))
  ∧ contextKeyService f !! WorkbenchListHasSelectionOrFocus
    = Some (bool_decide (getSelection f ≠ [] ∨ getFocus f ≠ []))
  ∧ getSelection s = getSelection this ∧ getFocus s = getFocus this
  ∧ getSelection f = getSelection this ∧ getFocus f = getFocus this.
Proof.
  intros s f. subst s f.
  destruct (onSelectionChange_keys this) as (H1 & H2 & H3).
  destruct (onFocusChange_keys this) as (H4 & _).
  split_and!; first [exact H1 | exact H2 | exact H3 | exact H4 | reflexivity].
Qed.

Lemma deliver_selection_accurate (this : Widget T) (elements : list T) :
  WorkbenchWidget.keysAccurate (WorkbenchWidget.deliver this (SelectionChange elements)).
Proof. apply (onSelectionChange_keys (setSelection elements this)). Qed.

Lemma deliver_focus_accurate (this : Widget T) (elements : list T) :
  WorkbenchWidget.keysAccurate this →
  WorkbenchWidget.keysAccurate (WorkbenchWidget.deliver this (FocusChange elements)).
Proof.
  intros (_ & H2 & H3).
  destruct (onFocusChange_keys (setFocus elements this)) as (H4 & Hother).
  split_and!; [exact H4 | |]; simpl; by rewrite Hother.
Qed.

(** Once a selection change has been seen, the keys stay accurate across
    every later selection and focus change. *)
Lemma keys_accurate_along_events (events : list (WidgetEvent T)) (this : Widget T) :
  WorkbenchWidget.keysAccurate this → WorkbenchWidget.keysAccurate (foldl WorkbenchWidget.deliver this events).
Proof.
  revert this. induction events as [| ev events IH]; intros this Hacc; [exact Hacc |].
  simpl. apply IH. destruct ev as [elements | elements].
  - apply deliver_selection_accurate.
  - by apply deliver_focus_accurate.
Qed.
End ContextKeys.

(** ** Options of the tree widgets *)

Section TreeOptions.
Context {T : Type}.

Lemma filter_when_holds {A : Type} (P : A → Prop) `{!∀ x, Decision (P x)}
    (a : bool) (o : A) :
  P o → filter P (if a then [o] else []) = if a then [o] else [].
Proof.
  intros HP. destruct a; [| reflexivity].
  rewrite filter_cons. by rewrite decide_True.
Qed.

Lemma filter_when_fails {A : Type} (P : A → Prop) `{!∀ x, Decision (P x)}
    (a : bool) (o : A) :
  ¬ P o → filter P (if a then [o] else []) = [].
Proof.
  intros HP. destruct a; [| reflexivity].
  rewrite filter_cons. by rewrite decide_False.
Qed.

(** The [updateOptions] calls of the configuration listener, one group
    for each setting the change affects. *)
Lemma onDidChangeConfiguration_calls (configurationService : IConfigurationService)
    (e : IConfigurationChangeEvent) (this : Widget T) :
  (WorkbenchObjectTree.onDidChangeConfiguration configurationService e this).2
  = (if affectsConfiguration e openModeSettingKey
     then [ {[ "openOnSingleClick" := VBool (useSingleClickToOpen configurationService) ]} ]
     else [])
    ++ (if affectsConfiguration e treeIndentKey
        then [ {[ "indent" := getValue configurationService treeIndentKey ]} ]
        else [])
    ++ (if affectsConfiguration e keyboardNavigationSettingKey
        then [ <["filterOnType" :=
                   VBool (strictEq (getValue configurationService keyboardNavigationSettingKey)
                                   (VString "filter"))]>
               {[ "simpleKeyboardNavigation" :=
                    VBool (strictEq (getValue configurationService keyboardNavigationSettingKey)
                                    (VString "simple")) ]} ]
        else []).
Proof.
  unfold WorkbenchObjectTree.onDidChangeConfiguration, objectLiteral. simpl.
  destruct (affectsConfiguration e openModeSettingKey),
    (affectsConfiguration e treeIndentKey),
    (affectsConfiguration e keyboardNavigationSettingKey); reflexivity.
Qed.

(** C6. Whatever the caller's options and the styles hold, the options a
    tree hands to its widget class carry [simpleKeyboardNavigation] and
    [filterOnType] telling whether the keyboard navigation setting is
    ['simple'] or ['filter'], and [indent] with the value of the indent
    setting. A configuration change calls [updateOptions] with the indent
    as the service then holds it exactly when it affects the indent
    setting, and with the two keyboard navigation flags as the service then
    holds the setting exactly when it affects the keyboard navigation
    setting. *)
Theorem tree_options_follow_settings
    (options workbenchListOptions styles : gmap string Value)
    (styleController automaticKeyboardNavigation keyboardNavigationEventFilter : Value)
    (configurationService : IConfigurationService)
    (e : IConfigurationChangeEvent) (this : Widget T) :
  let keyboardNavigation := getValue configurationService keyboardNavigationSettingKey in
  let indent := getValue configurationService treeIndentKey in
  let super :=
    WorkbenchObjectTree.superOptions options workbenchListOptions styles
      styleController automaticKeyboardNavigation keyboardNavigationEventFilter
      configurationService in
  let updateOptions :=
    (WorkbenchObjectTree.onDidChangeConfiguration configurationService e this).2 in
  super !! "simpleKeyboardNavigation"
    = Some (VBool (bool_decide (keyboardNavigation = VString "simple")))
  ∧ super !! "filterOnType"
    = Some (VBool (bool_decide (keyboardNavigation = VString "filter")))
  ∧ super !! "indent" = Some indent
  ∧ filter (fun o => is_Some (o !! "indent")) updateOptions
    = (if affectsConfiguration e treeIndentKey
       then [ {[ "indent" := indent ]} ] else [])
  ∧ filter (fun o => is_Some (o !! "simpleKeyboardNavigation")
                     ∨ is_Some (o !! "filterOnType")) updateOptions
    = (if affectsConfiguration e keyboardNavigationSettingKey
       then [ <["filterOnType" := VBool (bool_decide (keyboardNavigation = VString "filter"))]>
              {[ "simpleKeyboardNavigation" :=
                   VBool (bool_decide (keyboardNavigation = VString "simple")) ]} ]
       else []).
Proof.
  intros keyboardNavigation indent super updateOptions.
  subst super updateOptions.
  rewrite onDidChangeConfiguration_calls.
  unfold WorkbenchObjectTree.superOptions, objectLiteral.
  fold keyboardNavigation. fold indent. simpl.
  split_and!.
  - by repeat (rewrite lookup_insert_ne by done); rewrite lookup_insert_eq.
  - by repeat (rewrite lookup_insert_ne by done); rewrite lookup_insert_eq.
  - by repeat (rewrite lookup_insert_ne by done); rewrite lookup_insert_eq.
  - rewrite !filter_app.
    rewrite filter_when_fails, filter_when_holds, filter_when_fails.
    + by rewrite app_nil_r.
    + rewrite lookup_insert_ne by done. rewrite lookup_singleton_ne by done.
      by intros [? ?].
    + rewrite lookup_singleton_eq. by eexists.
    + rewrite lookup_singleton_ne by done. by intros [? ?].
  - rewrite !filter_app.
    rewrite filter_when_fails, filter_when_fails, filter_when_holds.
    + reflexivity.
    + left. rewrite lookup_insert_ne by done. rewrite lookup_singleton_eq. by eexists.
    + rewrite !lookup_singleton_ne by done. by intros [[? ?] | [? ?]].
    + rewrite !lookup_singleton_ne by done. by intros [[? ?] | [? ?]].
Qed.

(** The constructor hands [super] the literal above, built on the options
    [toWorkbenchListOptions] returned. *)
Lemma constructor_super_options (options : loc) (styles : gmap string Value)
    (styleController automaticKeyboardNavigation keyboardNavigationEventFilter : Value)
    (configurationService : IConfigurationService) (h h' : Heap)
    (super : gmap string Value) (this : Widget T) :
  WorkbenchObjectTree.constructor options styles styleController
    automaticKeyboardNavigation keyboardNavigationEventFilter configurationService h
    = Some (super, this, h') →
  ∃ workbenchListOptions,
    super = WorkbenchObjectTree.superOptions (fieldsOf h options) workbenchListOptions
              styles styleController automaticKeyboardNavigation
              keyboardNavigationEventFilter configurationService.
Proof.
  unfold WorkbenchObjectTree.constructor.
  destruct (toWorkbenchListOptions options configurationService h) as [[[r d] h1] |];
    [| discriminate].
  intros [= <- _ _]. by eexists.
Qed.
End TreeOptions.

(** ** The keyboard navigation filter *)

Section ChordFilter.
Import KeyboardNavigationEventFilter.
Context {KeybindingService KeyEvent : Type}.
Variable softDispatch : KeybindingService -> KeyEvent -> option IResolveResult.

Lemma feed_length (inChord : bool) (events : list (KeybindingService * KeyEvent)) :
  length (feed softDispatch inChord events) = length events.
Proof.
  revert inChord. induction events as [| [ks ev] rest IH]; intros inChord; [reflexivity |].
  simpl. destruct (filter softDispatch ks ev inChord) as [inv c]. simpl. by rewrite IH.
Qed.

(** In a chord the next event is refused without asking the service. *)
Lemma feed_in_chord (events : list (KeybindingService * KeyEvent)) (inv : Invocation) :
  feed softDispatch true events !! 0 = Some inv →
  accepted inv = false ∧ dispatched inv = None.
Proof.
  destruct events as [| [ks ev] rest]; [discriminate |].
  simpl. intros [= <-]. by split.
Qed.

(** What a call that asked the service did with the answer. *)
Lemma filter_dispatched (ks : KeybindingService) (ev : KeyEvent) (inChord : bool)
    (r : IResolveResult) :
  dispatched (filter softDispatch ks ev inChord).1 = Some (Some r) →
  inChord = false ∧ softDispatch ks ev = Some r
  ∧ accepted (filter softDispatch ks ev inChord).1 = negb (enterChord r)
  ∧ (filter softDispatch ks ev inChord).2 = enterChord r.
Proof.
  unfold filter. destruct inChord; [discriminate |].
  destruct (softDispatch ks ev) as [r' |] eqn:Hr; simpl.
  - destruct (enterChord r') eqn:Hc; simpl; intros [= <-]; by rewrite Hc.
  - discriminate.
Qed.

Lemma feed_chord (inChord : bool) (events : list (KeybindingService * KeyEvent))
    (n : nat) (inv : Invocation) (r : IResolveResult) :
  feed softDispatch inChord events !! n = Some inv →
  dispatched inv = Some (Some r) →
  enterChord r = true →
  accepted inv = false
  ∧ (∀ ks ev, events !! n = Some (ks, ev) → softDispatch ks ev = Some r)
  ∧ (∀ inv', feed softDispatch inChord events !! S n = Some inv' →
             accepted inv' = false ∧ dispatched inv' = None).
Proof.
  revert inChord n.
  induction events as [| [ks ev] rest IH]; intros inChord n Hn Hd Hc; [discriminate |].
  simpl in Hn.
  destruct (filter softDispatch ks ev inChord) as [inv0 c] eqn:Hf.
  destruct n as [| n].
  - simpl in Hn. injection Hn as ->.
    pose proof (filter_dispatched ks ev inChord r) as Hfd.
    rewrite Hf in Hfd. simpl in Hfd.
    destruct (Hfd Hd) as (_ & Hs & Ha & Hc').
    rewrite Hc in Ha, Hc'. subst c. split_and!.
    + exact Ha.
    + by intros ks' ev' [= <- <-].
    + intros inv'. simpl. rewrite Hf. simpl. apply feed_in_chord.
  - simpl in Hn. destruct (IH c n Hn Hd Hc) as (Ha & Hs & Hnext).
    split_and!; [exact Ha | exact Hs |].
    intros inv'. simpl. rewrite Hf. simpl. apply Hnext.
Qed.

(** C10. Whenever the filter asks the keybinding service about an event
    and the answer enters a chord, it refuses that event and, whatever the
    next event is and whatever the service would say about it, refuses the
    next event too, without asking. *)
Theorem filter_refuses_event_after_chord
    (events : list (KeybindingService * KeyEvent))
    (n : nat) (inv : Invocation) (r : IResolveResult) :
  createKeyboardNavigationEventFilter softDispatch events !! n = Some inv →
  dispatched inv = Some (Some r) →
  enterChord r = true →
  accepted inv = false
  ∧ (∀ ks ev, events !! n = Some (ks, ev) → softDispatch ks ev = Some r)
  ∧ (∀ inv', createKeyboardNavigationEventFilter softDispatch events !! S n = Some inv' →
             accepted inv' = false ∧ dispatched inv' = None)
  ∧ (S n < length events →
     ∃ inv', createKeyboardNavigationEventFilter softDispatch events !! S n = Some inv'
             ∧ accepted inv' = false).
Proof.
  unfold createKeyboardNavigationEventFilter. intros Hn Hd Hc.
  destruct (feed_chord false events n inv r Hn Hd Hc) as (Ha & Hs & Hnext).
  split_and!; [exact Ha | exact Hs | exact Hnext |].
  intros Hlt.
  destruct (lookup_lt_is_Some_2 (feed softDispatch false events) (S n)) as [inv' Hinv'].
  { by rewrite feed_length. }
  exists inv'. split; [exact Hinv' |]. by destruct (Hnext inv' Hinv').
Qed.

(** An event refused because of a chord is never shown to the service,
    so what the service would have said about it has no effect on the
    event after it. *)
Lemma filter_after_refusal (ks1 ks2 ks3 : KeybindingService) (e1 e2 e3 : KeyEvent)
    (r1 : IResolveResult) :
  softDispatch ks1 e1 = Some r1 → enterChord r1 = true →
  softDispatch ks3 e3 = None →
  accepted <$> createKeyboardNavigationEventFilter softDispatch
                 [(ks1, e1); (ks2, e2); (ks3, e3)]
  = [false; false; true].
Proof.
  intros H1 Hc H3. unfold createKeyboardNavigationEventFilter. simpl.
  unfold filter at 1. rewrite H1, Hc. simpl.
  unfold filter. rewrite H3. reflexivity.
Qed.
End ChordFilter.

(** ** toWorkbenchListOptions and the store *)

Section Store.

Lemma alloc_spec (o : Object) (h h' : Heap) (l : loc) :
  alloc o h = (l, h') →
  h !! l = None ∧ h' !! l = Some o ∧ (∀ l', l' ≠ l → h' !! l' = h !! l').
Proof.
  unfold alloc. intros [= <- <-]. split_and!.
  - apply not_elem_of_dom. apply is_fresh.
  - apply lookup_insert_eq.
  - intros l' Hne. by apply lookup_insert_ne.
Qed.

Lemma setProp_other (l l' : loc) (k : string) (v : Value) (h : Heap) :
  l' ≠ l → setProp l k v h !! l' = h !! l'.
Proof. intros Hne. unfold setProp. by apply lookup_alter_ne. Qed.

Lemma setProp_literal (l : loc) (k : string) (v : Value) (h : Heap)
    (fields : gmap string Value) :
  h !! l = Some (ObjectLiteral fields) →
  setProp l k v h !! l = Some (ObjectLiteral (<[k := v]> fields)).
Proof. intros Hl. unfold setProp. rewrite lookup_alter_eq, Hl. reflexivity. Qed.

End Store.

Section Frame.

(** Allocating an object and storing its reference in a property of
    [result] changes [result] and the new object, nothing else. *)
Lemma alloc_setProp (obj : Object) (result n : loc) (k : string)
    (h h2 : Heap) (fields : gmap string Value) :
  h !! result = Some (ObjectLiteral fields) →
  alloc obj h = (n, h2) →
  h !! n = None
  ∧ n ≠ result
  ∧ setProp result k (VObject n) h2 !! n = Some obj
  ∧ setProp result k (VObject n) h2 !! result
    = Some (ObjectLiteral (<[k := VObject n]> fields))
  ∧ (∀ l, l ≠ n → l ≠ result → setProp result k (VObject n) h2 !! l = h !! l).
Proof.
  intros Hres Halloc. apply alloc_spec in Halloc as (N0 & N1 & N1').
  assert (Hne : n ≠ result) by (intros ->; congruence).
  split_and!; [exact N0 | exact Hne | | |].
  - by rewrite setProp_other.
  - apply setProp_literal. rewrite N1' by done. exact Hres.
  - intros l Hl Hl'. rewrite setProp_other by done. by apply N1'.
Qed.

(** The result of [toWorkbenchListOptions], object by object. *)
Lemma toWorkbenchListOptions_result
    (options : loc) (configurationService : IConfigurationService)
    (h : Heap) (o : gmap string Value) :
  h !! options = Some (ObjectLiteral o) →
  let install :=
    bool_decide (prop o "multipleSelectionSupport" ≠ VBool false)
    && negb (truthy (prop o "multipleSelectionController")) in
  ∃ result disposables h' fields,
    toWorkbenchListOptions options configurationService h = Some (result, disposables, h')
    ∧ h !! result = None
    ∧ (∀ l, is_Some (h !! l) → h' !! l = h !! l)
    ∧ h' !! result = Some (ObjectLiteral fields)
    ∧ (if install
       then ∃ m, fields !! "multipleSelectionController" = Some (VObject m)
                 ∧ h !! m = None
                 ∧ h' !! m = Some (MultipleSelectionControllerObject
                                     (MultipleSelectionController.constructor
                                        configurationService))
       else fields !! "multipleSelectionController" = o !! "multipleSelectionController")
    ∧ (∃ c, fields !! "openController" = Some (VObject c)
            ∧ h !! c = None
            ∧ h' !! c = Some (WorkbenchOpenControllerObject
                                (WorkbenchOpenController.constructor configurationService
                                   (prop o "openController"))))
    ∧ (∀ k, k ≠ "multipleSelectionController" → k ≠ "openController" →
            k ≠ "keyboardNavigationLabelProvider" → fields !! k = o !! k).
Proof.
  intros Ho install.
  assert (Hinstall : negb (strictEq (prop o "multipleSelectionSupport") (VBool false))
                     && negb (truthy (prop o "multipleSelectionController")) = install).
  { subst install. unfold strictEq. f_equal.
    destruct (decide (prop o "multipleSelectionSupport" = VBool false)) as [Heq | Hne].
    - rewrite bool_decide_eq_true_2 by done. by rewrite bool_decide_eq_false_2 by auto.
    - rewrite bool_decide_eq_false_2 by done. by rewrite bool_decide_eq_true_2. }
  unfold toWorkbenchListOptions. rewrite Ho, Hinstall. clearbody install.
  destruct (alloc (ObjectLiteral o) h) as [result h1] eqn:A1.
  apply alloc_spec in A1 as (R0 & R1 & R1').
  (* the state after the controller of the first conditional *)
  assert (∃ ds h3 f3,
    (if install
     then let '(multipleSelectionController, h0) :=
            alloc (MultipleSelectionControllerObject
                     (MultipleSelectionController.constructor configurationService)) h1 in
          ([] ++ [multipleSelectionController],
           setProp result "multipleSelectionController"
             (VObject multipleSelectionController) h0)
     else ([], h1)) = (ds, h3)
    ∧ h3 !! result = Some (ObjectLiteral f3)
    ∧ (∀ l, is_Some (h !! l) → h3 !! l = h !! l)
    ∧ (if install
       then ∃ m, f3 = <["multipleSelectionController" := VObject m]> o
                 ∧ h !! m = None ∧ m ≠ result
                 ∧ h3 !! m = Some (MultipleSelectionControllerObject
                                     (MultipleSelectionController.constructor
                                        configurationService))
       else f3 = o)) as (ds & h3 & f3 & -> & S1 & S2 & S3).
  { destruct install.
    - destruct (alloc _ h1) as [m h2] eqn:A2.
      destruct (alloc_setProp _ result m "multipleSelectionController" h1 h2 o R1 A2)
        as (M0 & Mne & M1 & M2 & M3).
      eexists _, _, _. split_and!; [reflexivity | exact M2 | |].
      + intros l Hl. assert (l ≠ result) by (intros ->; rewrite R0 in Hl; by destruct Hl).
        assert (l ≠ m).
        { intros ->. rewrite R1' in M0 by done. rewrite M0 in Hl. by destruct Hl. }
        rewrite M3 by done. by apply R1'.
      + exists m. split_and!; [reflexivity | | exact Mne | exact M1].
        by rewrite <- (R1' m Mne).
    - eexists _, _, _. split_and!; [reflexivity | exact R1 | | reflexivity].
      intros l Hl. apply R1'. intros ->. rewrite R0 in Hl. by destruct Hl. }
  destruct (alloc _ h3) as [c h4] eqn:A3.
  destruct (alloc_setProp _ result c "openController" h3 h4 f3 S1 A3)
    as (C0 & Cne & C1 & C2 & C3).
  set (h5 := setProp result "openController" (VObject c) h4) in *.
  assert (C4 : ∀ l, is_Some (h !! l) → h5 !! l = h !! l).
  { intros l Hl. assert (l ≠ result) by (intros ->; rewrite R0 in Hl; by destruct Hl).
    assert (l ≠ c).
    { intros ->. rewrite S2 in C0 by done. rewrite C0 in Hl. by destruct Hl. }
    rewrite C3 by done. by apply S2. }
  assert (Hc0 : h !! c = None).
  { destruct (h !! c) eqn:E; [| done].
    rewrite <- (S2 c) in E by (by rewrite E). congruence. }
  assert (∃ h7 f7,
    (if truthy (prop o "keyboardNavigationLabelProvider")
     then let '(provider, h0) :=
            alloc (LabelProviderObject (prop o "keyboardNavigationLabelProvider")) h5 in
          setProp result "keyboardNavigationLabelProvider" (VObject provider) h0
     else h5) = h7
    ∧ h7 !! result = Some (ObjectLiteral f7)
    ∧ (∀ l, l ≠ result → is_Some (h5 !! l) → h7 !! l = h5 !! l)
    ∧ (∀ k, k ≠ "keyboardNavigationLabelProvider" →
            f7 !! k = <["openController" := VObject c]> f3 !! k))
    as (h7 & f7 & -> & L1 & L2 & L3).
  { destruct (truthy (prop o "keyboardNavigationLabelProvider")).
    - destruct (alloc _ h5) as [p h6] eqn:A4.
      destruct (alloc_setProp _ result p "keyboardNavigationLabelProvider" h5 h6 _ C2 A4)
        as (P0 & Pne & P1 & P2 & P3).
      eexists _, _. split_and!; [reflexivity | exact P2 | |].
      + intros l Hl Hsome. apply P3; [| exact Hl].
        intros ->. rewrite P0 in Hsome. by destruct Hsome.
      + intros k Hk. by rewrite lookup_insert_ne.
    - eexists _, _. split_and!; [reflexivity | exact C2 | done | done]. }
  assert (Hframe : ∀ l, is_Some (h !! l) → h7 !! l = h !! l).
  { intros l Hl. rewrite <- (C4 l Hl). apply L2.
    - intros ->. rewrite R0 in Hl. by destruct Hl.
    - by rewrite (C4 l Hl). }
  exists result, (ds ++ [c]), h7, f7.
  split_and!; [reflexivity | exact R0 | exact Hframe | exact L1 | | |].
  - rewrite L3 by done. rewrite lookup_insert_ne by done.
    destruct install.
    + destruct S3 as (m & -> & Hm0 & Hmne & Hm3).
      exists m. split_and!; [by rewrite lookup_insert_eq | exact Hm0 |].
      assert (m ≠ c) by (intros ->; congruence).
      rewrite L2; [by rewrite C3 | exact Hmne |].
      rewrite C3 by done. by rewrite Hm3.
    + by subst f3.
  - exists c. split_and!; [| exact Hc0 |].
    + rewrite L3 by done. by rewrite lookup_insert_eq.
    + rewrite L2; [exact C1 | exact Cne | by rewrite C1].
  - intros k K1 K2 K3. rewrite L3 by done. rewrite lookup_insert_ne by done.
    destruct install.
    + destruct S3 as (m & -> & _). by rewrite lookup_insert_ne.
    + by subst f3.
Qed.

(** C9. [toWorkbenchListOptions] returns an object that did not exist
    before and leaves every object that did, the caller's options among
    them, as it was. The returned options carry a new
    MultipleSelectionController, set up from the modifier setting, when the
    caller's [multipleSelectionSupport] is not [false] and the caller gave
    no controller, and the caller's own [multipleSelectionController]
    otherwise. Their [openController] is always a new
    WorkbenchOpenController that wraps the caller's: its
    [existingOpenController] is the caller's [openController], its click
    mode is the setting's, it opens nothing the caller's controller
    refuses, and for an event that is not a mouse event it answers what
    the caller's controller answers. Every other property but the label
    provider is copied. *)
Theorem toWorkbenchListOptions_copies_and_installs
    (options : loc) (configurationService : IConfigurationService)
    (h : Heap) (o : gmap string Value) :
  h !! options = Some (ObjectLiteral o) →
  let install :=
    bool_decide (prop o "multipleSelectionSupport" ≠ VBool false)
    && negb (truthy (prop o "multipleSelectionController")) in
  let existing := prop o "openController" in
  ∃ result disposables h' fields,
    toWorkbenchListOptions options configurationService h = Some (result, disposables, h')
    ∧ h !! result = None
    ∧ (∀ l, is_Some (h !! l) → h' !! l = h !! l)
    ∧ h' !! result = Some (ObjectLiteral fields)
    ∧ (if install
       then ∃ m controller,
              fields !! "multipleSelectionController" = Some (VObject m)
              ∧ h !! m = None
              ∧ h' !! m = Some (MultipleSelectionControllerObject controller)
              ∧ MultipleSelectionController.useAlt controller
                = bool_decide (getValue configurationService multiSelectModifierSettingKey
                               = VString "alt")
       else fields !! "multipleSelectionController" = o !! "multipleSelectionController")
    ∧ (∃ c controller,
         fields !! "openController" = Some (VObject c)
         ∧ h !! c = None
         ∧ h' !! c = Some (WorkbenchOpenControllerObject controller)
         ∧ WorkbenchOpenController.existingOpenController controller = existing
         ∧ WorkbenchOpenController.openOnSingleClick controller
           = bool_decide (getValue configurationService openModeSettingKey
                          ≠ VString "doubleClick")
         ∧ (∀ (existingShouldOpen : Value → UIEvent → bool) (event : UIEvent),
              truthy existing = true →
              WorkbenchOpenController.shouldOpen existingShouldOpen controller event = true →
              existingShouldOpen existing event = true)
         ∧ (∀ (existingShouldOpen : Value → UIEvent → bool) (event : UIEvent),
              asMouseEvent event = None →
              WorkbenchOpenController.shouldOpen existingShouldOpen controller event
              = (if truthy existing then existingShouldOpen existing event else true)))
    ∧ (∀ k, k ≠ "multipleSelectionController" → k ≠ "openController" →
            k ≠ "keyboardNavigationLabelProvider" → fields !! k = o !! k).
Proof.
  intros Ho install existing.
  destruct (toWorkbenchListOptions_result options configurationService h o Ho)
    as (result & disposables & h' & fields & Hcall & Hnew & Hframe & Hres & Hm & Hc & Hcopy).
  exists result, disposables, h', fields.
  split_and!; [exact Hcall | exact Hnew | exact Hframe | exact Hres | | | exact Hcopy].
  - fold install in Hm. destruct install; [| exact Hm].
    destruct Hm as (m & Hfm & Hhm & Hh'm).
    exists m, (MultipleSelectionController.constructor configurationService).
    split_and!; [exact Hfm | exact Hhm | exact Hh'm | reflexivity].
  - destruct Hc as (c & Hfc & Hhc & Hh'c).
    exists c, (WorkbenchOpenController.constructor configurationService existing).
    split_and!; [exact Hfc | exact Hhc | exact Hh'c | reflexivity | | |].
    + cbn [WorkbenchOpenController.constructor WorkbenchOpenController.openOnSingleClick].
      unfold useSingleClickToOpen, strictEq.
      destruct (decide (getValue configurationService openModeSettingKey
                        = VString "doubleClick")) as [Heq | Hne].
      * rewrite bool_decide_eq_true_2 by done. by rewrite bool_decide_eq_false_2 by auto.
      * rewrite bool_decide_eq_false_2 by done. by rewrite bool_decide_eq_true_2.
    + intros existingShouldOpen event Htruthy.
      unfold WorkbenchOpenController.shouldOpen, WorkbenchOpenController.delegate.
      cbn [WorkbenchOpenController.constructor WorkbenchOpenController.existingOpenController].
      rewrite Htruthy.
      destruct (asMouseEvent event) as [m |]; [| done].
      destruct (_ && _ && _); [discriminate |].
      by destruct (_ || _).
    + intros existingShouldOpen event Hmouse.
      unfold WorkbenchOpenController.shouldOpen, WorkbenchOpenController.delegate.
      by rewrite Hmouse.
Qed.
End Frame.

(** * The statements at sample inputs *)

Section SampleRuns.
Import Samples.

Example splice_examples :
  splice 1 1 [10; 20; 30] = [10; 30]
  ∧ splice (-1) 1 [10; 20; 30] = [10; 20]
  ∧ splice (-1) 1 ([] : list nat) = []
  ∧ indexOf (fun x => bool_decide (x = 20)) [10; 20; 30] = 1%Z
  ∧ indexOf (fun x => bool_decide (x = 40)) [10; 20; 30] = (-1)%Z.
Proof. repeat split; reflexivity. Qed.

Example register_twice_throws :
  (ListService.register 2 None false twoWidgets)
  = (Throw "Cannot register the same widget multiple times", twoWidgets)
  ∧ ListService.lastFocusedList twoWidgets = Some 2
  ∧ ListService.widgets twoWidgets = [1; 2].
Proof. repeat split; reflexivity. Qed.

(** A widget that is disposed fires [onDidDispose] and then disposes what
    it registered: the listener has already filtered the registration out,
    [indexOf] answers [-1] and [splice(-1, 1)] takes the last registration
    of [lists], here that of widget 2. *)
Example dispose_after_onDidDispose :
  let registration :=
    {| ListService.objectId := 0; ListService.widget := 1;
       ListService.extraContextKeys := None |} in
  ListService.widgets
    (ListService.run [ListService.WidgetDispose 1;
                      ListService.Dispose (ListService.Registration registration)]
       twoWidgets) = [].
Proof. reflexivity. Qed.

Example shouldOpen_examples :
  let controller := WorkbenchOpenController.constructor doubleClickMode VUndefined in
  let shouldOpen := WorkbenchOpenController.shouldOpen (fun _ _ => false) controller in
  shouldOpen singleClick = false
  ∧ shouldOpen ctrlDoubleClick = true
  ∧ shouldOpen rightClick = false
  ∧ shouldOpen keydown = true.
Proof. repeat split; vm_compute; reflexivity. Qed.

Example filter_example :
  KeyboardNavigationEventFilter.accepted <$>
    KeyboardNavigationEventFilter.createKeyboardNavigationEventFilter chordService
      [(tt, true); (tt, true); (tt, false); (tt, false)]
  = [false; false; true; true].
Proof. reflexivity. Qed.

End SampleRuns.


Lemma onSelection_fires_one_open_event_witness :
  ∃ ev,
    TreeResourceNavigator2.fired
      (TreeResourceNavigator2.onDidChangeSelection
         {| TreeResourceNavigator2.elements := [5];
            TreeResourceNavigator2.browserEvent := Some Samples.ctrlDoubleClick |}
         Samples.navigator) = [ev]
    ∧ TreeResourceNavigator2.pinned (TreeResourceNavigator2.editorOptions ev) = true
    ∧ TreeResourceNavigator2.sideBySide ev = true
    ∧ TreeResourceNavigator2.editorPreserveFocus (TreeResourceNavigator2.editorOptions ev)
      = false
    ∧ TreeResourceNavigator2.element ev = Some 5.
Proof.
  destruct (onSelection_fires_one_open_event
              {| TreeResourceNavigator2.elements := [5];
                 TreeResourceNavigator2.browserEvent := Some Samples.ctrlDoubleClick |}
              Samples.navigator Samples.ctrlDoubleClick eq_refl ltac:(discriminate))
    as (_ & Hiff & _ & Hfields).
  destruct (proj2 Hiff eq_refl) as [ev Hev].
  exists ev. split; [exact Hev |]. exact (Hfields ev Hev).
Defined.

Lemma filter_refuses_event_after_chord_witness :
  ∃ inv,
    KeyboardNavigationEventFilter.createKeyboardNavigationEventFilter Samples.chordService
      [(tt, true); (tt, false)] !! 1 = Some inv
    ∧ KeyboardNavigationEventFilter.accepted inv = false.
Proof.
  destruct (filter_refuses_event_after_chord Samples.chordService
              [(tt, true); (tt, false)] 0
              {| KeyboardNavigationEventFilter.dispatched := Some (Some Samples.chord);
                 KeyboardNavigationEventFilter.accepted := false |}
              Samples.chord eq_refl eq_refl eq_refl)
    as (_ & _ & _ & Hnext).
  apply Hnext. simpl. lia.
Defined.

Lemma toWorkbenchListOptions_copies_and_installs_witness :
  ∃ result disposables h',
    toWorkbenchListOptions 1%positive Samples.doubleClickMode Samples.callerStore
    = Some (result, disposables, h')
    ∧ result ≠ 1%positive
    ∧ h' !! 1%positive = Some (ObjectLiteral Samples.callerOptions).
Proof.
  destruct (toWorkbenchListOptions_copies_and_installs 1%positive Samples.doubleClickMode
              Samples.callerStore Samples.callerOptions (lookup_singleton_eq _ _))
    as (result & disposables & h' & fields & Hcall & Hnew & Hframe & _).
  exists result, disposables, h'. split_and!.
  - exact Hcall.
  - intros ->. unfold Samples.callerStore in Hnew. rewrite lookup_singleton_eq in Hnew.
    discriminate.
  - rewrite Hframe; [apply lookup_singleton_eq |].
    unfold Samples.callerStore. rewrite lookup_singleton_eq. by eexists.
Defined.

Lemma register_throws_iff_registered_witness :
  (ListService.register 2 None false Samples.twoWidgets).1
  = Throw "Cannot register the same widget multiple times"
  ∧ ∃ r,
      (ListService.register 3 None false Samples.twoWidgets).1
      = Normal (ListService.Registration r)
      ∧ 3 ∉ ListService.widgets
              (ListService.dispose (ListService.Registration r)
                 (ListService.run
                    [ListService.WidgetDispose 3; ListService.Register 4 None true]
                    (ListService.register 3 None false Samples.twoWidgets).2)).
Proof.
  split.
  - destruct (register_throws_iff_registered
                [ListService.Register 1 None false; ListService.Register 2 None true]
                2 None false) as (Hiff & _).
    apply Hiff. change (2 ∈ [1; 2]). right. by left.
  - destruct (register_throws_iff_registered
                [ListService.Register 1 None false; ListService.Register 2 None true]
                3 None false) as (_ & _ & Hnew & Hdispose).
    destruct Hnew as (r & Hr & _).
    { change (3 ∉ [1; 2]). intros Hin.
      repeat (apply elem_of_cons in Hin as [Hin | Hin]; [discriminate |]).
      by apply not_elem_of_nil in Hin. }
    exists r. split; [exact Hr |].
    apply (Hdispose r [ListService.WidgetDispose 3; ListService.Register 4 None true]
             None false Hr eq_refl).
Defined.

Lemma lastFocusedList_follows_focus_witness :
  ListService.lastFocusedList
    (ListService.register 3 None true Samples.twoWidgets).2 = Some 3
  ∧ ListService.lastFocusedList
      (ListService.fire ListService.onDidFocus 1 Samples.twoWidgets) = Some 1
  ∧ ListService.lastFocusedList
      (ListService.fire ListService.onDidDispose 2 Samples.twoWidgets) = None
  ∧ ListService.lastFocusedList
      (ListService.run [ListService.WidgetFocus 1; ListService.Register 5 None false;
                        ListService.WidgetDispose 1]
         (ListService.fire ListService.onDidDispose 2 Samples.twoWidgets)) ≠ Some 2.
Proof.
  destruct (lastFocusedList_follows_focus
              [ListService.Register 1 None false; ListService.Register 2 None true]
              1 None) as (_ & Hfocus & _ & _ & Hlistening1 & _).
  destruct (lastFocusedList_follows_focus
              [ListService.Register 1 None false; ListService.Register 2 None true]
              2 None) as (_ & _ & Hdispose & Hafter & Hlistening2 & _).
  destruct (lastFocusedList_follows_focus
              [ListService.Register 1 None false; ListService.Register 2 None true]
              3 None) as (Hregister & _).
  assert (H2 : 2 ∈ ListService.widgets Samples.twoWidgets)
    by (change (2 ∈ [1; 2]); right; by left).
  split_and!.
  - apply Hregister. change (3 ∉ [1; 2]). intros Hin.
    repeat (apply elem_of_cons in Hin as [Hin | Hin]; [discriminate |]).
    by apply not_elem_of_nil in Hin.
  - apply Hfocus, Hlistening1. change (1 ∈ [1; 2]). by left.
  - apply Hdispose; [by apply Hlistening2 | reflexivity].
  - apply Hafter; [by apply Hlistening2 | reflexivity].
Defined.

(** * Further properties *)

(** ** ListService: what every reachable service satisfies *)

Section RegistryInvariants.
Import ListService.

Lemma listenersDistinct_step (W : World) (op : Op) :
  listenersDistinct W → listenersDistinct (step W op).
Proof.
  intros (Hid & Hlt). destruct op as [w keys active | [r] | w | w]; simpl.
  - destruct (decide (w ∈ widgets W)) as [Hin | Hout].
    + rewrite register_registered by done. by split.
    + rewrite register_unregistered by done. unfold listenersDistinct. simpl.
      rewrite fmap_app. simpl. split.
      * apply NoDup_app. split_and!; [done | | apply NoDup_singleton].
        intros x Hx ->%list_elem_of_singleton.
        apply list_elem_of_fmap in Hx as (r & Hr & Hrin).
        rewrite Forall_forall in Hlt. specialize (Hlt r Hrin). lia.
      * apply Forall_app. split.
        -- eapply Forall_impl; [exact Hlt |]. simpl. intros; lia.
        -- apply Forall_singleton. simpl. lia.
  - unfold listenersDistinct. simpl. split.
    + eapply sublist_NoDup; [exact Hid |]. apply sublist_under_fmap, sublist_filter.
    + eapply sublist_Forall; [apply sublist_filter | exact Hlt].
  - by split.
  - by split.
Qed.

Lemma listenersDistinct_run (ops : list Op) (W : World) :
  listenersDistinct W → listenersDistinct (run ops W).
Proof.
  revert W. induction ops as [| op ops IH]; intros W HW; [exact HW |].
  simpl. apply IH. by apply listenersDistinct_step.
Qed.

Lemma listenersDistinct_create : listenersDistinct create.
Proof. split; constructor. Qed.

(** X1. Whatever sequence of registrations, disposals and widget events a
    service has seen, no widget occurs twice in [lists], every registration
    in [lists] still has its listeners attached, and the registrations with
    listeners attached are pairwise distinct objects. *)
Theorem reachable_service_invariants (ops : list Op) :
  let W := run ops create in
  NoDup (widgets W)
  ∧ lists (this W) ⊆ listeners W
  ∧ NoDup (objectId <$> listeners W).
Proof.
  intros W.
  destruct (wellFormed_run ops create wellFormed_create) as (Hw & _ & _ & Hsub).
  destruct (listenersDistinct_run ops create listenersDistinct_create) as (Hlid & _).
  by split_and!.
Qed.

(** Distinct keys make the key determine the element. *)
Lemma NoDup_fmap_member_inj {A B : Type} (f : A → B) (l : list A) (x y : A) :
  NoDup (f <$> l) → x ∈ l → y ∈ l → f x = f y → x = y.
Proof.
  intros Hnd [i Hi]%list_elem_of_lookup [j Hj]%list_elem_of_lookup Heq.
  assert (i = j) as ->; [| congruence].
  eapply NoDup_lookup; [exact Hnd | |].
  - by rewrite list_lookup_fmap, Hi.
  - rewrite list_lookup_fmap, Hj. simpl. by rewrite Heq.
Qed.

Lemma filter_agree {A : Type} (P Q : A → Prop)
    `{!∀ x, Decision (P x)} `{!∀ x, Decision (Q x)} (l : list A) :
  (∀ x, x ∈ l → (P x ↔ Q x)) → filter P l = filter Q l.
Proof.
  induction l as [| x l IH]; intros Hagree; [reflexivity |].
  rewrite !filter_cons.
  rewrite IH by (intros y Hy; apply Hagree; by right).
  destruct (decide (P x)) as [HP | HP], (decide (Q x)) as [HQ | HQ]; try reflexivity.
  - exfalso. apply HQ. apply Hagree; [by left | exact HP].
  - exfalso. apply HP. apply Hagree; [by left | exact HQ].
Qed.

Lemma filter_all {A : Type} (P : A → Prop) `{!∀ x, Decision (P x)} (l : list A) :
  Forall P l → filter P l = l.
Proof.
  induction 1 as [| x l HP _ IH]; [reflexivity |].
  rewrite filter_cons, decide_True by done. by rewrite IH.
Qed.

(** The dispose listeners of several registrations, run one after the
    other, filter out exactly the registrations with their identities. *)
Lemma foldl_onDidDispose_lists (rs : list IRegisteredList) (s : t) :
  lists (foldl (λ s r, onDidDispose r s) s rs)
  = filter (λ l, objectId l ∉ objectId <$> rs) (lists s).
Proof.
  revert s. induction rs as [| r rs IH]; intros s; simpl.
  - symmetry. apply filter_all. apply Forall_forall. intros l _. apply not_elem_of_nil.
  - rewrite IH. simpl. rewrite list_filter_filter. apply filter_agree.
    intros l _. rewrite not_elem_of_cons. tauto.
Qed.

Lemma fire_onDidDispose_lists (W : World) (w : ListWidget) :
  wellFormed W → listenersDistinct W →
  lists (this (fire onDidDispose w W)) = filter (λ r, widget r ≠ w) (lists (this W)).
Proof.
  intros (_ & _ & _ & Hsub) (Hlid & _). unfold fire. simpl.
  rewrite foldl_onDidDispose_lists. apply filter_agree. intros l Hl.
  assert (Hll : l ∈ listeners W) by (by apply Hsub).
  split.
  - intros Hnot Hw. apply Hnot. apply list_elem_of_fmap. exists l. split; [done |].
    by apply list_elem_of_filter.
  - intros Hw (r & Hid & Hr)%list_elem_of_fmap.
    apply list_elem_of_filter in Hr as [Hrw Hr].
    apply Hw. rewrite <- Hrw. f_equal.
    by apply (NoDup_fmap_member_inj objectId (listeners W)).
Qed.

(** X2. Disposing a disposable whose registration is no longer in [lists]
    does not leave [lists] alone: [indexOf] answers [-1] and
    [splice(-1, 1)] removes the last registration, whichever widget it
    belongs to; only an empty [lists] stays as it is. *)
Theorem dispose_of_absent_registration (W : World) (r : IRegisteredList) :
  Forall (λ r', objectId r' ≠ objectId r) (lists (this W)) →
  lists (this (dispose (Registration r) W))
  = take (length (lists (this W)) - 1) (lists (this W))
  ∧ (∀ l x, lists (this W) = l ++ [x] → lists (this (dispose (Registration r) W)) = l)
  ∧ (lists (this W) = [] → lists (this (dispose (Registration r) W)) = []).
Proof.
  intros Habsent.
  assert (Hlists : lists (this (dispose (Registration r) W))
                   = take (length (lists (this W)) - 1) (lists (this W))).
  { simpl. unfold indexOf.
    destruct (indexOfFrom_cases (sameObject r) (lists (this W)) 0 ltac:(lia))
      as [[-> _] | (i & x & _ & Hi & Hx & _)].
    - apply splice_minus_one.
    - exfalso. rewrite Forall_forall in Habsent.
      apply (Habsent x); [by eapply list_elem_of_lookup_2 |].
      unfold sameObject in Hx. by apply bool_decide_eq_true in Hx. }
  split_and!; [exact Hlists | |].
  - intros l x Heq. rewrite Hlists, Heq, length_app. simpl.
    replace (length l + 1 - 1) with (length l) by lia. by rewrite take_app_length.
  - intros Heq. rewrite Hlists, Heq. reflexivity.
Qed.

(** X3. Registering a widget and disposing the returned disposable right
    away gives back [lists] and the attached listeners as they were; the
    last focused list is not given back: a widget registered while its
    element was active stays the last focused list although it is no longer
    registered. *)
Theorem register_then_dispose (ops : list Op) (w : ListWidget)
    (keys : option (list string)) (active : bool) (d : IDisposable) (W1 : World) :
  let W := run ops create in
  register w keys active W = (Normal d, W1) →
  lists (this (dispose d W1)) = lists (this W)
  ∧ listeners (dispose d W1) = listeners W
  ∧ lastFocusedList (dispose d W1) = (if active then Some w else lastFocusedList W)
  ∧ (w ∉ widgets (dispose d W1)).
Proof.
  intros W Hreg.
  destruct (wellFormed_run ops create wellFormed_create) as (_ & _ & Hlt & _).
  destruct (listenersDistinct_run ops create listenersDistinct_create) as (_ & Hllt).
  fold W in Hlt, Hllt.
  destruct (decide (w ∈ widgets W)) as [Hin | Hout].
  { rewrite register_registered in Hreg by done. discriminate. }
  rewrite register_unregistered in Hreg by done. injection Hreg as <- <-.
  set (r := {| objectId := allocated W; widget := w; extraContextKeys := keys |}).
  assert (Hlists : lists (this (dispose (Registration r)
            {| this := {| lists := lists (this W) ++ [r];
                          _lastFocusedWidget :=
                            if active then Some w else _lastFocusedWidget (this W) |};
               listeners := listeners W ++ [r];
               allocated := S (allocated W) |})) = lists (this W)).
  { simpl. unfold indexOf.
    destruct (indexOfFrom_cases (sameObject r) (lists (this W) ++ [r]) 0 ltac:(lia))
      as [[_ Hall] | (i & x & -> & Hi & Hx & _)].
    - exfalso. rewrite Forall_app in Hall. destruct Hall as [_ Hall].
      rewrite Forall_singleton in Hall. unfold sameObject in Hall.
      by apply bool_decide_eq_false in Hall.
    - rewrite Z.add_0_l, splice_at by (by eapply lookup_lt_Some).
      unfold sameObject in Hx. apply bool_decide_eq_true in Hx.
      destruct (decide (i < length (lists (this W)))) as [Hi_lt | Hi_ge].
      + exfalso. rewrite lookup_app_l in Hi by done.
        rewrite Forall_forall in Hlt.
        specialize (Hlt x ltac:(by eapply list_elem_of_lookup_2)). simpl in Hx. lia.
      + assert (i = length (lists (this W))) as ->.
        { apply lookup_lt_Some in Hi. rewrite length_app in Hi. simpl in Hi. lia. }
        rewrite take_app_length. rewrite drop_ge; [by rewrite app_nil_r |].
        rewrite length_app. simpl. lia. }
  split_and!.
  - exact Hlists.
  - simpl. rewrite filter_app, filter_cons, filter_nil.
    rewrite decide_False by (intros Hne; by apply Hne).
    rewrite app_nil_r. apply filter_all.
    eapply Forall_impl; [exact Hllt |]. simpl. intros; lia.
  - by destruct active.
  - unfold widgets. by rewrite Hlists.
Qed.

(** X4. When a widget fires [onDidDispose], exactly its own registration
    leaves [lists]: the widget is no longer registered and every other
    widget is registered if and only if it was. *)
Theorem onDidDispose_removes_only_that_widget (ops : list Op) (w : ListWidget) :
  let W := run ops create in
  let W' := fire onDidDispose w W in
  lists (this W') = filter (λ r, widget r ≠ w) (lists (this W))
  ∧ (w ∉ widgets W')
  ∧ (∀ w', w' ≠ w → (w' ∈ widgets W' ↔ w' ∈ widgets W))
  ∧ listeners W' = listeners W.
Proof.
  intros W W'.
  assert (Hlists : lists (this W') = filter (λ r, widget r ≠ w) (lists (this W))).
  { apply fire_onDidDispose_lists.
    - apply wellFormed_run, wellFormed_create.
    - apply listenersDistinct_run, listenersDistinct_create. }
  split_and!; [exact Hlists | | | reflexivity].
  - unfold widgets. rewrite Hlists. intros (r & -> & Hr)%list_elem_of_fmap.
    by apply list_elem_of_filter in Hr as [Hr _].
  - intros w' Hne. unfold widgets. rewrite Hlists, !list_elem_of_fmap. split.
    + intros (r & -> & Hr). exists r. split; [done |].
      by apply list_elem_of_filter in Hr as [_ Hr].
    + intros (r & -> & Hr). exists r. split; [done |]. by apply list_elem_of_filter.
Qed.

(** X5. Disposing a widget the way the widget classes do, the event first
    and the registration's disposable after it, removes the widget's own
    registration and, with it, the last of the registrations that remain. *)
Theorem widget_disposal_takes_last_registration (ops : list Op) (r : IRegisteredList) :
  let W := run ops create in
  let others := filter (λ r', widget r' ≠ widget r) (lists (this W)) in
  r ∈ lists (this W) →
  lists (this (run [WidgetDispose (widget r); Dispose (Registration r)] W))
  = take (length others - 1) others.
Proof.
  intros W others Hr.
  change (lists (this (dispose (Registration r) (fire onDidDispose (widget r) W)))
          = take (length others - 1) others).
  assert (HW : wellFormed W) by apply wellFormed_run, wellFormed_create.
  assert (HL : listenersDistinct W) by apply listenersDistinct_run, listenersDistinct_create.
  pose proof (fire_onDidDispose_lists W (widget r) HW HL) as Hlists.
  fold others in Hlists.
  remember (fire onDidDispose (widget r) W) as W' eqn:HW'.
  simpl. unfold indexOf.
  destruct (indexOfFrom_cases (sameObject r) (lists (this W')) 0 ltac:(lia))
    as [[-> _] | (i & x & _ & Hi & Hx & _)].
  - rewrite splice_minus_one. by rewrite Hlists.
  - exfalso. unfold sameObject in Hx. apply bool_decide_eq_true in Hx.
    apply list_elem_of_lookup_2 in Hi. rewrite Hlists in Hi.
    apply list_elem_of_filter in Hi as [Hxw Hxin].
    destruct HW as (_ & Hid & _ & _).
    apply Hxw. f_equal. symmetry.
    by apply (NoDup_fmap_member_inj objectId (lists (this W))).
Qed.

Lemma registeredIn_snoc (ops : list Op) (op : Op) (w : ListWidget) :
  registeredIn ops w → registeredIn (ops ++ [op]) w.
Proof.
  intros (keys & active & Hin). exists keys, active. apply elem_of_app. by left.
Qed.

Lemma run_snoc (ops : list Op) (op : Op) (W : World) :
  run (ops ++ [op]) W = step (run ops W) op.
Proof. unfold run. by rewrite foldl_app. Qed.

Lemma history_of_listeners (ops : list Op) :
  (∀ r, r ∈ listeners (run ops create) → registeredIn ops (widget r))
  ∧ (∀ w, lastFocusedList (run ops create) = Some w → registeredIn ops w).
Proof.
  induction ops as [| op ops [IHl IHf]] using rev_ind.
  - split; [intros r Hr; by apply not_elem_of_nil in Hr | discriminate].
  - rewrite run_snoc. set (W := run ops create) in *.
    destruct op as [w keys active | [r0] | w | w]; simpl.
    + destruct (decide (w ∈ widgets W)) as [Hin | Hout].
      * rewrite register_registered by done. simpl.
        split; intros; apply registeredIn_snoc; auto.
      * rewrite register_unregistered by done. unfold lastFocusedList. simpl.
        assert (Hnew : registeredIn (ops ++ [Register w keys active]) w).
        { exists keys, active. apply elem_of_app. right. by left. }
        split.
        -- intros r [Hr | ->%list_elem_of_singleton]%elem_of_app;
             [by apply registeredIn_snoc, IHl | exact Hnew].
        -- intros w'. destruct active.
           ++ by intros [= <-].
           ++ intros Hf. by apply registeredIn_snoc, IHf.
    + split.
      * intros r [_ Hr]%list_elem_of_filter. by apply registeredIn_snoc, IHl.
      * intros w' Hf. by apply registeredIn_snoc, IHf.
    + unfold lastFocusedList, fire. simpl.
      destruct (foldl_onDidFocus _ (this W) w (listeners_of_widget W w)) as [_ ->].
      split.
      * intros r Hr. by apply registeredIn_snoc, IHl.
      * intros w'. destruct (filter _ (listeners W)) as [| r rs] eqn:Hrs.
        -- intros Hf. by apply registeredIn_snoc, IHf.
        -- intros [= <-]. apply registeredIn_snoc.
           assert (Hr : r ∈ filter (λ r, widget r = w) (listeners W))
             by (rewrite Hrs; by left).
           apply list_elem_of_filter in Hr as [<- Hr]. by apply IHl.
    + unfold lastFocusedList, fire. simpl.
      destruct (foldl_onDidDispose _ (this W) w (listeners_of_widget W w)) as [_ ->].
      split.
      * intros r Hr. by apply registeredIn_snoc, IHl.
      * intros w' Hf. apply registeredIn_snoc, IHf.
        destruct (filter _ (listeners W)); [exact Hf |].
        by case_decide.
Qed.

(** X6. The last focused list is always a widget that was registered with
    the service at some point; the service never names a widget it was
    never given, whatever events arrive. *)
Theorem lastFocusedList_was_registered (ops : list Op) (w : ListWidget) :
  lastFocusedList (run ops create) = Some w → registeredIn ops w.
Proof. apply history_of_listeners. Qed.

(** X7. Once the disposable of a widget's registration is disposed, focus
    and dispose events of that widget no longer reach the service: they
    leave it exactly as it is. *)
Theorem events_after_dispose_are_ignored (W W1 : World) (w : ListWidget)
    (keys : option (list string)) (active : bool) (d : IDisposable) (ops : list Op) :
  ¬ listening W w →
  register w keys active W = (Normal d, W1) →
  forallb (firedBy w) ops = true →
  run ops (dispose d W1) = dispose d W1.
Proof.
  intros Hquiet Hreg Hops.
  assert (Hnone : filter (λ r, widget r = w) (listeners (dispose d W1)) = []).
  { destruct (decide (w ∈ widgets W)) as [Hin | Hout].
    { rewrite register_registered in Hreg by done. discriminate. }
    rewrite register_unregistered in Hreg by done. injection Hreg as <- <-. simpl.
    destruct (filter (λ r, widget r = w) _) as [| r rs] eqn:Hrs; [reflexivity |].
    exfalso.
    assert (Hr : r ∈ filter (λ r, widget r = w)
                   (filter (λ l, objectId l ≠ allocated W)
                      (listeners W ++
                       [{| objectId := allocated W; widget := w;
                           extraContextKeys := keys |}])))
      by (rewrite Hrs; by left).
    apply list_elem_of_filter in Hr as [Hw Hr].
    apply list_elem_of_filter in Hr as [Hid Hr].
    apply elem_of_app in Hr as [Hr | ->%list_elem_of_singleton]; [| by apply Hid].
    apply Hquiet. unfold listening. apply list_elem_of_fmap. by exists r. }
  revert Hnone Hops. generalize (dispose d W1) as W2. clear.
  intros W2 Hnone. induction ops as [| op ops IH]; intros Hops; [reflexivity |].
  simpl in Hops. apply andb_true_iff in Hops as [Hop Hops].
  assert (Hstep : step W2 op = W2).
  { destruct op as [| | w' | w']; simpl in Hop; try discriminate;
      apply bool_decide_eq_true in Hop as ->; simpl; unfold fire;
      rewrite Hnone; by destruct W2. }
  simpl. rewrite Hstep. by apply IH.
Qed.

End RegistryInvariants.

(** ** WorkbenchOpenController with a wrapped controller *)

Section WrappedOpenController.
Import WorkbenchOpenController.
Variable existingShouldOpen : Value -> UIEvent -> bool.

(** X8. A controller that wraps another one opens exactly what both agree
    to open: its answer is the answer it would give with nothing wrapped,
    and the wrapped controller's answer besides. It never opens what the
    wrapped controller refuses, and the wrapped controller cannot open what
    the click mode or the mouse button rules out. *)
Theorem shouldOpen_wrapped_is_conjunction (this : t) (event : UIEvent) :
  let unwrapped := {| openOnSingleClick := openOnSingleClick this;
                      existingOpenController := VUndefined |} in
  let wrapped :=
    if truthy (existingOpenController this)
    then existingShouldOpen (existingOpenController this) event
    else true in
  shouldOpen existingShouldOpen this event
  = shouldOpen existingShouldOpen unwrapped event && wrapped.
Proof.
  intros unwrapped wrapped. subst unwrapped wrapped.
  unfold shouldOpen, delegate. simpl.
  destruct (asMouseEvent event) as [m |]; [| reflexivity].
  destruct (button m =? 0)%Z, (openOnSingleClick this), (detail event =? 2)%Z,
    (button m =? 1)%Z; reflexivity.
Qed.

(** X9. The open mode decides nothing but single clicks with the left
    button: whenever the answers under the two modes differ, the event is a
    mouse event with button 0 whose detail is not 2, the single-click mode
    opens it and the double-click mode does not. *)
Theorem open_mode_only_decides_left_single_clicks (existing : Value) (event : UIEvent) :
  let single := {| openOnSingleClick := true; existingOpenController := existing |} in
  let double := {| openOnSingleClick := false; existingOpenController := existing |} in
  shouldOpen existingShouldOpen single event ≠ shouldOpen existingShouldOpen double event →
  (∃ m, asMouseEvent event = Some m ∧ button m = 0%Z ∧ detail event ≠ 2%Z)
  ∧ shouldOpen existingShouldOpen single event = true
  ∧ shouldOpen existingShouldOpen double event = false.
Proof.
  intros single double. subst single double.
  unfold shouldOpen, delegate. simpl.
  destruct (asMouseEvent event) as [m |]; [| done].
  destruct (Z.eqb_spec (button m) 0) as [Hb | Hb]; simpl; [| done].
  destruct (Z.eqb_spec (detail event) 2) as [Hd | Hd]; simpl; [done |].
  intros Hne. split; [by exists m |].
  destruct (if truthy existing then existingShouldOpen existing event else true); done.
Qed.

End WrappedOpenController.

(** ** More on the options of the tree widgets *)

Section TreeOptionsMore.
Context {T : Type}.

(** X10. The two keyboard navigation modes exclude each other: neither the
    options a tree is constructed with nor any [updateOptions] call made on
    a configuration change sets both [simpleKeyboardNavigation] and
    [filterOnType], whatever the setting holds. *)
Theorem keyboard_navigation_modes_exclude_each_other
    (options workbenchListOptions styles : gmap string Value)
    (styleController automaticKeyboardNavigation keyboardNavigationEventFilter : Value)
    (configurationService : IConfigurationService)
    (e : IConfigurationChangeEvent) (this : Widget T) :
  let super :=
    WorkbenchObjectTree.superOptions options workbenchListOptions styles
      styleController automaticKeyboardNavigation keyboardNavigationEventFilter
      configurationService in
  let updateOptions :=
    (WorkbenchObjectTree.onDidChangeConfiguration configurationService e this).2 in
  ¬ (super !! "simpleKeyboardNavigation" = Some (VBool true)
     ∧ super !! "filterOnType" = Some (VBool true))
  ∧ Forall (fun o => ¬ (o !! "simpleKeyboardNavigation" = Some (VBool true)
                        ∧ o !! "filterOnType" = Some (VBool true))) updateOptions.
Proof.
  intros super updateOptions. subst super updateOptions.
  assert (Hexclusive : ∀ v : Value,
            ¬ (strictEq v (VString "simple") = true ∧ strictEq v (VString "filter") = true)).
  { intros v [H1 H2]. unfold strictEq in *.
    apply bool_decide_eq_true in H1, H2. congruence. }
  split.
  - unfold WorkbenchObjectTree.superOptions, objectLiteral. simpl.
    do 4 rewrite (lookup_insert_ne _ _ "simpleKeyboardNavigation") by done.
    rewrite lookup_insert_eq.
    do 3 rewrite (lookup_insert_ne _ _ "filterOnType") by done.
    rewrite lookup_insert_eq.
    intros [[= H1] [= H2]]. by eapply Hexclusive.
  - rewrite onDidChangeConfiguration_calls.
    rewrite !Forall_app. split_and!.
    + destruct (affectsConfiguration e openModeSettingKey); [| constructor].
      apply Forall_singleton. rewrite lookup_singleton_ne by done. by intros [? _].
    + destruct (affectsConfiguration e treeIndentKey); [| constructor].
      apply Forall_singleton. rewrite lookup_singleton_ne by done. by intros [? _].
    + destruct (affectsConfiguration e keyboardNavigationSettingKey); [| constructor].
      apply Forall_singleton.
      rewrite lookup_insert_ne by done. rewrite lookup_singleton_eq, lookup_insert_eq.
      intros [[= H1] [= H2]]. by eapply Hexclusive.
Qed.

(** X11. In the options a tree hands to its widget class the caller's
    options overrule the theme's styles, and both overrule
    [keyboardSupport: false] and the shared style controller; but nothing
    the caller passes overrules the seven properties the constructor sets
    last: [indent] is the indent setting, [simpleKeyboardNavigation] and
    [filterOnType] tell whether the keyboard navigation setting is
    ['simple'] or ['filter'], [horizontalScrolling] is the caller's own
    value when the caller gave one and the setting otherwise,
    [openOnSingleClick] is the open mode setting, and
    [automaticKeyboardNavigation] and [keyboardNavigationEventFilter] are
    the context key's value and the filter the constructor made. *)
Theorem tree_options_precedence
    (options workbenchListOptions styles : gmap string Value)
    (styleController automaticKeyboardNavigation keyboardNavigationEventFilter : Value)
    (configurationService : IConfigurationService) :
  let super :=
    WorkbenchObjectTree.superOptions options workbenchListOptions styles
      styleController automaticKeyboardNavigation keyboardNavigationEventFilter
      configurationService in
  (∀ k, k ∉ ["indent"; "automaticKeyboardNavigation"; "simpleKeyboardNavigation";
            "filterOnType"; "horizontalScrolling"; "openOnSingleClick";
            "keyboardNavigationEventFilter"] →
     super !! k =
       match workbenchListOptions !! k with
       | Some v => Some v
       | None =>
           match styles !! k with
           | Some v => Some v
           | None =>
               (<["styleController" := styleController]>
                  {[ "keyboardSupport" := VBool false ]} : gmap string Value) !! k
           end
       end)
  ∧ super !! "indent" = Some (getValue configurationService treeIndentKey)
  ∧ super !! "simpleKeyboardNavigation"
    = Some (VBool (bool_decide (getValue configurationService keyboardNavigationSettingKey
                                = VString "simple")))
  ∧ super !! "filterOnType"
    = Some (VBool (bool_decide (getValue configurationService keyboardNavigationSettingKey
                                = VString "filter")))
  ∧ super !! "horizontalScrolling"
    = Some (match prop options "horizontalScrolling" with
            | VUndefined => getValue configurationService horizontalScrollingKey
            | v => v
            end)
  ∧ super !! "openOnSingleClick"
    = Some (VBool (bool_decide (getValue configurationService openModeSettingKey
                                ≠ VString "doubleClick")))
  ∧ super !! "automaticKeyboardNavigation" = Some automaticKeyboardNavigation
  ∧ super !! "keyboardNavigationEventFilter" = Some keyboardNavigationEventFilter.
Proof.
  intros super. subst super.
  unfold WorkbenchObjectTree.superOptions, objectLiteral. simpl. split_and!.
  - intros k Hk.
    repeat (rewrite not_elem_of_cons in Hk; destruct Hk as [? Hk]).
    do 7 rewrite lookup_insert_ne by done.
    unfold spread. rewrite !lookup_union.
    destruct (workbenchListOptions !! k) as [v |]; simpl.
    + by rewrite union_Some_l.
    + rewrite (left_id_L None _). destruct (styles !! k) as [v |]; simpl.
      * by rewrite union_Some_l.
      * rewrite (left_id_L None _). by rewrite insert_empty.
  - do 6 rewrite lookup_insert_ne by done. by rewrite lookup_insert_eq.
  - do 4 rewrite lookup_insert_ne by done. by rewrite lookup_insert_eq.
  - do 3 rewrite lookup_insert_ne by done. by rewrite lookup_insert_eq.
  - do 2 rewrite lookup_insert_ne by done. rewrite lookup_insert_eq.
    by destruct (prop options "horizontalScrolling").
  - rewrite lookup_insert_ne by done. rewrite lookup_insert_eq. do 2 f_equal.
    unfold useSingleClickToOpen, strictEq.
    destruct (decide (getValue configurationService openModeSettingKey
                      = VString "doubleClick")) as [Heq | Hne].
    + rewrite bool_decide_eq_true_2 by done. by rewrite bool_decide_eq_false_2 by auto.
    + rewrite bool_decide_eq_false_2 by done. by rewrite bool_decide_eq_true_2.
  - do 5 rewrite lookup_insert_ne by done. by rewrite lookup_insert_eq.
  - by rewrite lookup_insert_eq.
Qed.

(** X12. The configuration listener of a tree touches neither selection,
    nor focus, nor context keys. The [updateOptions] calls it makes are
    exactly these, in this order: one with [openOnSingleClick] when the
    change affects the open mode setting, then one with [indent] when it
    affects the indent setting, then one with the two keyboard navigation
    flags when it affects the keyboard navigation setting, each with the
    value the service then has. A change that affects none of the four
    settings it listens to leaves the widget as it is and makes no call. *)
Theorem tree_configuration_listener (configurationService : IConfigurationService)
    (e : IConfigurationChangeEvent) (this : Widget T) :
  let after := WorkbenchObjectTree.onDidChangeConfiguration configurationService e this in
  let keyboardNavigation := getValue configurationService keyboardNavigationSettingKey in
  selection after.1 = selection this
  ∧ focus after.1 = focus this
  ∧ contextKeyService after.1 = contextKeyService this
  ∧ after.2
    = (if affectsConfiguration e openModeSettingKey
       then [ {[ "openOnSingleClick" :=
                   VBool (bool_decide (getValue configurationService openModeSettingKey
                                       ≠ VString "doubleClick")) ]} ]
       else [])
      ++ (if affectsConfiguration e treeIndentKey
          then [ {[ "indent" := getValue configurationService treeIndentKey ]} ]
          else [])
      ++ (if affectsConfiguration e keyboardNavigationSettingKey
          then [ <["filterOnType" :=
                     VBool (bool_decide (keyboardNavigation = VString "filter"))]>
                 {[ "simpleKeyboardNavigation" :=
                      VBool (bool_decide (keyboardNavigation = VString "simple")) ]} ]
          else [])
  ∧ (affectsConfiguration e openModeSettingKey = false →
     affectsConfiguration e multiSelectModifierSettingKey = false →
     affectsConfiguration e treeIndentKey = false →
     affectsConfiguration e keyboardNavigationSettingKey = false →
     after = (this, [])).
Proof.
  intros after keyboardNavigation. subst after keyboardNavigation.
  pose proof (onDidChangeConfiguration_calls configurationService e this) as Hcalls.
  assert (Hmode : useSingleClickToOpen configurationService
                  = bool_decide (getValue configurationService openModeSettingKey
                                 ≠ VString "doubleClick")).
  { unfold useSingleClickToOpen, strictEq.
    destruct (decide (getValue configurationService openModeSettingKey
                      = VString "doubleClick")) as [Heq | Hne].
    - rewrite bool_decide_eq_true_2 by done. by rewrite bool_decide_eq_false_2 by auto.
    - rewrite bool_decide_eq_false_2 by done. by rewrite bool_decide_eq_true_2. }
  split_and!.
  - unfold WorkbenchObjectTree.onDidChangeConfiguration,
      WorkbenchWidget.onMultiSelectModifierChange.
    by destruct (affectsConfiguration e multiSelectModifierSettingKey).
  - unfold WorkbenchObjectTree.onDidChangeConfiguration,
      WorkbenchWidget.onMultiSelectModifierChange.
    by destruct (affectsConfiguration e multiSelectModifierSettingKey).
  - unfold WorkbenchObjectTree.onDidChangeConfiguration,
      WorkbenchWidget.onMultiSelectModifierChange.
    by destruct (affectsConfiguration e multiSelectModifierSettingKey).
  - rewrite Hcalls, Hmode. reflexivity.
  - intros H1 H2 H3 H4.
    unfold WorkbenchObjectTree.onDidChangeConfiguration,
      WorkbenchWidget.onMultiSelectModifierChange.
    by rewrite H1, H2, H3, H4.
Qed.

End TreeOptionsMore.

(** ** The registered configuration and its readers *)

(** X13. Every default of the registered configuration has the registered
    type, is one of the enumerated values where values are enumerated, and
    lies within the registered bounds. On the enumerated values the readers
    draw the line where the names say: single click opens exactly for
    ['singleClick'], alt is the modifier exactly when the value is not
    ['ctrlCmd'], and keyboard navigation is simple or filtering exactly
    when the value is not ['highlight']. At the registered defaults single
    click opens and alt is not the modifier. *)
Theorem registered_configuration_is_consistent :
  Forall (fun p =>
            typeof (schemaDefault p.2) = schemaType p.2
            ∧ (∀ values, schemaEnum p.2 = Some values → schemaDefault p.2 ∈ values)
            ∧ (∀ lo hi n, schemaMinimum p.2 = Some lo → schemaMaximum p.2 = Some hi →
                 schemaDefault p.2 = VNumber n → (lo ≤ n ≤ hi)%Z))
         workbenchConfigurationProperties
  ∧ (∀ configurationService,
       getValue configurationService openModeSettingKey ∈ enumOf openModeSettingKey →
       useSingleClickToOpen configurationService
       = bool_decide (getValue configurationService openModeSettingKey
                      = VString "singleClick"))
  ∧ (∀ configurationService,
       getValue configurationService multiSelectModifierSettingKey
         ∈ enumOf multiSelectModifierSettingKey →
       useAltAsMultipleSelectionModifier configurationService
       = negb (bool_decide (getValue configurationService multiSelectModifierSettingKey
                            = VString "ctrlCmd")))
  ∧ (∀ v, v ∈ enumOf keyboardNavigationSettingKey →
       strictEq v (VString "simple") || strictEq v (VString "filter")
       = negb (bool_decide (v = VString "highlight")))
  ∧ (∀ configurationService,
       getValue configurationService openModeSettingKey
         = registeredDefault openModeSettingKey →
       getValue configurationService multiSelectModifierSettingKey
         = registeredDefault multiSelectModifierSettingKey →
       useSingleClickToOpen configurationService = true
       ∧ useAltAsMultipleSelectionModifier configurationService = false).
Proof.
  split_and!.
  - repeat (apply Forall_cons; split;
            [split_and!;
               [reflexivity
               | intros values Hv; simpl in Hv;
                 first [discriminate | injection Hv as <-; set_solver]
               | intros lo hi n Hlo Hhi Hn; simpl in Hlo, Hhi, Hn;
                 first [discriminate
                       | injection Hlo as <-; injection Hhi as <-; injection Hn as <-; lia]]
            |]).
    constructor.
  - intros cs Hv. unfold useSingleClickToOpen.
    change (enumOf openModeSettingKey)
      with [VString "singleClick"; VString "doubleClick"] in Hv.
    repeat (apply elem_of_cons in Hv as [Hv | Hv]; [by rewrite Hv |]).
    by apply not_elem_of_nil in Hv.
  - intros cs Hv. unfold useAltAsMultipleSelectionModifier.
    change (enumOf multiSelectModifierSettingKey)
      with [VString "ctrlCmd"; VString "alt"] in Hv.
    repeat (apply elem_of_cons in Hv as [Hv | Hv]; [by rewrite Hv |]).
    by apply not_elem_of_nil in Hv.
  - intros v Hv.
    change (enumOf keyboardNavigationSettingKey)
      with [VString "simple"; VString "highlight"; VString "filter"] in Hv.
    repeat (apply elem_of_cons in Hv as [Hv | Hv]; [by rewrite Hv |]).
    by apply not_elem_of_nil in Hv.
  - intros cs H1 H2. unfold useSingleClickToOpen, useAltAsMultipleSelectionModifier.
    rewrite H1, H2. split; reflexivity.
Qed.

(** ** toWorkbenchListOptions: what it creates and what it returns to dispose *)

Section OptionsObjects.

Lemma alloc_setProp_dom (obj : Object) (result n : loc) (k : string)
    (h h2 : Heap) (fields : gmap string Value) (l : loc) :
  h !! result = Some (ObjectLiteral fields) →
  alloc obj h = (n, h2) →
  is_Some (setProp result k (VObject n) h2 !! l) → l = n ∨ is_Some (h !! l).
Proof.
  intros Hres Halloc Hl.
  destruct (alloc_setProp obj result n k h h2 fields Hres Halloc) as (_ & _ & _ & _ & Hother).
  destruct (decide (l = n)) as [-> | Hn]; [by left |]. right.
  destruct (decide (l = result)) as [-> | Hr]; [by rewrite Hres |].
  by rewrite <- Hother.
Qed.

(** X14. The disposables [toWorkbenchListOptions] returns are exactly the
    controllers it created, the multiple selection controller first when
    one is installed and the open controller last; each is a new object. A
    keyboard navigation label provider of the caller is replaced by a new
    object that wraps it and is not among the disposables; without one the
    property is left as the caller has it. Besides the returned options,
    the controllers and this wrapper, no object is created. *)
Theorem toWorkbenchListOptions_disposables
    (options : loc) (configurationService : IConfigurationService)
    (h : Heap) (o : gmap string Value) :
  h !! options = Some (ObjectLiteral o) →
  let install :=
    bool_decide (prop o "multipleSelectionSupport" ≠ VBool false)
    && negb (truthy (prop o "multipleSelectionController")) in
  let tlp := prop o "keyboardNavigationLabelProvider" in
  ∃ result disposables h' fields c,
    toWorkbenchListOptions options configurationService h = Some (result, disposables, h')
    ∧ h' !! result = Some (ObjectLiteral fields)
    ∧ fields !! "openController" = Some (VObject c)
    ∧ (if install
       then ∃ m, fields !! "multipleSelectionController" = Some (VObject m)
                 ∧ disposables = [m; c] ∧ m ≠ c
       else disposables = [c])
    ∧ Forall (fun d => h !! d = None ∧ d ≠ result ∧ isControllerAt h' d) disposables
    ∧ (if truthy tlp
       then ∃ p, fields !! "keyboardNavigationLabelProvider" = Some (VObject p)
                 ∧ h !! p = None ∧ p ≠ result ∧ (p ∉ disposables)
                 ∧ h' !! p = Some (LabelProviderObject tlp)
       else fields !! "keyboardNavigationLabelProvider"
            = o !! "keyboardNavigationLabelProvider")
    ∧ (∀ l, is_Some (h' !! l) →
         is_Some (h !! l) ∨ l = result ∨ l ∈ disposables
         ∨ fields !! "keyboardNavigationLabelProvider" = Some (VObject l)).
Proof.
  intros Ho install tlp.
  assert (Hinstall : negb (strictEq (prop o "multipleSelectionSupport") (VBool false))
                     && negb (truthy (prop o "multipleSelectionController")) = install).
  { subst install. unfold strictEq. f_equal.
    destruct (decide (prop o "multipleSelectionSupport" = VBool false)) as [Heq | Hne].
    - rewrite bool_decide_eq_true_2 by done. by rewrite bool_decide_eq_false_2 by auto.
    - rewrite bool_decide_eq_false_2 by done. by rewrite bool_decide_eq_true_2. }
  unfold toWorkbenchListOptions. rewrite Ho, Hinstall. clearbody install.
  fold tlp.
  destruct (alloc (ObjectLiteral o) h) as [result h1] eqn:A1.
  apply alloc_spec in A1 as (R0 & R1 & R1').
  assert (R2 : ∀ l, is_Some (h1 !! l) → is_Some (h !! l) ∨ l = result).
  { intros l Hl. destruct (decide (l = result)) as [-> | Hne]; [by right |].
    left. by rewrite <- R1'. }
  assert (∃ ds h3 f3,
    (if install
     then let '(multipleSelectionController, h0) :=
            alloc (MultipleSelectionControllerObject
                     (MultipleSelectionController.constructor configurationService)) h1 in
          ([] ++ [multipleSelectionController],
           setProp result "multipleSelectionController"
             (VObject multipleSelectionController) h0)
     else ([], h1)) = (ds, h3)
    ∧ h3 !! result = Some (ObjectLiteral f3)
    ∧ (∀ l, is_Some (h !! l) → h3 !! l = h !! l)
    ∧ (∀ l, is_Some (h3 !! l) → is_Some (h !! l) ∨ l = result ∨ l ∈ ds)
    ∧ (if install
       then ∃ m, ds = [m] ∧ f3 = <["multipleSelectionController" := VObject m]> o
                 ∧ h !! m = None ∧ m ≠ result
                 ∧ h3 !! m = Some (MultipleSelectionControllerObject
                                     (MultipleSelectionController.constructor
                                        configurationService))
       else ds = [] ∧ f3 = o)) as (ds & h3 & f3 & -> & S1 & S2 & S4 & S3).
  { destruct install.
    - destruct (alloc _ h1) as [m h2] eqn:A2.
      destruct (alloc_setProp _ result m "multipleSelectionController" h1 h2 o R1 A2)
        as (M0 & Mne & M1 & M2 & M3).
      eexists _, _, _. split_and!; [reflexivity | exact M2 | | |].
      + intros l Hl. assert (l ≠ result) by (intros ->; rewrite R0 in Hl; by destruct Hl).
        assert (l ≠ m).
        { intros ->. rewrite R1' in M0 by done. rewrite M0 in Hl. by destruct Hl. }
        rewrite M3 by done. by apply R1'.
      + intros l Hl.
        destruct (alloc_setProp_dom _ result m _ h1 h2 o l R1 A2 Hl) as [-> | Hl1].
        * right. right. by left.
        * destruct (R2 l Hl1) as [? | ?]; auto.
      + exists m. split_and!; [reflexivity | reflexivity | | exact Mne | exact M1].
        by rewrite <- (R1' m Mne).
    - eexists _, _, _. split_and!; [reflexivity | exact R1 | | | reflexivity | reflexivity].
      + intros l Hl. apply R1'. intros ->. rewrite R0 in Hl. by destruct Hl.
      + intros l Hl. destruct (R2 l Hl); auto. }
  destruct (alloc _ h3) as [c h4] eqn:A3.
  destruct (alloc_setProp _ result c "openController" h3 h4 f3 S1 A3)
    as (C0 & Cne & C1 & C2 & C3).
  pose proof (λ l, alloc_setProp_dom _ result c "openController" h3 h4 f3 l S1 A3) as C5.
  set (h5 := setProp result "openController" (VObject c) h4) in *.
  assert (Hc0 : h !! c = None).
  { destruct (h !! c) eqn:E; [| done].
    rewrite <- (S2 c) in E by (by rewrite E). congruence. }
  assert (∃ h7 f7,
    (if truthy tlp
     then let '(provider, h0) := alloc (LabelProviderObject tlp) h5 in
          setProp result "keyboardNavigationLabelProvider" (VObject provider) h0
     else h5) = h7
    ∧ h7 !! result = Some (ObjectLiteral f7)
    ∧ (∀ l, l ≠ result → is_Some (h5 !! l) → h7 !! l = h5 !! l)
    ∧ (∀ k, k ≠ "keyboardNavigationLabelProvider" →
            f7 !! k = <["openController" := VObject c]> f3 !! k)
    ∧ (if truthy tlp
       then ∃ p, f7 !! "keyboardNavigationLabelProvider" = Some (VObject p)
                 ∧ h5 !! p = None ∧ p ≠ result
                 ∧ h7 !! p = Some (LabelProviderObject tlp)
                 ∧ (∀ l, is_Some (h7 !! l) → l = p ∨ is_Some (h5 !! l))
       else h7 = h5
            ∧ f7 !! "keyboardNavigationLabelProvider"
              = <["openController" := VObject c]> f3 !! "keyboardNavigationLabelProvider"))
    as (h7 & f7 & -> & L1 & L2 & L3 & L4).
  { destruct (truthy tlp).
    - destruct (alloc _ h5) as [p h6] eqn:A4.
      destruct (alloc_setProp _ result p "keyboardNavigationLabelProvider" h5 h6 _ C2 A4)
        as (P0 & Pne & P1 & P2 & P3).
      eexists _, _. split_and!; [reflexivity | exact P2 | | |].
      + intros l Hl Hsome. apply P3; [| exact Hl].
        intros ->. rewrite P0 in Hsome. by destruct Hsome.
      + intros k Hk. by rewrite lookup_insert_ne.
      + exists p. split_and!; [by rewrite lookup_insert_eq | exact P0 | exact Pne | exact P1 |].
        intros l. by apply (alloc_setProp_dom _ result p _ h5 h6 _ l C2 A4).
    - eexists _, _. split_and!; [reflexivity | exact C2 | done | done | reflexivity | reflexivity]. }
  assert (Hcontrollers :
            Forall (λ d, h !! d = None ∧ d ≠ result ∧ isControllerAt h5 d) (ds ++ [c])).
  { apply Forall_app. split.
    - destruct install.
      + destruct S3 as (m & -> & _ & Hm0 & Hmr & Hm3).
        apply Forall_singleton. split_and!; [exact Hm0 | exact Hmr |].
        assert (m ≠ c) by (intros ->; congruence).
        unfold isControllerAt. rewrite C3 by done. by rewrite Hm3.
      + destruct S3 as [-> _]. constructor.
    - apply Forall_singleton. split_and!; [exact Hc0 | exact Cne |].
      unfold isControllerAt. by rewrite C1. }
  exists result, (ds ++ [c]), h7, f7, c.
  split_and!; [reflexivity | exact L1 | | | | |].
  - rewrite L3 by done. by rewrite lookup_insert_eq.
  - destruct install.
    + destruct S3 as (m & -> & -> & _ & _ & Hm3).
      exists m. split_and!; [| reflexivity | intros ->; congruence].
      rewrite L3 by done. rewrite lookup_insert_ne by done. by rewrite lookup_insert_eq.
    + by destruct S3 as [-> _].
  - eapply Forall_impl; [exact Hcontrollers |]. simpl.
    intros d (Hd0 & Hdr & Hd5). split_and!; [exact Hd0 | exact Hdr |].
    unfold isControllerAt in *. rewrite L2; [exact Hd5 | exact Hdr |].
    destruct (h5 !! d); [by eexists | done].
  - destruct (truthy tlp).
    + destruct L4 as (p & Hp & Hp5 & Hpr & Hp7 & _).
      exists p. split_and!; [exact Hp | | exact Hpr | | exact Hp7].
      * destruct (h !! p) eqn:E; [| done]. exfalso.
        assert (Hp3 : h3 !! p = h !! p) by (apply S2; by rewrite E).
        assert (p ≠ c) by (intros ->; congruence).
        rewrite <- C3 in Hp3 by done. congruence.
      * intros Hin. rewrite Forall_forall in Hcontrollers.
        destruct (Hcontrollers p Hin) as (_ & _ & Hctl).
        unfold isControllerAt in Hctl. by rewrite Hp5 in Hctl.
    + destruct L4 as [_ ->]. rewrite lookup_insert_ne by done.
      destruct install.
      * destruct S3 as (m & _ & -> & _). by rewrite lookup_insert_ne.
      * by destruct S3 as [_ ->].
  - intros l Hl.
    assert (H5 : is_Some (h5 !! l) →
                 is_Some (h !! l) ∨ l = result ∨ l ∈ ds ++ [c]
                 ∨ f7 !! "keyboardNavigationLabelProvider" = Some (VObject l)).
    { intros Hl5. destruct (C5 l Hl5) as [-> | Hl3].
      - right. right. left. apply elem_of_app. right. by left.
      - destruct (S4 l Hl3) as [? | [? | ?]]; auto.
        right. right. left. apply elem_of_app. by left. }
    destruct (truthy tlp).
    + destruct L4 as (p & Hp & _ & _ & _ & Hdom).
      destruct (Hdom l Hl) as [-> | Hl5]; [| by apply H5].
      by repeat right.
    + destruct L4 as [-> _]. by apply H5.
Qed.

End OptionsObjects.

(** ** Context keys over the life of a widget *)

Section WidgetLife.
Context {T : Type}.

Lemma deliver_other_keys (this : Widget T) (ev : WidgetEvent T) (key : string) :
  key ≠ WorkbenchListHasSelectionOrFocus → key ≠ WorkbenchListMultiSelection →
  key ≠ WorkbenchListDoubleSelection →
  contextKeyService (WorkbenchWidget.deliver this ev) !! key = contextKeyService this !! key
  ∧ _useAltAsMultipleSelectionModifier (WorkbenchWidget.deliver this ev)
    = _useAltAsMultipleSelectionModifier this.
Proof.
  intros H1 H2 H3. destruct ev; simpl; split; try reflexivity.
  - by rewrite !lookup_insert_ne.
  - by rewrite lookup_insert_ne.
Qed.

(** X15. From construction on, with the selection and the focus empty at
    the start, the three context keys say the truth about the widget after
    every sequence of selection and focus changes; [listSupportsMultiselect]
    keeps the value the constructor gave it, true unless the caller's
    [multipleSelectionSupport] is [false], and [listFocus] stays true as
    [createScopedContextKeyService] bound it; the scoped service holds
    these five keys and no other, and the events do not change the
    modifier field. *)
Theorem context_keys_over_widget_life (options : gmap string Value)
    (configurationService : IConfigurationService) (events : list (WidgetEvent T)) :
  let this := foldl WorkbenchWidget.deliver
                (WorkbenchWidget.constructor options configurationService) events in
  WorkbenchWidget.keysAccurate this
  ∧ contextKeyService this !! WorkbenchListSupportsMultiSelectContextKey
    = Some (bool_decide (prop options "multipleSelectionSupport" ≠ VBool false))
  ∧ contextKeyService this !! RawWorkbenchListFocusContextKey = Some true
  ∧ dom (contextKeyService this)
    = {[ RawWorkbenchListFocusContextKey; WorkbenchListSupportsMultiSelectContextKey;
         WorkbenchListHasSelectionOrFocus;
         WorkbenchListDoubleSelection; WorkbenchListMultiSelection ]}
  ∧ _useAltAsMultipleSelectionModifier this
    = useAltAsMultipleSelectionModifier configurationService.
Proof.
  intros this. subst this.
  set (start := WorkbenchWidget.constructor (T := T) options configurationService).
  assert (Hstart : WorkbenchWidget.keysAccurate start).
  { unfold WorkbenchWidget.keysAccurate, start, WorkbenchWidget.constructor. simpl.
    split_and!.
    - by rewrite !lookup_insert_ne, lookup_insert_eq by done.
    - by rewrite lookup_insert_eq.
    - by rewrite lookup_insert_ne, lookup_insert_eq by done. }
  split; [by apply keys_accurate_along_events |].
  assert (Hinv : ∀ (w : Widget T),
            (∀ key, key ≠ WorkbenchListHasSelectionOrFocus →
               key ≠ WorkbenchListMultiSelection → key ≠ WorkbenchListDoubleSelection →
               contextKeyService (foldl WorkbenchWidget.deliver w events) !! key
               = contextKeyService w !! key)
            ∧ _useAltAsMultipleSelectionModifier (foldl WorkbenchWidget.deliver w events)
              = _useAltAsMultipleSelectionModifier w
            ∧ (WorkbenchListHasSelectionOrFocus ∈ dom (contextKeyService w) →
               WorkbenchListDoubleSelection ∈ dom (contextKeyService w) →
               WorkbenchListMultiSelection ∈ dom (contextKeyService w) →
               dom (contextKeyService (foldl WorkbenchWidget.deliver w events))
               = dom (contextKeyService w))).
  { induction events as [| ev events IH]; intros w; [done |].
    simpl. destruct (IH (WorkbenchWidget.deliver w ev)) as (IH1 & IH2 & IH3).
    split_and!.
    { intros key K1 K2 K3. rewrite IH1 by done.
      by apply (deliver_other_keys w ev key). }
    { rewrite IH2.
      by apply (deliver_other_keys w ev WorkbenchListSupportsMultiSelectContextKey). }
    intros D1 D2 D3.
    assert (Hdom : dom (contextKeyService (WorkbenchWidget.deliver w ev))
                   = dom (contextKeyService w)).
    { assert (Hkeep : ∀ (m : gmap string bool) k v, k ∈ dom m → dom (<[k := v]> m) = dom m)
        by (intros m k v Hin; apply dom_insert_lookup_L; by apply elem_of_dom).
      destruct ev; simpl.
      - rewrite Hkeep; rewrite ?Hkeep; rewrite ?Hkeep; done.
      - by rewrite Hkeep. }
    rewrite IH3; rewrite ?Hdom; done. }
  destruct (Hinv start) as (H1 & H2 & H3).
  split_and!.
  - rewrite H1 by done. unfold start, WorkbenchWidget.constructor. simpl.
    rewrite !lookup_insert_ne, lookup_insert_eq by done. f_equal.
    unfold strictEq. 
    destruct (decide (prop options "multipleSelectionSupport" = VBool false)).
    + rewrite bool_decide_eq_true_2 by done. by rewrite bool_decide_eq_false_2 by auto.
    + rewrite bool_decide_eq_false_2 by done. by rewrite bool_decide_eq_true_2.
  - rewrite H1 by done. unfold start, WorkbenchWidget.constructor. simpl.
    by rewrite !lookup_insert_ne by done.
  - assert (Hstartdom : dom (contextKeyService start)
                        = {[ RawWorkbenchListFocusContextKey;
                             WorkbenchListSupportsMultiSelectContextKey;
                             WorkbenchListHasSelectionOrFocus;
                             WorkbenchListDoubleSelection; WorkbenchListMultiSelection ]}).
    { unfold start, WorkbenchWidget.constructor, createScopedContextKeyService. simpl.
      rewrite !dom_insert_L, dom_empty_L. apply set_eq. intros x.
      rewrite !elem_of_union, !elem_of_singleton, elem_of_empty. tauto. }
    rewrite H3; rewrite Hstartdom; rewrite ?elem_of_union, ?elem_of_singleton; tauto.
  - by rewrite H2.
Qed.

End WidgetLife.

(** ** The navigator and programmatic selection *)

Section NavigatorMore.
Context {TreeT T : Type} `{!Tree.Interface TreeT T}.
Import TreeResourceNavigator2.

Lemma onSelection_keyboard (be : UIEvent) (k : KeyboardEventData)
    (elements : list T) (w : World TreeT T) :
  iface be = KeyboardEvent k → type be ≠ "contextmenu" → detail be = 0%Z →
  onSelection {| elements := elements; browserEvent := Some be |} w
  = open (match preserveFocus k with VBool b => b | _ => true end) false false w.
Proof.
  intros Hk Htype Hdetail. unfold onSelection. cbn [browserEvent].
  rewrite (bool_decide_eq_false_2 _ Htype).
  unfold instanceofKeyboardEvent, asKeyboardEvent, asMouseEvent. rewrite Hk, Hdetail.
  rewrite bool_decide_eq_true_2 by (by eexists).
  rewrite !orb_true_r. cbn [Z.eqb negb orb].
  by destruct (preserveFocus k).
Qed.

(** X16. A selection change that carries an event made by
    [getSelectionKeyboardEvent] always opens, whatever the click mode of
    the tree, unless the event type asked for is ['contextmenu']: exactly
    one open event is fired, not pinned and not side by side, preserving
    focus as the flag given to [getSelectionKeyboardEvent] says, and
    preserving it when no boolean was given. A focus change carrying the
    same event, on a tree that tells its listeners once of the selection it
    is given, opens twice: first from the selection listener, preserving
    focus as the flag says, then from the focus listener, preserving it. *)
Theorem getSelectionKeyboardEvent_opens (typeArg : option string) (flag : Value)
    (elements : list T) (w : World TreeT T) :
  default "keydown" typeArg ≠ "contextmenu" →
  let be := getSelectionKeyboardEvent typeArg flag in
  let e := {| elements := elements; browserEvent := Some be |} in
  let opened preserve (t : TreeT) :=
    [{| editorOptions := {| editorPreserveFocus := preserve; pinned := false;
                            revealIfVisible := true |};
        sideBySide := false;
        element := head (Tree.getSelection t) |}] in
  let byFlag := match flag with VBool b => b | _ => true end in
  let changed := Tree.setSelection (Tree.getFocus (tree w)) (Some be) (tree w) in
  fired (onDidChangeSelection e w) = fired w ++ opened byFlag (tree w)
  ∧ tree (onDidChangeSelection e w) = tree w
  ∧ (changed.2 = [(Tree.getFocus (tree w), Some be)] →
     fired (onDidChangeFocus (Some {| openOnFocus := true |}) e w)
     = fired w ++ opened byFlag changed.1 ++ opened true changed.1).
Proof.
  intros Htype be e opened byFlag changed.
  assert (Hsel : ∀ els w0,
            onSelection {| elements := els; browserEvent := Some be |} w0
            = open byFlag false false w0).
  { intros els w0.
    apply (onSelection_keyboard be
             {| keyModifiers := {| ctrlKey := false; metaKey := false; altKey := false |};
                preserveFocus := flag |}); done. }
  split_and!.
  - unfold onDidChangeSelection, e. by rewrite Hsel.
  - unfold onDidChangeSelection, e. by rewrite Hsel.
  - intros Hchanges.
    destruct (onFocus_steps e w) as [_ Hfired]. cbv zeta in Hfired.
    cbn [browserEvent e] in Hfired. fold changed in Hfired.
    rewrite Hfired, Hchanges. cbn [dispatchSelection foldl fst snd].
    rewrite Hsel. cbn [open fired tree iface be getSelectionKeyboardEvent].
    by rewrite <- app_assoc.
Qed.

Lemma onSelection_envelope (e : ITreeEvent T) (w : World TreeT T) :
  ∃ new, fired (onSelection e w) = fired w ++ new ∧ (length new ≤ 1)%nat
         ∧ Forall (fun ev => revealIfVisible (editorOptions ev) = true
                             ∧ (sideBySide ev = true →
                                ∃ be, browserEvent e = Some be
                                  ∧ instanceofMouseEvent be = true)) new.
Proof.
  assert (Hsame : ∃ new, fired w = fired w ++ new ∧ (length new ≤ 1)%nat
            ∧ Forall (fun ev => revealIfVisible (editorOptions ev) = true
                                ∧ (sideBySide ev = true →
                                   ∃ be, browserEvent e = Some be
                                     ∧ instanceofMouseEvent be = true)) new).
  { exists []. rewrite app_nil_r. split_and!; [done | simpl; lia | constructor]. }
  unfold onSelection.
  destruct (browserEvent e) as [be |] eqn:Hbe; [| exact Hsame].
  destruct (bool_decide (type be = "contextmenu")); [exact Hsame |].
  destruct (_ || _ || _); [| exact Hsame].
  eexists. split_and!; [reflexivity | simpl; lia |].
  apply Forall_singleton. simpl. split; [reflexivity |].
  intros Hside. exists be. split; [reflexivity |].
  unfold instanceofMouseEvent. destruct (asMouseEvent be); [| discriminate].
  by apply bool_decide_eq_true_2.
Qed.

Lemma dispatchSelection_envelope (changes : list (list T * option UIEvent))
    (w : World TreeT T) :
  ∃ new, fired (dispatchSelection changes w) = fired w ++ new
         ∧ (length new ≤ length changes)%nat
         ∧ Forall (fun ev => revealIfVisible (editorOptions ev) = true) new.
Proof.
  revert w. induction changes as [| c changes IH]; intros w.
  - exists []. rewrite app_nil_r. split_and!; [done | simpl; lia | constructor].
  - cbn [dispatchSelection foldl].
    destruct (onSelection_envelope {| elements := c.1; browserEvent := c.2 |} w)
      as (new1 & Hf1 & Hl1 & Hr1).
    destruct (IH (onSelection {| elements := c.1; browserEvent := c.2 |} w))
      as (new2 & Hf2 & Hl2 & Hr2).
    exists (new1 ++ new2). unfold dispatchSelection in Hf2. rewrite Hf2, Hf1.
    split_and!.
    + by rewrite <- app_assoc.
    + rewrite length_app. simpl. lia.
    + apply Forall_app. split; [| exact Hr2].
      eapply Forall_impl; [exact Hr1 |]. by intros ev [Hrev _].
Qed.

(** X17. A selection change makes the navigator fire at most one open
    event. A focus change makes it fire at most one for each selection
    change the tree announces from [setSelection], through the selection
    listener, and at most one more of its own: up to two on a tree that
    announces the call once. No event takes a fired event back, and every
    event fired asks to reveal the resource if visible. A selection change
    never touches the tree, and one without browser event or of type
    ['contextmenu'] does nothing at all, in every click mode; it opens to
    the side for mouse events only. *)
Theorem navigator_open_events_bounded
    (options : option IResourceResultsNavigationOptions)
    (e : ITreeEvent T) (w : World TreeT T) :
  let changed :=
    Tree.setSelection (Tree.getFocus (tree w)) (browserEvent e) (tree w) in
  (∃ new, fired (onDidChangeSelection e w) = fired w ++ new ∧ (length new ≤ 1)%nat
          ∧ Forall (fun ev => revealIfVisible (editorOptions ev) = true
                              ∧ (sideBySide ev = true →
                                 ∃ be, browserEvent e = Some be
                                   ∧ instanceofMouseEvent be = true)) new)
  ∧ (∃ new, fired (onDidChangeFocus options e w) = fired w ++ new
            ∧ (length new ≤ length changed.2 + 1)%nat
            ∧ Forall (fun ev => revealIfVisible (editorOptions ev) = true) new)
  ∧ tree (onDidChangeSelection e w) = tree w
  ∧ (match browserEvent e with
     | None => True
     | Some be => type be = "contextmenu"
     end → onDidChangeSelection e w = w).
Proof.
  intros changed. split_and!.
  - apply onSelection_envelope.
  - assert (Hsame : ∃ new, fired w = fired w ++ new
              ∧ (length new ≤ length changed.2 + 1)%nat
              ∧ Forall (fun ev => revealIfVisible (editorOptions ev) = true) new).
    { exists []. rewrite app_nil_r. split_and!; [done | simpl; lia | constructor]. }
    unfold onDidChangeFocus at 1.
    destruct options as [[[]] |]; cbn [openOnFocus]; [| exact Hsame | exact Hsame].
    destruct (onFocus_steps e w) as [_ Hfired]. cbv zeta in Hfired.
    fold changed in Hfired. unfold onDidChangeFocus in Hfired. cbn [openOnFocus] in Hfired.
    destruct (dispatchSelection_envelope changed.2
                {| tree := changed.1; fired := fired w |}) as (new1 & Hf1 & Hl1 & Hr1).
    cbn [fired] in Hf1. rewrite Hfired, Hf1, <- app_assoc.
    eexists. split; [reflexivity |]. rewrite length_app. split.
    + destruct (browserEvent e) as [be |]; [destruct (iface be) |]; simpl; lia.
    + apply Forall_app. split; [exact Hr1 |].
      destruct (browserEvent e) as [be |]; [destruct (iface be) |];
        repeat constructor.
  - apply onSelection_tree.
  - unfold onDidChangeSelection, onSelection.
    destruct (browserEvent e) as [be |]; [| reflexivity].
    intros Htype. by rewrite (bool_decide_eq_true_2 _ Htype).
Qed.

End NavigatorMore.

(** ** The shared style sheets *)

Section StyleSheets.
Import SharedStyleSheets.

Lemma get_spec (g : Getter) (s : t) :
  sheetsCounted s →
  sheetsCounted (get g s).2
  ∧ sheetOf g (get g s).2 = Some (get g s).1
  ∧ (∀ g' a, sheetOf g' s = Some a → sheetOf g' (get g s).2 = Some a).
Proof.
  intros Hs. pose proof Hs as (Hc & Hlt & Hne).
  destruct g; simpl; unfold getSharedListStyleSheet, getSharedTreeStyleSheet.
  - destruct (sharedListStyleSheet s) as [a |] eqn:El; simpl.
    + split_and!; [exact Hs | exact El | done].
    + split_and!.
      * unfold sheetsCounted. simpl. split_and!; [lia | |].
        -- intros [] a; simpl; [intros [= <-]; lia |].
           intros Ht. specialize (Hlt TreeSheet a Ht). lia.
        -- intros a b [= <-] Ht. specialize (Hlt TreeSheet b Ht). lia.
      * reflexivity.
      * intros [] a; simpl; [by rewrite El | done].
  - destruct (sharedTreeStyleSheet s) as [b |] eqn:Et; simpl.
    + split_and!; [exact Hs | exact Et | done].
    + split_and!.
      * unfold sheetsCounted. simpl. split_and!; [lia | |].
        -- intros [] a; simpl; [| intros [= <-]; lia].
           intros Hl. specialize (Hlt ListSheet a Hl). lia.
        -- intros a b Hl [= <-]. specialize (Hlt ListSheet a Hl). lia.
      * reflexivity.
      * intros [] a; simpl; [done | by rewrite Et].
Qed.

Lemma calls_spec (gs : list Getter) (s : t) :
  sheetsCounted s →
  sheetsCounted (calls gs s).2
  ∧ length (calls gs s).1 = length gs
  ∧ (∀ g a, sheetOf g s = Some a → sheetOf g (calls gs s).2 = Some a)
  ∧ (∀ i g a, gs !! i = Some g → (calls gs s).1 !! i = Some a →
              sheetOf g (calls gs s).2 = Some a).
Proof.
  revert s. induction gs as [| g gs IH]; intros s Hs; simpl.
  - split_and!; [done | done | done |]. intros i g a Hi. by rewrite lookup_nil in Hi.
  - destruct (get_spec g s Hs) as (Hs1 & Hg & Hkeep).
    destruct (get g s) as [sheet s1]. simpl in *.
    destruct (IH s1 Hs1) as (Hs2 & Hlen & Hkeep2 & Hall).
    destruct (calls gs s1) as [sheets s2]. simpl in *.
    split_and!; [exact Hs2 | by rewrite Hlen | by auto |].
    intros [| i] g' a Hi Ha; simpl in *.
    + injection Hi as <-. injection Ha as <-. by apply Hkeep2.
    + by eapply Hall.
Qed.

(** X18. However the calls of [getSharedListStyleSheet] and
    [getSharedTreeStyleSheet] interleave, all calls of one getter return
    the same style element, the two getters return different elements, and
    [createStyleSheet] is called at most twice in all. *)
Theorem shared_style_sheets_are_created_once (gs : list Getter) :
  let sheets := (calls gs initial).1 in
  length sheets = length gs
  ∧ (∀ i j g a b, gs !! i = Some g → gs !! j = Some g →
       sheets !! i = Some a → sheets !! j = Some b → a = b)
  ∧ (∀ i j a b, gs !! i = Some ListSheet → gs !! j = Some TreeSheet →
       sheets !! i = Some a → sheets !! j = Some b → a ≠ b)
  ∧ (created (calls gs initial).2 ≤ 2)%nat
  ∧ (ListSheet ∈ gs → TreeSheet ∈ gs → created (calls gs initial).2 = 2).
Proof.
  intros sheets. subst sheets.
  assert (Hinit : sheetsCounted initial).
  { split_and!; [reflexivity | by intros [] a | done]. }
  destruct (calls_spec gs initial Hinit) as ((Hc & _ & Hne) & Hlen & _ & Hall).
  split_and!.
  - exact Hlen.
  - intros i j g a b Hi Hj Ha Hb.
    pose proof (Hall i g a Hi Ha) as H1. pose proof (Hall j g b Hj Hb) as H2. congruence.
  - intros i j a b Hi Hj Ha Hb.
    apply Hne; [exact (Hall i ListSheet a Hi Ha) | exact (Hall j TreeSheet b Hj Hb)].
  - rewrite Hc. destruct (sharedListStyleSheet _), (sharedTreeStyleSheet _); simpl; lia.
  - intros [i Hi]%list_elem_of_lookup [j Hj]%list_elem_of_lookup.
    destruct (lookup_lt_is_Some_2 (calls gs initial).1 i) as [a Ha].
    { rewrite Hlen. by eapply lookup_lt_Some. }
    destruct (lookup_lt_is_Some_2 (calls gs initial).1 j) as [b Hb].
    { rewrite Hlen. by eapply lookup_lt_Some. }
    pose proof (Hall i ListSheet a Hi Ha) as H1.
    pose proof (Hall j TreeSheet b Hj Hb) as H2. simpl in H1, H2.
    rewrite Hc, H1, H2. reflexivity.
Qed.

End StyleSheets.

(** ** Options changed in place: massageControllerOptions, handleTreeController *)

Section InPlace.

(** A property of an object literal set only if [test] fails on it. *)
Lemma setProp_unless (test : Value → bool) (l : loc) (k : string) (v : Value)
    (h : Heap) (o : gmap string Value) :
  h !! l = Some (ObjectLiteral o) →
  let h' := if negb (test (prop (fieldsOf h l) k)) then setProp l k v h else h in
  let o' := if test (prop o k) then o else <[k := v]> o in
  h' !! l = Some (ObjectLiteral o') ∧ (∀ l', l' ≠ l → h' !! l' = h !! l').
Proof.
  intros Hl. simpl. unfold fieldsOf. rewrite Hl.
  destruct (test (prop o k)); simpl.
  - by split.
  - split; [by apply setProp_literal | intros l' Hne; by apply setProp_other].
Qed.

Lemma unless_lookup (b : bool) (o : gmap string Value) (k k' : string) (v : Value) :
  (if b then o else <[k := v]> o) !! k'
  = if decide (k' = k) then (if b then o !! k else Some v) else o !! k'.
Proof.
  destruct b, (decide (k' = k)) as [-> | Hne]; try reflexivity.
  - apply lookup_insert_eq.
  - by apply lookup_insert_ne.
Qed.

(** X19. [massageControllerOptions] returns the very object it was given,
    changed in place: afterwards [keyboardSupport] is a boolean and
    [clickBehavior] a number, a boolean or a number the caller had put
    there is kept, no other property and no other object is touched, and
    massaging once more changes nothing. *)
Theorem massageControllerOptions_in_place (ON_MOUSE_DOWN : Z) (options : loc)
    (h : Heap) (o : gmap string Value) :
  h !! options = Some (ObjectLiteral o) →
  let massaged := WorkbenchTreeController.massageControllerOptions ON_MOUSE_DOWN options h in
  massaged.1 = options
  ∧ (∃ o', massaged.2 !! options = Some (ObjectLiteral o')
           ∧ typeof (prop o' "keyboardSupport") = TBoolean
           ∧ typeof (prop o' "clickBehavior") = TNumber
           ∧ (typeof (prop o "keyboardSupport") = TBoolean →
              o' !! "keyboardSupport" = o !! "keyboardSupport")
           ∧ (typeof (prop o "keyboardSupport") ≠ TBoolean →
              o' !! "keyboardSupport" = Some (VBool false))
           ∧ (typeof (prop o "clickBehavior") = TNumber →
              o' !! "clickBehavior" = o !! "clickBehavior")
           ∧ (typeof (prop o "clickBehavior") ≠ TNumber →
              o' !! "clickBehavior" = Some (VNumber ON_MOUSE_DOWN))
           ∧ (∀ k, k ≠ "keyboardSupport" → k ≠ "clickBehavior" → o' !! k = o !! k))
  ∧ (∀ l, l ≠ options → massaged.2 !! l = h !! l)
  ∧ WorkbenchTreeController.massageControllerOptions ON_MOUSE_DOWN options massaged.2
    = massaged.
Proof.
  intros Ho massaged. subst massaged.
  unfold WorkbenchTreeController.massageControllerOptions at 1 2 3.
  cbn [fst snd].
  destruct (setProp_unless (λ v, bool_decide (typeof v = TBoolean)) options
              "keyboardSupport" (VBool false) h o Ho) as [K1 K2].
  cbv zeta in K1, K2.
  set (h1 := if negb (bool_decide (typeof (prop (fieldsOf h options) "keyboardSupport")
                                   = TBoolean))
             then setProp options "keyboardSupport" (VBool false) h else h) in *.
  set (o1 := if bool_decide (typeof (prop o "keyboardSupport") = TBoolean)
             then o else <["keyboardSupport" := VBool false]> o) in *.
  destruct (setProp_unless (λ v, bool_decide (typeof v = TNumber)) options
              "clickBehavior" (VNumber ON_MOUSE_DOWN) h1 o1 K1) as [B1 B2].
  cbv zeta in B1, B2.
  set (h2 := if negb (bool_decide (typeof (prop (fieldsOf h1 options) "clickBehavior")
                                   = TNumber))
             then setProp options "clickBehavior" (VNumber ON_MOUSE_DOWN) h1 else h1) in *.
  set (o2 := if bool_decide (typeof (prop o1 "clickBehavior") = TNumber)
             then o1 else <["clickBehavior" := VNumber ON_MOUSE_DOWN]> o1) in *.
  assert (Hcb1 : o1 !! "clickBehavior" = o !! "clickBehavior").
  { unfold o1. rewrite unless_lookup. by rewrite decide_False. }
  assert (Hks2 : o2 !! "keyboardSupport"
                 = (if bool_decide (typeof (prop o "keyboardSupport") = TBoolean)
                    then o !! "keyboardSupport" else Some (VBool false))).
  { unfold o2. rewrite unless_lookup, decide_False by done.
    unfold o1. rewrite unless_lookup. by rewrite decide_True. }
  assert (Hcb2 : o2 !! "clickBehavior"
                 = (if bool_decide (typeof (prop o "clickBehavior") = TNumber)
                    then o !! "clickBehavior" else Some (VNumber ON_MOUSE_DOWN))).
  { assert (Hp : prop o1 "clickBehavior" = prop o "clickBehavior")
      by (unfold prop; by rewrite Hcb1).
    unfold o2. rewrite unless_lookup, decide_True by done. rewrite Hp, Hcb1. reflexivity. }
  assert (Tks : typeof (prop o2 "keyboardSupport") = TBoolean).
  { unfold prop at 1. rewrite Hks2.
    destruct (bool_decide (typeof (prop o "keyboardSupport") = TBoolean)) eqn:Hb;
      [by apply bool_decide_eq_true in Hb | reflexivity]. }
  assert (Tcb : typeof (prop o2 "clickBehavior") = TNumber).
  { unfold prop at 1. rewrite Hcb2.
    destruct (bool_decide (typeof (prop o "clickBehavior") = TNumber)) eqn:Hb;
      [by apply bool_decide_eq_true in Hb | reflexivity]. }
  split_and!.
  - reflexivity.
  - exists o2. split_and!; [exact B1 | exact Tks | exact Tcb | | | | |].
    + intros Hb. rewrite Hks2. by rewrite bool_decide_eq_true_2.
    + intros Hb. rewrite Hks2. by rewrite bool_decide_eq_false_2.
    + intros Hb. rewrite Hcb2. by rewrite bool_decide_eq_true_2.
    + intros Hb. rewrite Hcb2. by rewrite bool_decide_eq_false_2.
    + intros k Hk1 Hk2. unfold o2. rewrite unless_lookup, decide_False by done.
      unfold o1. rewrite unless_lookup. by rewrite decide_False.
  - intros l Hne. rewrite B2 by done. by apply K2.
  - assert (F2 : fieldsOf h2 options = o2) by (unfold fieldsOf; by rewrite B1).
    change (WorkbenchTreeController.massageControllerOptions ON_MOUSE_DOWN options h)
      with (options, h2).
    cbn [snd]. unfold WorkbenchTreeController.massageControllerOptions. cbv zeta.
    rewrite F2, (bool_decide_eq_true_2 _ Tks). cbn [negb].
    rewrite F2, (bool_decide_eq_true_2 _ Tcb). reflexivity.
Qed.

(** X20. [handleTreeController] returns the very configuration it was
    given, changed in place: a controller and a styler the caller supplied
    are kept, a missing one is filled in, so that afterwards both are
    there; no other property and no other object is touched. *)
Theorem handleTreeController_in_place (newController newStyler : Value)
    (configuration : loc) (h : Heap) (o : gmap string Value) :
  truthy newController = true → truthy newStyler = true →
  h !! configuration = Some (ObjectLiteral o) →
  let handled := handleTreeController newController newStyler configuration h in
  handled.1 = configuration
  ∧ (∃ o', handled.2 !! configuration = Some (ObjectLiteral o')
           ∧ truthy (prop o' "controller") = true
           ∧ truthy (prop o' "styler") = true
           ∧ o' !! "controller"
             = (if truthy (prop o "controller") then o !! "controller"
                else Some newController)
           ∧ o' !! "styler"
             = (if truthy (prop o "styler") then o !! "styler" else Some newStyler)
           ∧ (∀ k, k ≠ "controller" → k ≠ "styler" → o' !! k = o !! k))
  ∧ (∀ l, l ≠ configuration → handled.2 !! l = h !! l).
Proof.
  intros Hc Hs Ho handled. subst handled. unfold handleTreeController. cbn [fst snd].
  destruct (setProp_unless truthy configuration "controller" newController h o Ho)
    as [K1 K2].
  cbv zeta in K1, K2.
  set (h1 := if negb (truthy (prop (fieldsOf h configuration) "controller"))
             then setProp configuration "controller" newController h else h) in *.
  set (o1 := if truthy (prop o "controller") then o
             else <["controller" := newController]> o) in *.
  destruct (setProp_unless truthy configuration "styler" newStyler h1 o1 K1) as [B1 B2].
  cbv zeta in B1, B2.
  set (h2 := if negb (truthy (prop (fieldsOf h1 configuration) "styler"))
             then setProp configuration "styler" newStyler h1 else h1) in *.
  set (o2 := if truthy (prop o1 "styler") then o1 else <["styler" := newStyler]> o1) in *.
  assert (Hst1 : o1 !! "styler" = o !! "styler").
  { unfold o1. rewrite unless_lookup. by rewrite decide_False. }
  assert (Hco : o2 !! "controller"
                = (if truthy (prop o "controller") then o !! "controller"
                   else Some newController)).
  { unfold o2. rewrite unless_lookup, decide_False by done.
    unfold o1. rewrite unless_lookup. by rewrite decide_True. }
  assert (Hst : o2 !! "styler"
                = (if truthy (prop o "styler") then o !! "styler" else Some newStyler)).
  { assert (Hp : prop o1 "styler" = prop o "styler") by (unfold prop; by rewrite Hst1).
    unfold o2. rewrite unless_lookup, decide_True by done. rewrite Hp, Hst1. reflexivity. }
  split_and!.
  - reflexivity.
  - exists o2. split_and!; [exact B1 | | | exact Hco | exact Hst |].
    + unfold prop. rewrite Hco. destruct (truthy (prop o "controller")) eqn:E; [exact E | exact Hc].
    + unfold prop. rewrite Hst. destruct (truthy (prop o "styler")) eqn:E; [exact E | exact Hs].
    + intros k Hk1 Hk2. unfold o2. rewrite unless_lookup, decide_False by done.
      unfold o1. rewrite unless_lookup. by rewrite decide_False.
  - intros l Hne. rewrite B2 by done. by apply K2.
Qed.

End InPlace.

(** ** WorkbenchTreeController and the open mode setting *)

Section TreeControllerMode.
Import WorkbenchTreeController.
Variable isUndefinedOrNull : Value -> bool.

Lemma run_not_listening (ops : list Op) : run ops {| listening := false |} = [].
Proof.
  induction ops as [| [cs e |] ops IH]; simpl; [done | | exact IH].
  by rewrite IH.
Qed.

(** X21. A tree controller made with an open mode in its options never
    calls [setOpenMode]: the setting does not reach it, at construction or
    on any later configuration change. One made without sets the open mode
    from the setting at construction, single click unless the setting is
    ['doubleClick'], and again on each change that affects the setting,
    until it is disposed; after that no change reaches it. *)
Theorem tree_controller_follows_setting_unless_told (options : gmap string Value)
    (configurationService : IConfigurationService) (ops ops' : list Op)
    (configurationService' : IConfigurationService) (e : IConfigurationChangeEvent) :
  let made := constructor isUndefinedOrNull options configurationService in
  (isUndefinedOrNull (prop options "openMode") = false →
   made.2 = [] ∧ run ops made.1 = [])
  ∧ (isUndefinedOrNull (prop options "openMode") = true →
     made.2 = [getOpenModeSetting configurationService]
     ∧ run (ConfigurationChange configurationService' e :: ops) made.1
       = (if affectsConfiguration e openModeSettingKey
          then [getOpenModeSetting configurationService'] else [])
         ++ run ops made.1
     ∧ run (ops ++ Dispose :: ops') made.1 = run ops made.1)
  ∧ (getOpenModeSetting configurationService = DOUBLE_CLICK
     ↔ getValue configurationService openModeSettingKey = VString "doubleClick").
Proof.
  intros made. subst made. unfold constructor. split_and!.
  - intros ->. simpl. split; [reflexivity | apply run_not_listening].
  - intros ->. simpl. split_and!; [reflexivity | reflexivity |].
    induction ops as [| [cs e0 |] ops IH]; simpl.
    + apply run_not_listening.
    + by rewrite IH.
    + rewrite !run_not_listening. reflexivity.
  - unfold getOpenModeSetting, useSingleClickToOpen, strictEq.
    case_bool_decide; simpl; split; congruence.
Qed.

End TreeControllerMode.

(** ** The deprecated tree and its navigator *)

Section LegacyTree.
Context {TreeT E : Type} `{!WorkbenchTree.Base TreeT E}.
Variable truthyElement : E -> bool.

(** X22. After a selection change the three
    keys are set and agree with each other: a double selection is a multi
    selection, a multi selection counts as selection or focus, and the
    double selection key holds exactly for two selected elements. A focus
    change writes the first key only and leaves every other key, the mode
    fields and the base tree as they were. *)
Theorem legacy_tree_context_keys (this : WorkbenchTree.t TreeT) :
  let afterSelection := WorkbenchTree.onDidChangeSelection truthyElement this in
  let afterFocus := WorkbenchTree.onDidChangeFocus truthyElement this in
  let selection := WorkbenchTree.getSelection (WorkbenchTree.super this) in
  (∃ has double multi,
      WorkbenchTree.contextKeys afterSelection !! WorkbenchListHasSelectionOrFocus = Some has
      ∧ WorkbenchTree.contextKeys afterSelection !! WorkbenchListDoubleSelection = Some double
      ∧ WorkbenchTree.contextKeys afterSelection !! WorkbenchListMultiSelection = Some multi
      ∧ (double = true ↔ length selection = 2)
      ∧ (double = true → multi = true)
      ∧ (multi = true → has = true)
      ∧ (has = false →
           selection = []
           ∧ truthyElement (WorkbenchTree.getFocus (WorkbenchTree.super this)) = false))
  ∧ WorkbenchTree.contextKeys afterFocus !! WorkbenchListHasSelectionOrFocus
    = WorkbenchTree.contextKeys afterSelection !! WorkbenchListHasSelectionOrFocus
  ∧ (∀ key, key ≠ WorkbenchListHasSelectionOrFocus →
       WorkbenchTree.contextKeys afterFocus !! key = WorkbenchTree.contextKeys this !! key)
  ∧ WorkbenchTree.super afterSelection = WorkbenchTree.super this
  ∧ WorkbenchTree.super afterFocus = WorkbenchTree.super this
  ∧ WorkbenchTree.openOnSingleClick afterSelection = WorkbenchTree.openOnSingleClick this
  ∧ WorkbenchTree.openOnSingleClick afterFocus = WorkbenchTree.openOnSingleClick this.
Proof.
  intros afterSelection afterFocus selection.
  assert (D1 : WorkbenchListMultiSelection ≠ WorkbenchListHasSelectionOrFocus) by discriminate.
  assert (D2 : WorkbenchListMultiSelection ≠ WorkbenchListDoubleSelection) by discriminate.
  assert (D3 : WorkbenchListDoubleSelection ≠ WorkbenchListHasSelectionOrFocus) by discriminate.
  assert (K1 : WorkbenchTree.contextKeys afterSelection !! WorkbenchListHasSelectionOrFocus
               = Some ((0 <? length selection)%nat
                       || truthyElement (WorkbenchTree.getFocus (WorkbenchTree.super this)))).
  { unfold afterSelection, WorkbenchTree.onDidChangeSelection, WorkbenchTree.setContextKey.
    cbn [WorkbenchTree.contextKeys WorkbenchTree.super].
    rewrite lookup_insert_ne by done. rewrite lookup_insert_ne by done.
    by rewrite lookup_insert_eq. }
  split_and!.
  - exists ((0 <? length selection)%nat
            || truthyElement (WorkbenchTree.getFocus (WorkbenchTree.super this))),
           (length selection =? 2)%nat, (1 <? length selection)%nat.
    split_and!.
    + exact K1.
    + unfold afterSelection, WorkbenchTree.onDidChangeSelection, WorkbenchTree.setContextKey.
      cbn [WorkbenchTree.contextKeys WorkbenchTree.super].
      rewrite lookup_insert_ne by done. by rewrite lookup_insert_eq.
    + unfold afterSelection, WorkbenchTree.onDidChangeSelection, WorkbenchTree.setContextKey.
      cbn [WorkbenchTree.contextKeys WorkbenchTree.super].
      by rewrite lookup_insert_eq.
    + apply Nat.eqb_eq.
    + intros H2. apply Nat.eqb_eq in H2. apply Nat.ltb_lt. lia.
    + intros H1. apply Nat.ltb_lt in H1. apply orb_true_iff. left. apply Nat.ltb_lt. lia.
    + intros Hn. apply orb_false_iff in Hn as [Hl Hf]. split; [|exact Hf].
      apply Nat.ltb_ge in Hl. destruct selection; [reflexivity | simpl in Hl; lia].
  - rewrite K1. unfold afterFocus, WorkbenchTree.onDidChangeFocus, WorkbenchTree.setContextKey.
    cbn [WorkbenchTree.contextKeys]. by rewrite lookup_insert_eq.
  - intros key Hkey. unfold afterFocus, WorkbenchTree.onDidChangeFocus,
      WorkbenchTree.setContextKey. cbn [WorkbenchTree.contextKeys].
    by rewrite lookup_insert_ne.
  - reflexivity.
  - reflexivity.
  - reflexivity.
  - reflexivity.
Qed.

Lemma isDoubleClickOf_truthy (payload : option TreeResourceNavigator.Payload) :
  truthy (TreeResourceNavigator.isDoubleClickOf payload) = true
  ↔ ∃ p oe, payload = Some p
      ∧ TreeResourceNavigator.origin p = VString "mouse"
      ∧ TreeResourceNavigator.originalEvent p = Some oe
      ∧ detail oe = 2%Z.
Proof.
  unfold TreeResourceNavigator.isDoubleClickOf, TreeResourceNavigator.isMouseEventOf,
    TreeResourceNavigator.originalEventOf, strictEq.
  destruct payload as [p|]; cbn [truthy].
  - case_bool_decide as Ho; cbn [truthy].
    + destruct (TreeResourceNavigator.originalEvent p) as [oe|] eqn:Eo; cbn [truthy].
      * rewrite Z.eqb_eq. split.
        -- intros Hd. by exists p, oe.
        -- intros (p' & oe' & Hp & _ & Hoe & Hd). by simplify_eq.
      * split; [discriminate|]. intros (p' & oe' & Hp & _ & Hoe & _). by simplify_eq.
    + split; [discriminate|]. intros (p' & oe' & Hp & Hm & _). by simplify_eq.
  - split; [discriminate|]. intros (p' & oe' & Hp & _). discriminate.
Qed.

Lemma isMouseEventOf_truthy (p : TreeResourceNavigator.Payload) :
  truthy (TreeResourceNavigator.isMouseEventOf (Some p))
  = bool_decide (TreeResourceNavigator.origin p = VString "mouse").
Proof. reflexivity. Qed.

(** X23. A selection change leaves the
    tree alone and either does nothing or fires one event carrying the
    payload and the first selected element. A fired event is pinned only
    for a mouse double click: then the editor takes the focus and
    [preventDefault] is called on the original event, once. For an event
    that is not pinned [preventDefault] is never called. *)
Theorem legacy_onSelection_pins_double_clicks
    (payload : option TreeResourceNavigator.Payload)
    (w : TreeResourceNavigator.World TreeT E) :
  let w' := TreeResourceNavigator.onSelection payload w in
  TreeResourceNavigator.tree w' = TreeResourceNavigator.tree w
  ∧ ((TreeResourceNavigator.fired w' = TreeResourceNavigator.fired w
      ∧ TreeResourceNavigator.prevented w' = TreeResourceNavigator.prevented w)
     ∨ ∃ ev,
         TreeResourceNavigator.fired w' = TreeResourceNavigator.fired w ++ [ev]
         ∧ TreeResourceNavigator.payload ev = payload
         ∧ TreeResourceNavigator.element ev
           = head (WorkbenchTree.getSelection
                     (WorkbenchTree.super (TreeResourceNavigator.tree w)))
         ∧ TreeResourceNavigator.revealIfVisible (TreeResourceNavigator.editorOptions ev) = true
         ∧ (truthy (TreeResourceNavigator.pinned (TreeResourceNavigator.editorOptions ev)) = true →
              TreeResourceNavigator.editorPreserveFocus
                (TreeResourceNavigator.editorOptions ev) = false
              ∧ ∃ p oe, payload = Some p
                  ∧ TreeResourceNavigator.origin p = VString "mouse"
                  ∧ TreeResourceNavigator.originalEvent p = Some oe
                  ∧ detail oe = 2%Z
                  ∧ TreeResourceNavigator.prevented w'
                    = TreeResourceNavigator.prevented w ++ [oe])
         ∧ (truthy (TreeResourceNavigator.pinned (TreeResourceNavigator.editorOptions ev)) = false →
              TreeResourceNavigator.prevented w' = TreeResourceNavigator.prevented w)).
Proof.
  intros w'. subst w'. unfold TreeResourceNavigator.onSelection.
  destruct (truthy match payload with
                   | Some p => TreeResourceNavigator.fromFocus p
                   | None => VUndefined
                   end).
  { split; [reflexivity|]. by left. }
  cbv zeta.
  destruct (negb (truthy (TreeResourceNavigator.isMouseEventOf payload))
            || WorkbenchTree.openOnSingleClick (TreeResourceNavigator.tree w)
            || truthy (TreeResourceNavigator.isDoubleClickOf payload)).
  2: { split; [reflexivity|]. by left. }
  split; [reflexivity|]. right. eexists. split; [reflexivity|].
  cbn [TreeResourceNavigator.payload TreeResourceNavigator.element
       TreeResourceNavigator.editorOptions TreeResourceNavigator.revealIfVisible
       TreeResourceNavigator.pinned TreeResourceNavigator.editorPreserveFocus
       TreeResourceNavigator.prevented].
  split_and!; try reflexivity.
  - intros Hd. rewrite Hd. split.
    + rewrite orb_true_r. reflexivity.
    + pose proof Hd as (p & oe & -> & Hm & Hoe & Hdet)%isDoubleClickOf_truthy.
      exists p, oe. split_and!; try done.
      unfold TreeResourceNavigator.originalEventOf. by rewrite Hoe.
  - intros Hd. rewrite Hd.
    by destruct (TreeResourceNavigator.originalEventOf payload).
Qed.

(** X24. A focus change selects the focused
    element and fires at most one event, which preserves the focus, is not
    pinned, opens in place and carries the focused element; it never calls
    [preventDefault]. A payload asking to prevent opening on focus fires
    nothing. The selection change this makes, marked as coming from the
    focus, is ignored by the selection handler. *)
Theorem legacy_onFocus_selects_and_opens
    (payload : option TreeResourceNavigator.Payload)
    (w : TreeResourceNavigator.World TreeT E) :
  let w' := TreeResourceNavigator.onFocus payload w in
  let element := WorkbenchTree.getFocus (WorkbenchTree.super (TreeResourceNavigator.tree w)) in
  TreeResourceNavigator.tree w'
  = WorkbenchTree.setSelectionOf [element] (TreeResourceNavigator.tree w)
  ∧ TreeResourceNavigator.prevented w' = TreeResourceNavigator.prevented w
  ∧ (TreeResourceNavigator.fired w' = TreeResourceNavigator.fired w
     ∨ TreeResourceNavigator.fired w'
       = TreeResourceNavigator.fired w ++ [
           {| TreeResourceNavigator.editorOptions :=
                {| TreeResourceNavigator.editorPreserveFocus := true;
                   TreeResourceNavigator.pinned := VBool false;
                   TreeResourceNavigator.revealIfVisible := true |};
              TreeResourceNavigator.sideBySide := VBool false;
              TreeResourceNavigator.element := Some element;
              TreeResourceNavigator.payload := payload |}])
  ∧ (∀ p, payload = Some p →
       truthy (TreeResourceNavigator.preventOpenOnFocus p) = true →
       TreeResourceNavigator.fired w' = TreeResourceNavigator.fired w)
  ∧ TreeResourceNavigator.onSelection (Some TreeResourceNavigator.fromFocusPayload) w' = w'.
Proof.
  intros w' element. subst w'. unfold TreeResourceNavigator.onFocus. cbv zeta.
  fold element.
  split_and!.
  - by destruct (_ && _).
  - by destruct (_ && _).
  - destruct (_ && _); [by right | by left].
  - intros p -> Hp. rewrite Hp. reflexivity.
  - reflexivity.
Qed.

(** X25. For a tree just constructed, or one that has just handled a
    configuration change affecting the open mode setting: a selection
    change whose payload is marked as coming from the focus opens nothing;
    of the selection changes not so marked, one by the mouse that is not a
    double click opens nothing exactly when the setting is 'doubleClick',
    and a double click, and a selection from any other origin, open an
    element whatever the setting is. *)
Theorem legacy_navigator_follows_open_mode
    (configurationService : IConfigurationService)
    (t : WorkbenchTree.t TreeT)
    (p : TreeResourceNavigator.Payload)
    (fired0 : list (TreeResourceNavigator.IOpenResourceOptions E))
    (prevented0 : list UIEvent) :
  ((∃ base scoped, t = WorkbenchTree.constructor base scoped configurationService)
   ∨ (∃ e t0, affectsConfiguration e openModeSettingKey = true
        ∧ t = WorkbenchTree.onDidChangeConfiguration configurationService e t0)) →
  let w := {| TreeResourceNavigator.tree := t;
              TreeResourceNavigator.fired := fired0;
              TreeResourceNavigator.prevented := prevented0 |} in
  let w' := TreeResourceNavigator.onSelection (Some p) w in
  let isDoubleClick := truthy (TreeResourceNavigator.isDoubleClickOf (Some p)) in
  let marked := truthy (TreeResourceNavigator.fromFocus p) in
  (marked = true → TreeResourceNavigator.fired w' = fired0)
  ∧ (marked = false → TreeResourceNavigator.origin p ≠ VString "mouse" →
       ∃ ev, TreeResourceNavigator.fired w' = fired0 ++ [ev])
  ∧ (marked = false → isDoubleClick = true →
       ∃ ev, TreeResourceNavigator.fired w' = fired0 ++ [ev])
  ∧ (marked = false →
     TreeResourceNavigator.origin p = VString "mouse" → isDoubleClick = false →
       (TreeResourceNavigator.fired w' = fired0
        ↔ getValue configurationService openModeSettingKey = VString "doubleClick")).
Proof.
  intros Ht w w' isDoubleClick marked.
  split.
  { intros Hmarked. subst w'. unfold TreeResourceNavigator.onSelection.
    fold marked. by rewrite Hmarked. }
  assert (Hrest : marked = false →
    (TreeResourceNavigator.origin p ≠ VString "mouse" →
       ∃ ev, TreeResourceNavigator.fired w' = fired0 ++ [ev])
    ∧ (isDoubleClick = true → ∃ ev, TreeResourceNavigator.fired w' = fired0 ++ [ev])
    ∧ (TreeResourceNavigator.origin p = VString "mouse" → isDoubleClick = false →
         (TreeResourceNavigator.fired w' = fired0
          ↔ getValue configurationService openModeSettingKey = VString "doubleClick")));
    [| split_and!; intros Hm; by apply Hrest].
  intros Hff. unfold marked in Hff.
  assert (Hmode : WorkbenchTree.openOnSingleClick t
                  = useSingleClickToOpen configurationService).
  { destruct Ht as [(base & scoped & ->) | (e & t0 & He & ->)]; [reflexivity|].
    unfold WorkbenchTree.onDidChangeConfiguration. rewrite He.
    by destruct (affectsConfiguration e multiSelectModifierSettingKey). }
  subst w'. unfold TreeResourceNavigator.onSelection. rewrite Hff. cbv zeta.
  fold isDoubleClick. rewrite isMouseEventOf_truthy.
  cbn [TreeResourceNavigator.tree TreeResourceNavigator.fired w]. rewrite Hmode.
  split_and!.
  - intros Ho. rewrite (bool_decide_eq_false_2 _ Ho). cbn [negb orb]. by eexists.
  - intros Hd. rewrite Hd, orb_true_r. by eexists.
  - intros Ho Hd. rewrite (bool_decide_eq_true_2 _ Ho), Hd, orb_false_r. cbn [negb orb].
    destruct (useSingleClickToOpen configurationService) eqn:Es.
    + cbn [TreeResourceNavigator.fired]. split.
      * intros Hf. by apply snoc_not_self in Hf.
      * intros Hv. apply useSingleClickToOpen_spec in Es. contradiction.
    + split; [|reflexivity]. intros _.
      destruct (decide (getValue configurationService openModeSettingKey
                        = VString "doubleClick")) as [|Hn]; [assumption|].
      apply useSingleClickToOpen_spec in Hn. congruence.
Qed.

End LegacyTree.

(** ** Options literals of the list and of the deprecated tree *)

Lemma lookup_spread (a b : gmap string Value) (k : string) :
  spread a b !! k = match b !! k with Some v => Some v | None => a !! k end.
Proof.
  unfold spread. rewrite lookup_union.
  destruct (b !! k) as [v |]; simpl.
  - by rewrite union_Some_l.
  - by rewrite (left_id_L None _).
Qed.

(** X26. In the options a list hands
    to its widget class, what [toWorkbenchListOptions] returned overrules
    the theme's styles, and both overrule [keyboardSupport: false] and the
    shared style controller. [horizontalScrolling] is overruled by
    neither: it is always present, the caller's own value when the caller
    gave one and the setting otherwise. *)
Theorem list_options_precedence
    (options workbenchListOptions styles : gmap string Value)
    (styleController : Value) (configurationService : IConfigurationService) :
  let super :=
    WorkbenchList.superOptions options workbenchListOptions styles styleController
      configurationService in
  (∀ k, k ≠ "horizontalScrolling" →
     super !! k =
       match workbenchListOptions !! k with
       | Some v => Some v
       | None =>
           match styles !! k with
           | Some v => Some v
           | None =>
               if bool_decide (k = "styleController") then Some styleController
               else if bool_decide (k = "keyboardSupport") then Some (VBool false)
               else None
           end
       end)
  ∧ super !! "horizontalScrolling"
    = Some (match prop options "horizontalScrolling" with
            | VUndefined => getValue configurationService horizontalScrollingKey
            | v => v
            end).
Proof.
  intros super. subst super.
  unfold WorkbenchList.superOptions, objectLiteral. cbn [foldl]. split.
  - intros k Hk. rewrite lookup_insert_ne by done. rewrite !lookup_spread.
    destruct (workbenchListOptions !! k) as [v |]; [reflexivity |].
    destruct (styles !! k) as [v |]; [reflexivity |].
    case_bool_decide as Hs.
    + subst k. by rewrite lookup_insert_eq.
    + rewrite lookup_insert_ne by done. case_bool_decide as Hb.
      * subst k. by rewrite lookup_insert_eq.
      * rewrite lookup_insert_ne by done. apply lookup_empty.
  - rewrite lookup_insert_eq. by destruct (prop options "horizontalScrolling").
Qed.

(** X27. In the options the deprecated tree hands to its
    base class the caller's options overrule everything, the scroll mode
    and [keyboardSupport: false] included, and the theme's styles overrule
    these two as well. When neither sets it, the scroll mode is [Auto] for
    a truthy horizontal scrolling setting and [Hidden] otherwise. *)
Theorem legacy_tree_options_precedence (Auto Hidden : Value)
    (options styles : gmap string Value)
    (configurationService : IConfigurationService) :
  let opts := WorkbenchTree.opts Auto Hidden options styles configurationService in
  (∀ k v, options !! k = Some v → opts !! k = Some v)
  ∧ (∀ k v, options !! k = None → styles !! k = Some v → opts !! k = Some v)
  ∧ (∀ k, options !! k = None → styles !! k = None →
       opts !! k =
         if bool_decide (k = "keyboardSupport") then Some (VBool false)
         else if bool_decide (k = "horizontalScrollMode")
         then Some (if truthy (getValue configurationService horizontalScrollingKey)
                    then Auto else Hidden)
         else None).
Proof.
  intros opts. subst opts. unfold WorkbenchTree.opts, objectLiteral. cbn [foldl].
  split_and!.
  - intros k v Hk. rewrite lookup_spread. by rewrite Hk.
  - intros k v Hk Hs. rewrite !lookup_spread. by rewrite Hk, Hs.
  - intros k Hk Hs. rewrite !lookup_spread. rewrite Hk, Hs.
    case_bool_decide as Hb.
    + subst k. by rewrite lookup_insert_eq.
    + rewrite lookup_insert_ne by done. case_bool_decide as Hm.
      * subst k. by rewrite lookup_insert_eq.
      * rewrite lookup_insert_ne by done. apply lookup_empty.
Qed.

(** * Further statements at sample inputs *)

Lemma dispose_of_absent_registration_witness :
  ListService.widgets
    (ListService.dispose (ListService.Registration Cases.strayRegistration)
       Samples.twoWidgets) = [1].
Proof.
  unfold ListService.widgets.
  destruct (dispose_of_absent_registration Samples.twoWidgets Cases.strayRegistration)
    as (Htake & _).
  - repeat constructor; discriminate.
  - rewrite Htake. reflexivity.
Defined.

Lemma register_then_dispose_witness :
  ListService.lastFocusedList
    (ListService.dispose (ListService.Registration Cases.thirdRegistration)
       (ListService.register 3 None true Samples.twoWidgets).2) = Some 3
  ∧ 3 ∉ ListService.widgets
          (ListService.dispose (ListService.Registration Cases.thirdRegistration)
             (ListService.register 3 None true Samples.twoWidgets).2).
Proof.
  destruct (register_then_dispose Cases.twoRegistrations 3 None true
              (ListService.Registration Cases.thirdRegistration)
              (ListService.register 3 None true Samples.twoWidgets).2 eq_refl)
    as (_ & _ & Hlast & Hgone).
  split; [exact Hlast | exact Hgone].
Defined.

Lemma widget_disposal_takes_last_registration_witness :
  ListService.lists
    (ListService.this
       (ListService.run
          [ListService.WidgetDispose 1;
           ListService.Dispose (ListService.Registration Cases.firstRegistration)]
          Samples.twoWidgets)) = [].
Proof.
  apply (widget_disposal_takes_last_registration Cases.twoRegistrations
           Cases.firstRegistration).
  change (Cases.firstRegistration
          ∈ [Cases.firstRegistration;
             {| ListService.objectId := 1; ListService.widget := 2;
                ListService.extraContextKeys := None |}]).
  by left.
Defined.

Lemma lastFocusedList_was_registered_witness :
  registeredIn Cases.twoRegistrations 2.
Proof.
  apply lastFocusedList_was_registered. reflexivity.
Defined.

Lemma events_after_dispose_are_ignored_witness :
  ListService.run [ListService.WidgetFocus 3; ListService.WidgetDispose 3]
    (ListService.dispose (ListService.Registration Cases.thirdRegistration)
       (ListService.register 3 None false Samples.twoWidgets).2)
  = ListService.dispose (ListService.Registration Cases.thirdRegistration)
      (ListService.register 3 None false Samples.twoWidgets).2.
Proof.
  apply (events_after_dispose_are_ignored Samples.twoWidgets _ 3 None false).
  - unfold ListService.listening. change (3 ∉ [1; 2]). intros Hin.
    repeat (apply elem_of_cons in Hin as [Hin | Hin]; [discriminate |]).
    by apply not_elem_of_nil in Hin.
  - reflexivity.
  - reflexivity.
Defined.

Lemma open_mode_only_decides_left_single_clicks_witness :
  WorkbenchOpenController.shouldOpen (fun _ _ => false)
    {| WorkbenchOpenController.openOnSingleClick := true;
       WorkbenchOpenController.existingOpenController := VUndefined |}
    Samples.singleClick = true
  ∧ WorkbenchOpenController.shouldOpen (fun _ _ => false)
      {| WorkbenchOpenController.openOnSingleClick := false;
         WorkbenchOpenController.existingOpenController := VUndefined |}
      Samples.singleClick = false.
Proof.
  destruct (open_mode_only_decides_left_single_clicks (fun _ _ => false) VUndefined
              Samples.singleClick) as (_ & Hsingle & Hdouble).
  - vm_compute. discriminate.
  - split; [exact Hsingle | exact Hdouble].
Defined.

Lemma toWorkbenchListOptions_disposables_witness :
  ∃ result disposables h' m c,
    toWorkbenchListOptions 1%positive Samples.doubleClickMode Samples.callerStore
    = Some (result, disposables, h')
    ∧ disposables = [m; c]
    ∧ Forall (isControllerAt h') disposables.
Proof.
  destruct (toWorkbenchListOptions_disposables 1%positive Samples.doubleClickMode
              Samples.callerStore Samples.callerOptions (lookup_singleton_eq _ _))
    as (result & disposables & h' & fields & c & Hcall & _ & _ & Hinstall & Hall & _).
  cbv zeta in Hinstall.
  change (bool_decide (prop Samples.callerOptions "multipleSelectionSupport" ≠ VBool false)
          && negb (truthy (prop Samples.callerOptions "multipleSelectionController")))
    with true in Hinstall.
  destruct Hinstall as (m & _ & Hd & _).
  exists result, disposables, h', m, c. split_and!; [exact Hcall | exact Hd |].
  eapply Forall_impl; [exact Hall |]. by intros d (_ & _ & Hd').
Defined.

Lemma getSelectionKeyboardEvent_opens_witness :
  let e :=
    {| TreeResourceNavigator2.elements := [5];
       TreeResourceNavigator2.browserEvent :=
         Some (getSelectionKeyboardEvent None (VBool false)) |} in
  let opened preserve element :=
    {| TreeResourceNavigator2.editorOptions :=
         {| TreeResourceNavigator2.editorPreserveFocus := preserve;
            TreeResourceNavigator2.pinned := false;
            TreeResourceNavigator2.revealIfVisible := true |};
       TreeResourceNavigator2.sideBySide := false;
       TreeResourceNavigator2.element := Some element |} in
  TreeResourceNavigator2.fired
    (TreeResourceNavigator2.onDidChangeSelection e Samples.navigator)
  = [opened false 5]
  ∧ TreeResourceNavigator2.fired
      (TreeResourceNavigator2.onDidChangeFocus
         (Some {| TreeResourceNavigator2.openOnFocus := true |}) e Samples.navigator)
    = [opened false 6; opened true 6].
Proof.
  destruct (getSelectionKeyboardEvent_opens None (VBool false) [5] Samples.navigator)
    as (Hfired & _ & Hfocus).
  - simpl. discriminate.
  - split; [exact Hfired | exact (Hfocus eq_refl)].
Defined.

Lemma massageControllerOptions_in_place_witness :
  ∃ o',
    (WorkbenchTreeController.massageControllerOptions 0 1%positive Samples.callerStore).2
      !! 1%positive = Some (ObjectLiteral o')
    ∧ o' !! "keyboardSupport" = Some (VBool false)
    ∧ o' !! "clickBehavior" = Some (VNumber 0)
    ∧ o' !! "multipleSelectionSupport" = Some (VBool true).
Proof.
  destruct (massageControllerOptions_in_place 0 1%positive Samples.callerStore
              Samples.callerOptions (lookup_singleton_eq _ _))
    as (_ & (o' & Ho' & _ & _ & _ & Hks & _ & Hcb & Hother) & _).
  exists o'. split_and!.
  - exact Ho'.
  - apply Hks. vm_compute. discriminate.
  - apply Hcb. vm_compute. discriminate.
  - rewrite Hother by discriminate. apply lookup_singleton_eq.
Defined.

Lemma handleTreeController_in_place_witness :
  ∃ o',
    (handleTreeController (VObject 2) (VObject 3) 1%positive Samples.callerStore).2
      !! 1%positive = Some (ObjectLiteral o')
    ∧ o' !! "controller" = Some (VObject 2)
    ∧ o' !! "styler" = Some (VObject 3).
Proof.
  destruct (handleTreeController_in_place (VObject 2) (VObject 3) 1%positive
              Samples.callerStore Samples.callerOptions eq_refl eq_refl
              (lookup_singleton_eq _ _))
    as (_ & (o' & Ho' & _ & _ & Hc & Hs & _) & _).
  exists o'. split_and!; [exact Ho' | exact Hc | exact Hs].
Defined.

Lemma legacy_navigator_follows_open_mode_witness :
  TreeResourceNavigator.fired
    (TreeResourceNavigator.onSelection (Some Cases.mouseClick)
       {| TreeResourceNavigator.tree := Cases.legacyTree;
          TreeResourceNavigator.fired := ([] : list (TreeResourceNavigator.IOpenResourceOptions nat));
          TreeResourceNavigator.prevented := [] |}) = [].
Proof.
  destruct (legacy_navigator_follows_open_mode (E := nat) Samples.doubleClickMode
              Cases.legacyTree Cases.mouseClick [] [])
    as (_ & _ & _ & Hsingle).
  - left. by eexists _, _.
  - apply Hsingle; reflexivity.
Defined.
